(** * Agentic-Rag: the permission-aware dispatcher of [FireBaseTool.py]

    A shallow embedding of [src/Agent/Tools/FireBaseTool.py]: the record
    store helpers, the field formatter [_get_personal_data], the document
    matcher [_check_document_status] and the dispatcher
    [get_user_specific_data_tool], followed by the properties of the
    specification that concern them.

    Modelling conventions.
    - Python values (Firestore fields and the JSON produced by the router
      model) are the type [value]; a [dict] is an association list in
      iteration order.  Text is ASCII; numbers are integers (floating point
      fields lie outside the embedding).
    - A Python exception is the [Raise] case of [res].
    - The asynchronous calls to Firestore and to the router model are the
      only effects; they are recorded, in order, in a trace of [event]s that
      the monad [M] threads through the code. *)

From Stdlib Require Import Bool List ZArith Lia Ascii String DecimalString
  Permutation.
Import ListNotations.
Open Scope string_scope.


(* ====================================================================== *)
(** ** Python string primitives (ASCII) *)
(* ====================================================================== *)

Module PyStr.

Definition is_upper (c : ascii) : bool :=
  let n := nat_of_ascii c in (65 <=? n)%nat && (n <=? 90)%nat.

Definition is_lower (c : ascii) : bool :=
  let n := nat_of_ascii c in (97 <=? n)%nat && (n <=? 122)%nat.

Definition is_cased (c : ascii) : bool := is_upper c || is_lower c.

Definition to_lower (c : ascii) : ascii :=
  if is_upper c then ascii_of_nat (nat_of_ascii c + 32) else c.

Definition to_upper (c : ascii) : ascii :=
  if is_lower c then ascii_of_nat (nat_of_ascii c - 32) else c.

(** [s.lower()] *)
Fixpoint lower (s : string) : string :=
  match s with
  | EmptyString => EmptyString
  | String c r => String (to_lower c) (lower r)
  end.

(** [s.capitalize()]: first character upper-cased, the rest lower-cased. *)
Definition capitalize (s : string) : string :=
  match s with
  | EmptyString => EmptyString
  | String c r => String (to_upper c) (lower r)
  end.

(** [s.title()]: a cased character is upper-cased when the character
    before it is not cased, and lower-cased otherwise. *)
Fixpoint title_from (prev_cased : bool) (s : string) : string :=
  match s with
  | EmptyString => EmptyString
  | String c r =>
      String (if prev_cased then to_lower c else to_upper c)
             (title_from (is_cased c) r)
  end.

Definition title (s : string) : string := title_from false s.

(** [a in b] on strings. *)
Fixpoint contains (a b : string) : bool :=
  prefix a b ||
  match b with
  | EmptyString => false
  | String _ r => contains a r
  end.

(** [s.replace(old, new)].  [skip] counts the characters of a match that
    are still to be dropped. *)
Fixpoint replace_from (old new : string) (skip : nat) (s : string) : string :=
  match s with
  | EmptyString =>
      match old with EmptyString => new | _ => EmptyString end
  | String c r =>
      match skip with
      | S k => replace_from old new k r
      | O =>
          if prefix old s then
            match length old with
            | O => new ++ String c (replace_from old new 0 r)
            | S k => new ++ replace_from old new k r
            end
          else String c (replace_from old new 0 r)
      end
  end.

Definition replace (old new s : string) : string := replace_from old new 0 s.

(** [sep.join(parts)] *)
Fixpoint join (sep : string) (parts : list string) : string :=
  match parts with
  | [] => EmptyString
  | [p] => p
  | p :: rest => p ++ sep ++ join sep rest
  end.

Definition nl : string := String (ascii_of_nat 10) EmptyString.

(** [str(n)] for an integer. *)
Definition of_Z (z : Z) : string := NilZero.string_of_int (Z.to_int z).

Definition of_nat (n : nat) : string := of_Z (Z.of_nat n).

End PyStr.


(* ====================================================================== *)
(** ** Python values, exceptions and dictionaries *)
(* ====================================================================== *)

#[local] Set Warnings "-register-all".

(** Firestore field values and the JSON values returned by the router. *)
Inductive value : Type :=
| VNone
| VBool (b : bool)
| VInt (z : Z)
| VStr (s : string)
| VList (l : list value)
| VMap (m : list (string * value)).

(** A Python [dict] with string keys, in iteration order. *)
Definition dict : Type := list (string * value).

Inductive exn : Type :=
| AttributeError
| TypeError
| ValueError
| OverflowError
| StoreError      (* any failure raised by the Firestore client *)
| RouterError.    (* the chain raised: model call failed or output was not JSON *)

Inductive res (A : Type) : Type :=
| Ok (a : A)
| Raise (e : exn).

Arguments Ok {A} a.
Arguments Raise {A} e.

Module Py.
Import PyStr.

(** [bool(v)] *)
Definition truthy (v : value) : bool :=
  match v with
  | VNone => false
  | VBool b => b
  | VInt z => negb (Z.eqb z 0)
  | VStr s => negb (String.eqb s EmptyString)
  | VList l => match l with [] => false | _ => true end
  | VMap m => match m with [] => false | _ => true end
  end.

(** [d.get(k)] as an option, and [k in d]. *)
Fixpoint dict_get (d : dict) (k : string) : option value :=
  match d with
  | [] => None
  | (k', v) :: r => if String.eqb k' k then Some v else dict_get r k
  end.

Definition dict_mem (d : dict) (k : string) : bool :=
  match dict_get d k with Some _ => true | None => false end.

(** [d.get(k, default)] *)
Definition dict_get_default (d : dict) (k : string) (default : value) : value :=
  match dict_get d k with Some v => v | None => default end.

(** [v.get(k, default)] on an arbitrary value: only a dict has [get]. *)
Definition get_default (v : value) (k : string) (default : value) : res value :=
  match v with
  | VMap m => Ok (dict_get_default m k default)
  | _ => Raise AttributeError
  end.

Definition get (v : value) (k : string) : res value := get_default v k VNone.

(** [v == "literal"] *)
Definition eq_str (v : value) (s : string) : bool :=
  match v with VStr t => String.eqb t s | _ => false end.

(** [v.lower()]: only a string has [lower]. *)
Definition lower_of (v : value) : res string :=
  match v with VStr s => Ok (lower s) | _ => Raise AttributeError end.

(** Structural equality, used for Firestore's [==] filter. *)
Fixpoint value_eqb (a b : value) : bool :=
  match a, b with
  | VNone, VNone => true
  | VBool x, VBool y => Bool.eqb x y
  | VInt x, VInt y => Z.eqb x y
  | VStr x, VStr y => String.eqb x y
  | VList x, VList y =>
      (fix go (x y : list value) : bool :=
         match x, y with
         | [], [] => true
         | u :: x', w :: y' => value_eqb u w && go x' y'
         | _, _ => false
         end) x y
  | VMap x, VMap y =>
      (fix go (x y : list (string * value)) : bool :=
         match x, y with
         | [], [] => true
         | (k, u) :: x', (k', w) :: y' =>
             String.eqb k k' && value_eqb u w && go x' y'
         | _, _ => false
         end) x y
  | _, _ => false
  end.

(** *** [repr] and [str] *)

Definition squote : ascii := ascii_of_nat 39.
Definition dquote : ascii := ascii_of_nat 34.
Definition backslash : ascii := ascii_of_nat 92.

Definition str1 (c : ascii) : string := String c EmptyString.

Definition hex_digit (n : nat) : ascii :=
  nth n ["0"; "1"; "2"; "3"; "4"; "5"; "6"; "7";
         "8"; "9"; "a"; "b"; "c"; "d"; "e"; "f"]%char "0"%char.

Fixpoint has_char (c : ascii) (s : string) : bool :=
  match s with
  | EmptyString => false
  | String d r => Ascii.eqb c d || has_char c r
  end.

Definition repr_char (quote c : ascii) : string :=
  let n := nat_of_ascii c in
  if Ascii.eqb c quote || Ascii.eqb c backslash then String backslash (str1 c)
  else if (n =? 9)%nat then String backslash "t"
  else if (n =? 10)%nat then String backslash "n"
  else if (n =? 13)%nat then String backslash "r"
  else if (n <? 32)%nat || (n =? 127)%nat then
    String backslash
      (String "x" (String (hex_digit (n / 16)) (str1 (hex_digit (n mod 16)))))
  else str1 c.

Fixpoint repr_chars (quote : ascii) (s : string) : string :=
  match s with
  | EmptyString => EmptyString
  | String c r => repr_char quote c ++ repr_chars quote r
  end.

(** [repr(s)]: single quotes unless the text has a single quote and no
    double quote. *)
Definition repr_str (s : string) : string :=
  let quote :=
    if has_char squote s && negb (has_char dquote s) then dquote else squote in
  String quote (repr_chars quote s ++ str1 quote).

Fixpoint repr (v : value) : string :=
  match v with
  | VNone => "None"
  | VBool true => "True"
  | VBool false => "False"
  | VInt z => of_Z z
  | VStr s => repr_str s
  | VList l => "[" ++ join ", " (map repr l) ++ "]"
  | VMap m =>
      "{" ++ join ", " (map (fun '(k, x) => repr_str k ++ ": " ++ repr x) m) ++ "}"
  end.

(** [str(v)], which is what an f-string placeholder inserts. *)
Definition str (v : value) : string :=
  match v with VStr s => s | _ => repr v end.

(** *** The format specification [,.2f] *)

(** [float(a)] for a non-negative integer, as the exact integer value of
    the nearest double (ties to even); [None] when it overflows. *)
Definition to_double (a : Z) : option Z :=
  let bits := if (a =? 0)%Z then 0%Z else (Z.log2 a + 1)%Z in
  if (bits <=? 53)%Z then Some a
  else
    let k := (bits - 53)%Z in
    let q := Z.shiftr a k in
    let r := Z.land a (Z.ones k) in
    let half := Z.shiftl 1 (k - 1) in
    let q' := if (half <? r)%Z || ((r =? half)%Z && Z.odd q)
              then (q + 1)%Z else q in
    let f := Z.shiftl q' k in
    if (f <? Z.shiftl 1 1024)%Z then Some f else None.

(** Thousands separators in a run of digits. *)
Fixpoint group3 (s : string) : string :=
  match s with
  | EmptyString => EmptyString
  | String c r =>
      String c
        (if (0 <? length r)%nat && (length r mod 3 =? 0)%nat
         then "," ++ group3 r else group3 r)
  end.

Definition format_int_2f (z : Z) : res string :=
  match to_double (Z.abs z) with
  | None => Raise OverflowError
  | Some f =>
      Ok ((if (z <? 0)%Z then "-" else EmptyString) ++ group3 (of_Z f) ++ ".00")
  end.

(** [f"{v:,.2f}"] *)
Definition format_2f (v : value) : res string :=
  match v with
  | VInt z => format_int_2f z
  | VBool b => format_int_2f (if b then 1 else 0)
  | VStr _ => Raise ValueError
  | VNone | VList _ | VMap _ => Raise TypeError
  end.

(** [a + b] *)
Definition as_int (v : value) : option Z :=
  match v with
  | VInt z => Some z
  | VBool b => Some (if b then 1 else 0)%Z
  | _ => None
  end.

Definition add (a b : value) : res value :=
  match as_int a, as_int b with
  | Some x, Some y => Ok (VInt (x + y))
  | _, _ =>
      match a, b with
      | VStr x, VStr y => Ok (VStr (x ++ y))
      | VList x, VList y => Ok (VList (x ++ y))
      | _, _ => Raise TypeError
      end
  end.

End Py.


(* ====================================================================== *)
(** ** Effects: the trace monad *)
(* ====================================================================== *)

(** The menu of actions offered to the router, in insertion order. *)
Definition menu : Type := list (string * string).

(** The calls that leave the process. *)
Inductive event : Type :=
| EvDocGet (user_id : string)
    (* collection("users").document(user_id).get() *)
| EvQuery (field : string) (v : value) (limit : option nat)
    (* collection("users").where(field, "==", v)[.limit(n)].stream() *)
| EvRoute (query : string) (role : value) (actions : menu).
    (* chain.ainvoke({query, user_role, actions}) *)

Definition trace : Type := list event.

Definition M (A : Type) : Type := trace -> res A * trace.

Definition ret {A} (a : A) : M A := fun tr => (Ok a, tr).

Definition raise {A} (e : exn) : M A := fun tr => (Raise e, tr).

Definition bind {A B} (m : M A) (k : A -> M B) : M B :=
  fun tr =>
    match m tr with
    | (Ok a, tr') => k a tr'
    | (Raise e, tr') => (Raise e, tr')
    end.

Definition emit (e : event) : M unit := fun tr => (Ok tt, (tr ++ [e])%list).

(** [try: m except Exception: h] *)
Definition try_except {A} (m : M A) (h : exn -> M A) : M A :=
  fun tr =>
    match m tr with
    | (Ok a, tr') => (Ok a, tr')
    | (Raise e, tr') => h e tr'
    end.

Definition lift {A} (r : res A) : M A := fun tr => (r, tr).

Definition rbind {A B} (r : res A) (k : A -> res B) : res B :=
  match r with
  | Ok a => k a
  | Raise e => Raise e
  end.

Declare Scope py_scope.
Delimit Scope py_scope with py.
Notation "x <- m ;; k" := (bind m (fun x => k))
  (at level 61, m at next level, right associativity) : py_scope.
Notation "m ;; k" := (bind m (fun _ => k))
  (at level 61, right associativity) : py_scope.
Notation "'let?' x := r 'in' k" := (rbind r (fun x => k))
  (at level 10, x name, r at level 100, k at level 200) : py_scope.
Open Scope py_scope.

(* ====================================================================== *)
(** ** External collaborators: Firestore and the router model *)
(* ====================================================================== *)

Inductive store_op : Type :=
| OpDocGet (user_id : string)
| OpQuery (field : string) (v : value).

(** The asynchronous Firestore client: the [users] collection in stream
    order, and the operations on which the client raises. *)
Record Db : Type := {
  users : list (string * dict);
  fails : store_op -> bool
}.

(** What [chain.ainvoke] does: it raises (the model call failed, or the
    output parser rejected text that is not JSON), or it returns the parsed
    JSON value. *)
Inductive llm_reply : Type :=
| Throws
| Replies (response : value).

Definition router : Type := string -> value -> menu -> llm_reply.

Module Store.
Import Py.

Fixpoint doc_lookup (us : list (string * dict)) (user_id : string) : option dict :=
  match us with
  | [] => None
  | (i, d) :: r => if String.eqb i user_id then Some d else doc_lookup r user_id
  end.

Definition field_is (field : string) (v : value) (d : dict) : bool :=
  match dict_get d field with
  | Some x => value_eqb x v
  | None => false
  end.

Definition take (limit : option nat) (l : list dict) : list dict :=
  match limit with
  | Some n => firstn n l
  | None => l
  end.

(** [user_ref.get()] followed by [to_dict() if exists else None]. *)
Definition doc_get (db : Db) (user_id : string) : M (option dict) :=
  emit (EvDocGet user_id) ;;
  if fails db (OpDocGet user_id) then raise StoreError
  else ret (doc_lookup (users db) user_id).

(** All documents yielded by [where(field, "==", v)[.limit(n)].stream()]. *)
Definition stream (db : Db) (field : string) (v : value) (limit : option nat)
  : M (list dict) :=
  emit (EvQuery field v limit) ;;
  if fails db (OpQuery field v) then raise StoreError
  else ret (take limit (filter (field_is field v) (map snd (users db)))).

Definition ainvoke (llm : router) (query : string) (role : value) (actions : menu)
  : M value :=
  emit (EvRoute query role actions) ;;
  match llm query role actions with
  | Throws => raise RouterError
  | Replies response => ret response
  end.

End Store.

(* ====================================================================== *)
(** ** FireBaseTool.py *)
(* ====================================================================== *)

Import PyStr Py Store.

(** [_get_user_document]: every exception of the lookup is swallowed. *)
Definition _get_user_document (db_client : option Db) (user_id : string)
  : M (option dict) :=
  match db_client with
  | None => ret None
  | Some db => try_except (doc_get db user_id) (fun _ => ret None)
  end.

Definition ordered_keys : list string :=
  ["name"; "email"; "role"; "position"; "department";
   "baseSalary"; "bonus"; "annualLeaveDays"; "sickLeaveDays"].

(** The body of [for key in ordered_keys]: the lines appended for [key]. *)
Definition summary_line (user_doc : dict) (key : string) : res (list string) :=
  match dict_get user_doc key with
  | None => Ok []
  | Some value =>
      let display_key := title (replace "joinDate" "Start Date" key) in
      if String.eqb key "baseSalary" then
        let? amount := format_2f value in Ok ["- Salary: $" ++ amount]
      else if String.eqb key "bonus" then
        let? amount := format_2f value in Ok ["- Bonus: $" ++ amount]
      else Ok ["- " ++ display_key ++ ": " ++ str value]
  end.

Fixpoint summary_lines (user_doc : dict) (keys : list string) : res (list string) :=
  match keys with
  | [] => Ok []
  | key :: rest =>
      let? l := summary_line user_doc key in
      let? ls := summary_lines user_doc rest in
      Ok (l ++ ls)%list
  end.

(** [v.items()]: only a dict has [items]. *)
Definition items (v : value) : res dict :=
  match v with
  | VMap m => Ok m
  | _ => Raise AttributeError
  end.

(** The walrus blocks that append the document lines of the summary. *)
Definition flag_line (user_doc : dict) (map_key label : string) : res (list string) :=
  match dict_get user_doc map_key with
  | None => Ok []
  | Some docs =>
      if truthy docs then
        let? its := items docs in
        let listed := join ", " (map fst (filter (fun '(_, status) => truthy status) its)) in
        if String.eqb listed EmptyString then Ok [] else Ok [label ++ listed]
      else Ok []
  end.

(** The [field_lower == "all"] branch of [_get_personal_data]. *)
Definition all_summary (user_doc : dict) (name : value) : res string :=
  let? fields := summary_lines user_doc ordered_keys in
  let? submitted := flag_line user_doc "uploadedDocuments" "- Documents Submitted: " in
  let? resubmit := flag_line user_doc "resubmissionRequested" "- Resubmission Required For: " in
  Ok (join nl (("Here is a summary for " ++ str name ++ ":") :: (fields ++ submitted ++ resubmit)%list)).

(** [name.capitalize()] *)
Definition capitalize_of (v : value) : res string :=
  match v with
  | VStr s => Ok (capitalize s)
  | _ => Raise AttributeError
  end.

(** The [field_lower == "salary"] branch of [_get_personal_data]. *)
Definition salary_report (user_doc : dict) (name : value) : res string :=
  if dict_mem user_doc "baseSalary" then
    let base := dict_get_default user_doc "baseSalary" (VInt 0) in
    let bonus := dict_get_default user_doc "bonus" (VInt 0) in
    let? who := capitalize_of name in
    let? total := add base bonus in
    let? amount := format_2f total in
    Ok (who ++ "'s total compensation is $" ++ amount ++ ".")
  else Ok ("Salary information is not available for " ++ str name ++ ".").

(** The first item of the record whose key is [field_lower] once lower-cased. *)
Definition direct_match (user_doc : dict) (field_lower : string)
  : option (string * value) :=
  find (fun '(doc_key, _) => String.eqb (lower doc_key) field_lower) user_doc.

Definition _get_personal_data (user_doc : dict) (field : value) : res string :=
  if negb (truthy field) then
    Ok "Please specify what personal information you'd like to know."
  else
    let name := dict_get_default user_doc "name" (VStr "The user") in
    let? field_lower := lower_of field in
    if String.eqb field_lower "all" then all_summary user_doc name
    else
      match direct_match user_doc field_lower with
      | Some (doc_key, doc_value) =>
          Ok ("The value for '" ++ doc_key ++ "' for " ++ str name
                ++ " is: " ++ str doc_value)
      | None =>
          if String.eqb field_lower "salary" then salary_report user_doc name
          else
            Ok ("I'm sorry, I couldn't find information about '" ++ str field
                  ++ "' in " ++ str name ++ "'s records.")
      end.

(** The nested helper [find_robust_key]: iterating a dict yields its keys, a
    string its characters, a list its elements; anything else is not
    iterable. *)
Definition clean (s : string) : string := replace " " EmptyString (lower s).

Fixpoint first_key (clean_target : string) (keys : list string) : option string :=
  match keys with
  | [] => None
  | key_from_db :: rest =>
      if contains clean_target (clean key_from_db) then Some key_from_db
      else first_key clean_target rest
  end.

Fixpoint chars (s : string) : list string :=
  match s with
  | EmptyString => []
  | String c r => str1 c :: chars r
  end.

Fixpoint first_elem (clean_target : string) (l : list value) : res (option string) :=
  match l with
  | [] => Ok None
  | VStr key_from_db :: rest =>
      if contains clean_target (clean key_from_db) then Ok (Some key_from_db)
      else first_elem clean_target rest
  | _ :: _ => Raise AttributeError
  end.

Definition find_robust_key (data_map target_key_from_llm : value)
  : res (option string) :=
  let? target_lower := lower_of target_key_from_llm in
  let clean_target := replace " " EmptyString target_lower in
  match data_map with
  | VMap m => Ok (first_key clean_target (map fst m))
  | VStr s => Ok (first_key clean_target (chars s))
  | VList l => first_elem clean_target l
  | VNone | VBool _ | VInt _ => Raise TypeError
  end.

(** One of the two walrus chains of [_check_document_status]:
    [if m := user_doc.get(map_key): if key := find_robust_key(m, name):
     if m.get(key): ...].  The result is the key whose message is returned,
    or [None] when the chain falls through. *)
Definition flagged_key (user_doc : dict) (map_key : string) (document_name : value)
  : res (option string) :=
  match dict_get user_doc map_key with
  | None => Ok None
  | Some data_map =>
      if truthy data_map then
        let? found := find_robust_key data_map document_name in
        match found with
        | None => Ok None
        | Some key =>
            if String.eqb key EmptyString then Ok None
            else
              let? flag := get data_map key in
              if truthy flag then Ok (Some key) else Ok None
        end
      else Ok None
  end.

Definition msg_resubmit (name : value) (resub_key : string) : string :=
  "Action required for " ++ str name
    ++ ": They need to resubmit their '" ++ resub_key ++ "'.".

Definition msg_submitted (name : value) (up_key : string) : string :=
  "Yes, the '" ++ up_key ++ "' for " ++ str name
    ++ " has been successfully submitted and approved.".

Definition msg_no_document (name document_name : value) : string :=
  "There is no information regarding the document '" ++ str document_name
    ++ "' for " ++ str name ++ ".".

Definition _check_document_status (user_doc : dict) (document_name : value)
  : res string :=
  if negb (truthy document_name) then
    Ok "Please specify which document you'd like to check."
  else
    let name := dict_get_default user_doc "name" (VStr "the user") in
    let? resub := flagged_key user_doc "resubmissionRequested" document_name in
    match resub with
    | Some resub_key => Ok (msg_resubmit name resub_key)
    | None =>
        let? up := flagged_key user_doc "uploadedDocuments" document_name in
        match up with
        | Some up_key => Ok (msg_submitted name up_key)
        | None => Ok (msg_no_document name document_name)
        end
    end.

Definition _get_new_applicant_count (db_client : option Db) : M string :=
  match db_client with
  | None => ret "Database not available."
  | Some db =>
      docs <- stream db "role" (VStr "new") None ;;
      let count := List.length docs in
      if (count =? 0)%nat then ret "There are currently no new applicants."
      else if (count =? 1)%nat then
        ret ("There is currently " ++ of_nat count ++ " new applicant.")
      else ret ("There are currently " ++ of_nat count ++ " new applicants.")
  end.

(** [identifier.title()] *)
Definition title_of (v : value) : res string :=
  match v with
  | VStr s => Ok (title s)
  | _ => Raise AttributeError
  end.

Definition _get_user_by_identifier (db_client : option Db) (identifier : value)
  : M (option dict) :=
  if negb (truthy identifier) then ret None
  else
    match db_client with
    | None => raise AttributeError
    | Some db =>
        by_email <- stream db "email" identifier (Some 1%nat) ;;
        match by_email with
        | doc :: _ => ret (Some doc)
        | [] =>
            titled <- lift (title_of identifier) ;;
            by_name <- stream db "name" (VStr titled) (Some 1%nat) ;;
            match by_name with
            | doc :: _ => ret (Some doc)
            | [] => ret None
            end
        end
    end.

Definition handle_sensitive_or_broad_data_request (query : string) : string :=
  "I'm sorry, I cannot fulfill that request. This is likely because it's a request "
  ++ "for bulk data or sensitive information for which you do not have permission.".

(** *** The dispatcher *)

Definition msg_no_database : string :=
  "I am sorry, but I cannot connect to our database at the moment.".

Definition msg_no_profile : string :=
  "I'm sorry, I couldn't find your user profile.".

Definition msg_role_not_configured (user_role : value) : string :=
  "I'm sorry, your user role ('" ++ str user_role
    ++ "') is not configured for any actions.".

Definition msg_cannot_perform : string :=
  "I'm sorry, I cannot perform that action due to your permissions or an unrecognized request.".

Definition msg_rephrase : string :=
  "I had trouble processing your request. Please try rephrasing.".

Definition msg_no_target : string :=
  "Please specify the person you are asking about.".

Definition msg_target_not_found (target_id : value) : string :=
  "I could not find a user matching '" ++ str target_id ++ "'.".

Definition available_actions_for (user_role : value) : menu :=
  if eq_str user_role "employee" || eq_str user_role "new" then
    [("get_my_personal_info", "Get the logged-in user's own core data.");
     ("check_my_document_status",
      "Check the logged-in user's own document submission status.")]
  else if eq_str user_role "hr" then
    [("get_my_personal_info", "Get the HR user's own core data.");
     ("check_my_document_status", "Check the HR user's own document status.");
     ("get_information_about_anyone",
      "Get info (data or document status) about any other user.");
     ("get_applicant_count", "Get the total count of new job applicants.")]
  else [].

Definition doc_keywords : list string :=
  ["document"; "certificate"; "id"; "bank"; "submission"; "status"; "upload"].

(** [if not d] for an optional dict: [None] and [{}] are both falsy. *)
Definition present (d : option dict) : option dict :=
  match d with
  | Some ((_ :: _) as doc) => Some doc
  | _ => None
  end.

(** The [elif ... get_information_about_anyone] branch. *)
Definition about_anyone (db_client : option Db) (parameters : value) : M string :=
  target_id <- lift (get parameters "target_identifier") ;;
  req_details <- lift (get_default parameters "request_details" (VStr "all")) ;;
  if negb (truthy target_id) then ret msg_no_target
  else
    target_doc <- _get_user_by_identifier db_client target_id ;;
    match present target_doc with
    | None => ret (msg_target_not_found target_id)
    | Some target_doc =>
        details_lower <- lift (lower_of req_details) ;;
        if existsb (fun keyword => contains keyword details_lower) doc_keywords
        then lift (_check_document_status target_doc req_details)
        else lift (_get_personal_data target_doc req_details)
    end.

(** The dispatch logic of the [try] block, applied to the router's answer. *)
Definition dispatch (db_client : option Db) (user_doc : dict) (user_role : value)
    (response : value) : M string :=
  action_name <- lift (get response "action_name") ;;
  parameters <- lift (get_default response "parameters" (VMap [])) ;;
  if eq_str action_name "get_my_personal_info" then
    field <- lift (get parameters "field") ;;
    lift (_get_personal_data user_doc field)
  else if eq_str action_name "check_my_document_status" then
    document_name <- lift (get parameters "document_name") ;;
    lift (_check_document_status user_doc document_name)
  else if eq_str action_name "get_applicant_count" && eq_str user_role "hr" then
    _get_new_applicant_count db_client
  else if eq_str action_name "get_information_about_anyone" && eq_str user_role "hr" then
    about_anyone db_client parameters
  else ret msg_cannot_perform.

(** The body of the [try] block, after the chain has been built. *)
Definition route_and_dispatch (llm : router) (query : string)
    (db_client : option Db) (user_doc : dict) (user_role : value)
    (available_actions : menu) : M string :=
  response <- ainvoke llm query user_role available_actions ;;
  dispatch db_client user_doc user_role response.

Definition get_user_specific_data_tool (llm : router) (query user_id : string)
    (db_client : option Db) : M string :=
  match db_client with
  | None => ret msg_no_database
  | Some _ =>
      user_doc <- _get_user_document db_client user_id ;;
      match present user_doc with
      | None => ret msg_no_profile
      | Some user_doc =>
          let user_role := dict_get_default user_doc "role" (VStr "unknown") in
          let available_actions := available_actions_for user_role in
          match available_actions with
          | [] => ret (msg_role_not_configured user_role)
          | _ :: _ =>
              try_except
                (route_and_dispatch llm query db_client user_doc user_role
                   available_actions)
                (fun _ => ret msg_rephrase)
          end
      end
  end.

(** Running the tool on a fresh request. *)
Definition run_tool (llm : router) (query user_id : string) (db_client : option Db)
  : res string * trace :=
  get_user_specific_data_tool llm query user_id db_client [].

(* ====================================================================== *)
(** ** Sample data *)
(* ====================================================================== *)

Module Fixtures.

Definition id_card_maps : dict :=
  [("resubmissionRequested", VMap [("ID Card", VBool true)]);
   ("uploadedDocuments", VMap [("ID Card", VBool true)])].

Definition bob : dict :=
  [("name", VStr "Bob"); ("email", VStr "bob@other.com");
   ("role", VStr "employee"); ("position", VStr "Engineer");
   ("baseSalary", VInt 5000); ("bonus", VInt 250)].

Definition robert : dict :=
  [("name", VStr "Robert"); ("email", VStr "bob@co.com"); ("role", VStr "new");
   ("uploadedDocuments",
    VMap [("National ID Card", VBool true); ("Bank Details", VBool false)]);
   ("resubmissionRequested", VMap [("National ID Card", VBool false)])].

Definition hana : dict :=
  [("name", VStr "Hana"); ("email", VStr "hana@co.com"); ("role", VStr "hr");
   ("department", VStr "People"); ("baseSalary", VInt 1234567);
   ("annualLeaveDays", VInt 21)].

Definition omar : dict :=
  [("name", VStr "Omar"); ("email", VStr "omar@co.com"); ("role", VStr "admin")].

Definition lina : dict :=
  [("name", VStr "Lina"); ("email", VStr "lina@co.com"); ("role", VStr "guest")].

Definition people : list (string * dict) :=
  [("u1", bob); ("u2", robert); ("u3", hana); ("u4", omar); ("u5", lina)].

(** A store that answers every call, and one that fails every call. *)
Definition db : Db := {| users := people; fails := fun _ => false |}.
Definition db_down : Db := {| users := people; fails := fun _ => true |}.

(** Routers with a fixed behaviour. *)
Definition always (r : llm_reply) : router := fun _ _ _ => r.

Definition reply (action_name : string) (parameters : dict) : llm_reply :=
  Replies (VMap [("action_name", VStr action_name); ("parameters", VMap parameters)]).

(** A record whose base salary was stored as text, and a store that holds
    it beside Hana's. *)
Definition sara : dict :=
  [("name", VStr "Sara"); ("email", VStr "sara@co.com"); ("role", VStr "employee");
   ("baseSalary", VStr "5000")].

Definition db_text_salary : Db :=
  {| users := [("u3", hana); ("u6", sara)]; fails := fun _ => false |}.

End Fixtures.


(* ====================================================================== *)
(** ** Vocabulary of the specification *)
(* ====================================================================== *)

(** [a] occurs in [b] as a contiguous run of characters. *)
Definition is_substring (a b : string) : Prop :=
  exists before after, b = before ++ a ++ after.

(** Deleting every space of a text. *)
Fixpoint strip_spaces (s : string) : string :=
  match s with
  | EmptyString => EmptyString
  | String c r =>
      if Ascii.eqb c " "%char then strip_spaces r else String c (strip_spaces r)
  end.

(** The normal form of a document name: lower-cased, spaces removed. *)
Definition normalized (s : string) : string := strip_spaces (lower s).

(** [x] is the first element of [l] that satisfies [matches]. *)
Definition first_such {A : Type} (matches : A -> Prop) (l : list A) (x : A)
  : Prop :=
  exists earlier later,
    l = (earlier ++ x :: later)%list /\ matches x /\
    Forall (fun y => ~ matches y) earlier.

(** The display name used in the texts of the formatter and of the matcher. *)
Definition formatter_name (user_doc : dict) : value :=
  dict_get_default user_doc "name" (VStr "The user").

Definition matcher_name (user_doc : dict) : value :=
  dict_get_default user_doc "name" (VStr "the user").

(** The record key of an item equals the field name when both are
    lower-cased. *)
Definition same_field (field : string) (item : string * value) : Prop :=
  lower (fst item) = lower field.

(** The role of a caller record, as the dispatcher reads it. *)
Definition role_of (user_doc : dict) : value :=
  dict_get_default user_doc "role" (VStr "unknown").

(** No record query (target lookup or applicant count) was sent. *)
Definition no_query (tr : trace) : Prop :=
  forall field v limit, ~ In (EvQuery field v limit) tr.

(** No classification call was made. *)
Definition no_route (tr : trace) : Prop :=
  forall query role actions, ~ In (EvRoute query role actions) tr.

(* ====================================================================== *)
(** ** Vocabulary of the further properties *)
(* ====================================================================== *)

Definition is_query (e : event) : Prop :=
  exists field v limit, e = EvQuery field v limit.

(** Whatever trace [m] starts from, it only appends to it, at most [n]
    events, all of them record queries. *)
Definition appends_queries {A : Type} (n : nat) (m : M A) : Prop :=
  forall tr,
  exists added,
    snd (m tr) = (tr ++ added)%list /\ (List.length added <= n)%nat /\
    Forall is_query added.

(** The names of the actions offered to a role. *)
Definition offered (role : value) : list string :=
  map fst (available_actions_for role).

(** The number of records of the collection whose role is ["new"]. *)
Definition new_applicants (db : Db) : nat :=
  List.length (filter (field_is "role" (VStr "new")) (map snd (users db))).

(** What the tool says once a text has been produced or an exception has
    reached its [except] clause. *)
Definition answer_of (r : res string) : res string :=
  match r with
  | Ok text => Ok text
  | Raise _ => Ok msg_rephrase
  end.

(** The record fields that the summary of the formatter reads. *)
Definition summary_keys : list string :=
  (ordered_keys ++ ["uploadedDocuments"; "resubmissionRequested"])%list.

(** The document map stored under [map_key], if any, is a dict or is falsy. *)
Definition doc_map_ok (user_doc : dict) (map_key : string) : Prop :=
  forall v,
    dict_get user_doc map_key = Some v ->
    truthy v = false \/ exists m, v = VMap m.

(** The amount stored under [key], if any, is an integer (or a boolean) of
    magnitude below [2 ^ 999]. *)
Definition amount_ok (user_doc : dict) (key : string) : Prop :=
  forall v,
    dict_get user_doc key = Some v ->
    exists z, as_int v = Some z /\ (Z.abs z < 2 ^ 999)%Z.

(** The name of the record, if any, is a text. *)
Definition name_ok (user_doc : dict) : Prop :=
  forall v, dict_get user_doc "name" = Some v -> exists s, v = VStr s.

(* ====================================================================== *)
(** ** IngestionPipline.py: the line splitter *)
(* ====================================================================== *)

Module Ingestion.

(** The local dataclass [Document]. *)
Record Document : Type := {
  page_content : string;
  metadata : dict
}.

(** [c.isspace()] on ASCII: tab, line feed, vertical tab, form feed,
    carriage return, the four separators [\x1c]-[\x1f], and space. *)
Definition is_space (c : ascii) : bool :=
  let n := nat_of_ascii c in
  ((9 <=? n)%nat && (n <=? 13)%nat) || ((28 <=? n)%nat && (n <=? 32)%nat).

Fixpoint lstrip (s : string) : string :=
  match s with
  | EmptyString => EmptyString
  | String c r => if is_space c then lstrip r else s
  end.

Fixpoint rstrip (s : string) : string :=
  match s with
  | EmptyString => EmptyString
  | String c r =>
      match rstrip r with
      | EmptyString => if is_space c then EmptyString else String c EmptyString
      | r' => String c r'
      end
  end.

(** [s.strip()] *)
Definition strip (s : string) : string := rstrip (lstrip s).

(** [s.split(sep)] for a non-empty [sep]: [current] is the piece being read,
    [skip] counts the characters of a separator still to be dropped. *)
Fixpoint split_from (sep : string) (skip : nat) (current s : string) : list string :=
  match s with
  | EmptyString => [current]
  | String c r =>
      match skip with
      | S k => split_from sep k current r
      | O =>
          if prefix sep s
          then current :: split_from sep (String.length sep - 1) EmptyString r
          else split_from sep 0 (current ++ String c EmptyString) r
      end
  end.

(** [s.split(sep)]; an empty separator is a [ValueError]. *)
Definition split (sep s : string) : res (list string) :=
  match sep with
  | EmptyString => Raise ValueError
  | _ => Ok (split_from sep 0 EmptyString s)
  end.

(** The list comprehension that keeps the stripped pieces longer than one
    character. *)
Definition kept (pieces : list string) : list string :=
  map strip (filter (fun doc => (1 <? String.length (strip doc))%nat) pieces).

(** The [for line in lines] loop followed by the final [if]: the chunks
    appended from a given [current_chunk] on. *)
Fixpoint chunk_loop (chunk_size : Z) (splitter_tag : string) (lines : list string)
    (current_chunk : string) : list Document :=
  match lines with
  | [] =>
      if (0 <=? Z.of_nat (String.length current_chunk))%Z
      then [{| page_content := strip current_chunk; metadata := [] |}]
      else []
  | line :: rest =>
      let current_chunk := current_chunk ++ (line ++ splitter_tag) in
      if (chunk_size <=? Z.of_nat (String.length current_chunk))%Z
      then {| page_content := strip current_chunk; metadata := [] |}
             :: chunk_loop chunk_size splitter_tag rest EmptyString
      else chunk_loop chunk_size splitter_tag rest current_chunk
  end.

Definition process_simpler_splitter (texts : list string) (metadatas : list dict)
    (chunk_size : Z) (splitter_tag : string) : res (list Document) :=
  let full_text := join " " texts in
  let? pieces := split splitter_tag full_text in
  let lines := kept pieces in
  Ok (chunk_loop chunk_size splitter_tag lines EmptyString).

(** The chunk made of an accumulated text. *)
Definition chunk_of (raw : string) : Document :=
  {| page_content := strip raw; metadata := [] |}.

(** The lines the splitter works on. *)
Definition lines_of (texts : list string) (splitter_tag : string) : list string :=
  kept (split_from splitter_tag 0 EmptyString (join " " texts)).

(** The accumulated texts at the moments a chunk is appended, before they
    are stripped. *)
Fixpoint raw_chunks (chunk_size : Z) (splitter_tag : string) (lines : list string)
    (current_chunk : string) : list string :=
  match lines with
  | [] => [current_chunk]
  | line :: rest =>
      let current_chunk := current_chunk ++ (line ++ splitter_tag) in
      if (chunk_size <=? Z.of_nat (String.length current_chunk))%Z
      then current_chunk :: raw_chunks chunk_size splitter_tag rest EmptyString
      else raw_chunks chunk_size splitter_tag rest current_chunk
  end.

(** The texts of a list, one after the other. *)
Definition glue (parts : list string) : string :=
  fold_right append EmptyString parts.

End Ingestion.

(* ====================================================================== *)
(** ** AgentController.py, Dependencies.py and main.py *)
(* ====================================================================== *)

Module AgentController.

(** The local guardrail of [AgentController.py], registered as the tool
    [handle_sensitive_or_broad_data_request]. *)
Definition handle_sensitive_or_broad_data_request (query : string) : string :=
  "I'm sorry, I cannot fulfill that request. "
  ++ "This is likely because it's a request for bulk data or sensitive "
  ++ "information for which you do not have permission.".

End AgentController.

Module Web.

(** What a FastAPI dependency does: it returns a value or raises
    [HTTPException(status_code, detail)]. *)
Inductive http (A : Type) : Type :=
| Returns (a : A)
| HTTPException (status_code : Z) (detail : string).

Arguments Returns {A} a.
Arguments HTTPException {A} status_code detail.

(** An attribute of [app.state]: never assigned, or assigned [None] or an
    object. *)
Inductive attribute (A : Type) : Type :=
| Unset
| Assigned (v : option A).

Arguments Unset {A}.
Arguments Assigned {A} v.

Section Clients.

(** The synchronous and the asynchronous Firestore client objects. *)
Variables SyncClient AsyncClient : Type.

Record app_state : Type := {
  db_client_sync : attribute SyncClient;
  db_client_async : attribute AsyncClient
}.

(** How far the [try] block of [startup_event] gets: one of its calls
    raises, or both clients are created. *)
Inductive startup : Type :=
| CertificateFails
| InitializeAppFails
| SyncClientFails
| AsyncClientFails (sync_client : SyncClient)
| ClientsCreated (sync_client : SyncClient) (async_client : AsyncClient).

(** [startup_event]: the state it leaves. *)
Definition startup_event (outcome : startup) (state : app_state) : app_state :=
  match outcome with
  | ClientsCreated sync_client async_client =>
      {| db_client_sync := Assigned (Some sync_client);
         db_client_async := Assigned (Some async_client) |}
  | CertificateFails | InitializeAppFails | SyncClientFails | AsyncClientFails _ =>
      {| db_client_sync := Assigned None; db_client_async := Assigned None |}
  end.

Definition get_sync_db_client (state : app_state) : http SyncClient :=
  match db_client_sync state with
  | Assigned (Some client) => Returns client
  | Unset | Assigned None =>
      HTTPException 503 "Synchronous DB service is not available."
  end.

Definition get_async_db_client (state : app_state) : http AsyncClient :=
  match db_client_async state with
  | Assigned (Some client) => Returns client
  | Unset | Assigned None =>
      HTTPException 503 "Asynchronous DB service is not available."
  end.

End Clients.

Arguments db_client_sync {SyncClient AsyncClient} a.
Arguments db_client_async {SyncClient AsyncClient} a.
Arguments CertificateFails {SyncClient AsyncClient}.
Arguments InitializeAppFails {SyncClient AsyncClient}.
Arguments SyncClientFails {SyncClient AsyncClient}.
Arguments AsyncClientFails {SyncClient AsyncClient} sync_client.
Arguments ClientsCreated {SyncClient AsyncClient} sync_client async_client.
Arguments startup_event {SyncClient AsyncClient} outcome state.
Arguments get_sync_db_client {SyncClient AsyncClient} state.
Arguments get_async_db_client {SyncClient AsyncClient} state.

(** [auth.verify_id_token]: it raises an exception with some text, or returns
    the decoded token. *)
Definition verifier : Type := string -> string + dict.

(** [get_current_user_uid]; [cred] is [None] or the bearer credentials. *)
Definition get_current_user_uid (verify_id_token : verifier) (cred : option string)
  : http value :=
  match cred with
  | None => HTTPException 401 "Bearer token missing or invalid."
  | Some credentials =>
      match verify_id_token credentials with
      | inl e => HTTPException 401 ("Invalid authentication credentials: " ++ e)
      | inr decoded_token =>
          match dict_get decoded_token "uid" with
          | Some uid => Returns uid
          | None =>
              (* KeyError('uid'), whose text is the quoted key *)
              HTTPException 401 ("Invalid authentication credentials: " ++ "'uid'")
          end
      end
  end.

End Web.

(* ====================================================================== *)
(** ** Sanity checks of the embedding *)
(* ====================================================================== *)

Module Checks.
Import Fixtures.

Example lower_ex : lower "National ID Card" = "national id card".
Proof. reflexivity. Qed.

Example title_email : title "bob@co.com" = "Bob@Co.Com".
Proof. reflexivity. Qed.

Example title_words : title "salma el-SAYED" = "Salma El-Sayed".
Proof. reflexivity. Qed.

Example title_camel : title "annualLeaveDays" = "Annualleavedays".
Proof. reflexivity. Qed.

Example capitalize_ex : capitalize "salma ALI" = "Salma ali".
Proof. reflexivity. Qed.

Example replace_join_date : replace "joinDate" "Start Date" "joinDate" = "Start Date".
Proof. reflexivity. Qed.

Example replace_empty_old : replace EmptyString "-" "abc" = "-a-b-c-".
Proof. reflexivity. Qed.

Example replace_overlap : replace "aa" "b" "aaaaa" = "bba".
Proof. reflexivity. Qed.

Example clean_ex : clean "National ID Card" = "nationalidcard".
Proof. reflexivity. Qed.

Example repr_nested :
  repr (VMap [("ID Card", VBool true); ("it's", VList [VInt 3; VNone])])
  = "{'ID Card': True, " ++ str1 dquote ++ "it's" ++ str1 dquote ++ ": [3, None]}".
Proof. reflexivity. Qed.

Example money :
  (format_2f (VInt 1234567), format_2f (VInt (-1234)), format_2f (VBool true))
  = (Ok "1,234,567.00", Ok "-1,234.00", Ok "1.00").
Proof. reflexivity. Qed.

Example money_rounds_to_double :
  format_2f (VInt (2 ^ 53 + 3)) = Ok "9,007,199,254,740,996.00".
Proof. vm_compute. reflexivity. Qed.

Example money_of_text : format_2f (VStr "12") = Raise ValueError.
Proof. reflexivity. Qed.

Example count_one :
  fst (run_tool (always (reply "get_applicant_count" [])) "how many applicants?"
         "u3" (Some db))
  = Ok "There is currently 1 new applicant.".
Proof. vm_compute. reflexivity. Qed.

Example salary_of_bob :
  fst (run_tool
         (always (reply "get_information_about_anyone"
                    [("target_identifier", VStr "bob");
                     ("request_details", VStr "salary")]))
         "what is bob's salary?" "u3" (Some db))
  = Ok "Bob's total compensation is $5,250.00.".
Proof. vm_compute. reflexivity. Qed.

Example summary_of_robert :
  _get_personal_data robert (VStr "all")
  = Ok (join nl ["Here is a summary for Robert:"; "- Name: Robert";
                 "- Email: bob@co.com"; "- Role: new";
                 "- Documents Submitted: National ID Card"]).
Proof. vm_compute. reflexivity. Qed.

Example non_text_field : _get_personal_data bob (VInt 7) = Raise AttributeError.
Proof. reflexivity. Qed.

Example non_object_reply :
  fst (run_tool (always (Replies (VList []))) "q" "u3" (Some db)) = Ok msg_rephrase.
Proof. vm_compute. reflexivity. Qed.

End Checks.

(* ====================================================================== *)
(** ** Lemmas on the string primitives *)
(* ====================================================================== *)

Lemma prefix_iff (a b : string) :
  prefix a b = true <-> exists after, b = a ++ after.
Proof.
  revert b; induction a as [|c a IH]; intros b; simpl.
  - destruct b; split; intros _; try reflexivity; eexists; reflexivity.
  - destruct b as [|d b]; simpl.
    + split; [discriminate | intros [x Hx]; discriminate].
    + destruct (ascii_dec c d) as [->|Hne].
      * rewrite IH. split; intros [x Hx]; exists x; [now subst | now inversion Hx].
      * split; [discriminate | intros [x Hx]; inversion Hx; congruence].
Qed.

Lemma contains_iff (a b : string) :
  contains a b = true <-> is_substring a b.
Proof.
  unfold is_substring.
  induction b as [|d b IH].
  - change (contains a EmptyString) with (prefix a EmptyString || false).
    rewrite orb_false_r, prefix_iff. split.
    + intros [x Hx]. exists EmptyString, x. exact Hx.
    + intros [p [q H]]. destruct p; simpl in H; [now exists q | discriminate].
  - change (contains a (String d b))
      with (prefix a (String d b) || contains a b).
    rewrite orb_true_iff, prefix_iff, IH. split.
    + intros [[x Hx] | [p [q H]]].
      * exists EmptyString, x. exact Hx.
      * exists (String d p), q. simpl. now rewrite H.
    + intros [p [q H]]. destruct p as [|e p]; simpl in H.
      * left. now exists q.
      * right. inversion H. now exists p, q.
Qed.

Lemma replace_space_cons (c : ascii) (r : string) :
  replace_from " " EmptyString 0 (String c r)
  = if prefix " " (String c r) then replace_from " " EmptyString 0 r
    else String c (replace_from " " EmptyString 0 r).
Proof. reflexivity. Qed.

Lemma replace_space (s : string) :
  replace " " EmptyString s = strip_spaces s.
Proof.
  unfold replace.
  induction s as [|c s IH]; [reflexivity|].
  rewrite replace_space_cons.
  cbn [strip_spaces]. rewrite <- IH.
  destruct (prefix " " (String c s)) eqn:Hp.
  - apply prefix_iff in Hp. destruct Hp as [after Hp].
    inversion Hp; subst. reflexivity.
  - destruct (Ascii.eqb_spec c " "%char) as [->|_]; [|reflexivity].
    assert (prefix " " (String " " s) = true) as Ht
      by (apply prefix_iff; now exists s).
    congruence.
Qed.

Lemma clean_normalized (s : string) : clean s = normalized s.
Proof. apply replace_space. Qed.

Lemma first_key_first_such (t : string) (keys : list string) (k : string) :
  first_key t keys = Some k <->
  first_such (fun key => is_substring t (normalized key)) keys k.
Proof.
  unfold first_such.
  induction keys as [|x keys IH]; simpl.
  - split; [discriminate | intros (e & l & H & _)]. destruct e; discriminate.
  - destruct (contains t (clean x)) eqn:Hc.
    + split.
      * intros [= <-]. exists [], keys. repeat split; auto.
        now rewrite <- clean_normalized, <- contains_iff.
      * intros (e & l & H & Hk & Hall). destruct e as [|y e]; simpl in H.
        -- now inversion H.
        -- inversion H; subst y. inversion Hall as [|? ? Hx _]; subst.
           exfalso. apply Hx. now rewrite <- clean_normalized, <- contains_iff.
    + rewrite IH. split.
      * intros (e & l & -> & Hk & Hall). exists (x :: e), l. repeat split; auto.
        constructor; auto.
        rewrite <- clean_normalized, <- contains_iff. now rewrite Hc.
      * intros (e & l & H & Hk & Hall). destruct e as [|y e]; simpl in H.
        -- inversion H; subst x. exfalso.
           rewrite <- clean_normalized, <- contains_iff in Hk. congruence.
        -- inversion H; subst. inversion Hall; subst.
           exists e, l. repeat split; auto.
Qed.

Lemma first_key_none (t : string) (keys : list string) :
  first_key t keys = None <->
  Forall (fun key => ~ is_substring t (normalized key)) keys.
Proof.
  induction keys as [|x keys IH]; simpl.
  - split; auto.
  - destruct (contains t (clean x)) eqn:Hc.
    + split; [discriminate|]. intros H; inversion H as [|? ? Hx _]; subst.
      exfalso. apply Hx. now rewrite <- clean_normalized, <- contains_iff.
    + rewrite IH. split.
      * intros H. constructor; auto.
        rewrite <- clean_normalized, <- contains_iff. now rewrite Hc.
      * intros H. now inversion H.
Qed.

(* ====================================================================== *)
(** ** Lemmas on the dispatcher *)
(* ====================================================================== *)

Ltac run_monad :=
  unfold run_tool, get_user_specific_data_tool, _get_user_document,
    route_and_dispatch, dispatch, about_anyone, _get_new_applicant_count,
    _get_user_by_identifier, doc_get, stream, ainvoke,
    try_except, bind, emit, ret, raise, lift.

Lemma dict_get_present (d : dict) (k : string) (v : value) :
  dict_get d k = Some v -> present (Some d) = Some d.
Proof. destruct d; [discriminate | reflexivity]. Qed.

Lemma present_nonempty {d : dict} : d <> [] -> present (Some d) = Some d.
Proof. destruct d; [intros H; now elim H | reflexivity]. Qed.

Lemma msg_cannot_perform_not_rephrase : msg_cannot_perform <> msg_rephrase.
Proof. discriminate. Qed.

Lemma msg_no_profile_not_no_database : msg_no_profile <> msg_no_database.
Proof. discriminate. Qed.

(** [try: ... except Exception: return text] never raises. *)
Lemma try_except_total {A} (m : M A) (a : A) (tr : trace) :
  exists x tr', try_except m (fun _ => ret a) tr = (Ok x, tr').
Proof.
  unfold try_except, ret. destruct (m tr) as [[x|e] tr']; eauto.
Qed.

Lemma _get_user_document_total (db_client : option Db) (user_id : string) (tr : trace) :
  exists d tr', _get_user_document db_client user_id tr = (Ok d, tr').
Proof.
  unfold _get_user_document. destruct db_client as [db|].
  - apply try_except_total.
  - unfold ret. eauto.
Qed.

(** No exception leaves the tool: every request ends with a text. *)
Lemma tool_total (llm : router) (query user_id : string) (db_client : option Db)
    (tr : trace) :
  exists text tr', get_user_specific_data_tool llm query user_id db_client tr
                   = (Ok text, tr').
Proof.
  unfold get_user_specific_data_tool. destruct db_client as [db|].
  - unfold bind at 1.
    destruct (_get_user_document_total (Some db) user_id tr) as (d & tr1 & ->).
    destruct (present d) as [doc|]; [|unfold ret; eauto].
    destruct (available_actions_for _); [unfold ret; eauto|].
    apply try_except_total.
  - unfold ret. eauto.
Qed.

Lemma eq_str_iff (v : value) (s : string) : eq_str v s = true <-> v = VStr s.
Proof.
  destruct v; simpl; try (split; [discriminate | intros [=]]).
  rewrite String.eqb_eq. split; [now intros -> | now intros [= ->]].
Qed.

Lemma eq_str_false (v : value) (s : string) : v <> VStr s -> eq_str v s = false.
Proof.
  intros H. destruct (eq_str v s) eqn:E; [|reflexivity].
  apply eq_str_iff in E. contradiction.
Qed.

(** The menu is empty exactly for the roles other than employee, new, hr. *)
Lemma menu_empty_iff (role : value) :
  available_actions_for role = [] <->
  role <> VStr "employee" /\ role <> VStr "new" /\ role <> VStr "hr".
Proof.
  unfold available_actions_for.
  destruct (eq_str role "employee") eqn:E1; [apply eq_str_iff in E1|].
  { split; [discriminate | intros (H & _); contradiction]. }
  destruct (eq_str role "new") eqn:E2; [apply eq_str_iff in E2|].
  { split; [discriminate | intros (_ & H & _); contradiction]. }
  destruct (eq_str role "hr") eqn:E3; [apply eq_str_iff in E3|].
  { split; [discriminate | intros (_ & _ & H); contradiction]. }
  split; [intros _ | reflexivity].
  repeat split; intros H; apply eq_str_iff in H; congruence.
Qed.

Lemma menu_nonempty_record (user_doc : dict) :
  available_actions_for (role_of user_doc) <> [] -> present (Some user_doc) = Some user_doc.
Proof.
  destruct user_doc; [intros H; now elim H | reflexivity].
Qed.

(** A reply that is not a JSON object has no [get]. *)
Lemma dispatch_not_object (db_client : option Db) (user_doc : dict) (role v : value)
    (tr : trace) :
  (forall m, v <> VMap m) ->
  dispatch db_client user_doc role v tr = (Raise AttributeError, tr).
Proof.
  intros H. destruct v; try reflexivity. now elim (H m).
Qed.

(** A JSON object without [action_name] reaches the final [else]. *)
Lemma dispatch_no_action (db_client : option Db) (user_doc : dict) (role : value)
    (response : dict) (tr : trace) :
  dict_get response "action_name" = None ->
  dispatch db_client user_doc role (VMap response) tr = (Ok msg_cannot_perform, tr).
Proof.
  intros H. run_monad. cbn [get get_default]. unfold dict_get_default.
  rewrite !H. reflexivity.
Qed.

(** The [and user_role == "hr"] guards send every other role to the final
    [else]. *)
Lemma dispatch_hr_gate (db_client : option Db) (user_doc : dict) {role : value}
    {response : dict} {action : string} (tr : trace) :
  dict_get response "action_name" = Some (VStr action) ->
  action = "get_information_about_anyone" \/ action = "get_applicant_count" ->
  role <> VStr "hr" ->
  dispatch db_client user_doc role (VMap response) tr = (Ok msg_cannot_perform, tr).
Proof.
  intros Ha Hhr Hrole. apply eq_str_false in Hrole.
  run_monad. cbn [get get_default]. unfold dict_get_default.
  rewrite !Ha, Hrole. destruct Hhr; subst action; reflexivity.
Qed.

Section LoadedCaller.

(** A request whose caller record is loaded from a store that answers. *)
Variables (llm : router) (query user_id : string) (db : Db) (user_doc : dict).
Hypothesis store_answers : fails db (OpDocGet user_id) = false.
Hypothesis caller_found : doc_lookup (users db) user_id = Some user_doc.

Lemma tool_loaded :
  run_tool llm query user_id (Some db) =
    match present (Some user_doc) with
    | None => (Ok msg_no_profile, [EvDocGet user_id])
    | Some doc =>
        match available_actions_for (role_of doc) with
        | [] => (Ok (msg_role_not_configured (role_of doc)), [EvDocGet user_id])
        | (_ :: _) as acts =>
            try_except
              (route_and_dispatch llm query (Some db) doc (role_of doc) acts)
              (fun _ => ret msg_rephrase) [EvDocGet user_id]
        end
    end.
Proof.
  unfold run_tool, get_user_specific_data_tool, _get_user_document, doc_get.
  unfold bind at 1. unfold try_except at 1. unfold bind at 1. unfold emit at 1.
  rewrite store_answers. unfold ret at 1. rewrite caller_found.
  destruct (present (Some user_doc)) as [doc|]; [|reflexivity].
  unfold role_of. destruct (available_actions_for _); reflexivity.
Qed.

(** What the router is asked, and what it answers. *)
Let role : value := role_of user_doc.
Let actions : menu := available_actions_for role.
Let answer : llm_reply := llm query role actions.

(** With a menu, the request reaches the [try] block. *)
Lemma tool_routes :
  actions <> [] ->
  run_tool llm query user_id (Some db) =
    try_except (route_and_dispatch llm query (Some db) user_doc role actions)
               (fun _ => ret msg_rephrase) [EvDocGet user_id].
Proof.
  intros Hm. rewrite tool_loaded, (menu_nonempty_record _ Hm).
  fold role. fold actions. destruct actions; [now elim Hm | reflexivity].
Qed.

Lemma tool_answered (response : value) :
  actions <> [] ->
  answer = Replies response ->
  run_tool llm query user_id (Some db) =
    try_except (dispatch (Some db) user_doc role response)
               (fun _ => ret msg_rephrase)
               [EvDocGet user_id; EvRoute query role actions].
Proof.
  intros Hm Ha. rewrite (tool_routes Hm).
  unfold route_and_dispatch, ainvoke, try_except, bind, emit, ret, raise.
  fold answer. rewrite Ha. reflexivity.
Qed.

Lemma tool_router_throws :
  actions <> [] ->
  answer = Throws ->
  run_tool llm query user_id (Some db) =
    (Ok msg_rephrase, [EvDocGet user_id; EvRoute query role actions]).
Proof.
  intros Hm Ha. rewrite (tool_routes Hm).
  unfold route_and_dispatch, ainvoke, try_except, bind, emit, ret, raise.
  fold answer. rewrite Ha. reflexivity.
Qed.

(** *** C1 *)

(** C1. For a caller whose role is employee or new, a classification result
    that names [get_information_about_anyone] or [get_applicant_count] is
    rejected whatever its parameters are: the tool returns the generic
    cannot-perform text, and the only calls made are the load of the
    caller record and the classification itself, so no target record is
    looked up and no count is computed. *)
Theorem C1_non_hr_caller_is_rejected (response : dict) (action : string) :
  role = VStr "employee" \/ role = VStr "new" ->
  answer = Replies (VMap response) ->
  dict_get response "action_name" = Some (VStr action) ->
  action = "get_information_about_anyone" \/ action = "get_applicant_count" ->
  run_tool llm query user_id (Some db)
    = (Ok msg_cannot_perform, [EvDocGet user_id; EvRoute query role actions])
  /\ no_query [EvDocGet user_id; EvRoute query role actions].
Proof.
  intros Hnon_hr Hanswer Haction Hhr_only.
  assert (actions <> [] /\ role <> VStr "hr") as [Hm Hrole].
  { unfold actions. destruct Hnon_hr as [-> | ->]; split; discriminate. }
  split.
  - rewrite (tool_answered _ Hm Hanswer). unfold try_except.
    now rewrite (dispatch_hr_gate _ _ _ Haction Hhr_only Hrole).
  - intros field v limit [H | [H | []]]; discriminate.
Qed.

(** *** C3 *)

(** C3 (amended). The text returned when permission validation rejects the
    chosen action is the text returned when the classification result is a
    JSON object that omits [action_name]; when the classification call
    throws, or returns something that is not a JSON object, the tool
    returns the rephrase text, which is a different text. *)
Theorem C3_denial_and_failure_texts :
  actions <> [] ->
  let text := fst (run_tool llm query user_id (Some db)) in
  (forall response action,
      answer = Replies (VMap response) ->
      dict_get response "action_name" = Some (VStr action) ->
      action = "get_information_about_anyone" \/ action = "get_applicant_count" ->
      role <> VStr "hr" ->
      text = Ok msg_cannot_perform)
  /\ (forall response,
      answer = Replies (VMap response) ->
      dict_get response "action_name" = None ->
      text = Ok msg_cannot_perform)
  /\ (answer = Throws -> text = Ok msg_rephrase)
  /\ (forall response,
      answer = Replies response ->
      (forall m, response <> VMap m) ->
      text = Ok msg_rephrase)
  /\ msg_cannot_perform <> msg_rephrase.
Proof.
  intros Hm text. subst text. repeat split.
  - intros response action Hanswer Haction Hhr_only Hrole.
    rewrite (tool_answered _ Hm Hanswer). unfold try_except.
    now rewrite (dispatch_hr_gate _ _ _ Haction Hhr_only Hrole).
  - intros response Hanswer Hnone.
    rewrite (tool_answered _ Hm Hanswer). unfold try_except.
    now rewrite dispatch_no_action.
  - intros Hthrows. now rewrite (tool_router_throws Hm Hthrows).
  - intros response Hanswer Hshape.
    rewrite (tool_answered _ Hm Hanswer). unfold try_except.
    now rewrite dispatch_not_object.
  - exact msg_cannot_perform_not_rephrase.
Qed.

(** *** C4 *)

(** C4 (amended). When the classification call returns a JSON object that
    omits [action_name], the tool returns the generic cannot-perform text
    (not the rephrase text); it returns normally, after the load of the
    caller record and the classification call and nothing else. *)
Theorem C4_missing_action_name (response : dict) :
  actions <> [] ->
  answer = Replies (VMap response) ->
  dict_get response "action_name" = None ->
  run_tool llm query user_id (Some db)
    = (Ok msg_cannot_perform, [EvDocGet user_id; EvRoute query role actions]).
Proof.
  intros Hm Hanswer Hnone.
  rewrite (tool_answered _ Hm Hanswer). unfold try_except.
  now rewrite dispatch_no_action.
Qed.

(** *** C8 *)

(** C8 (amended). For every caller with a non-empty record whose role is
    outside employee, new and hr, the menu is empty and the tool returns
    the role-not-configured text, a fixed template into which the role is
    inserted; the request ends after the load of the caller record, before
    any classification call. *)
Theorem C8_role_not_configured :
  user_doc <> [] ->
  role <> VStr "employee" -> role <> VStr "new" -> role <> VStr "hr" ->
  actions = []
  /\ run_tool llm query user_id (Some db)
     = (Ok ("I'm sorry, your user role ('" ++ str role
              ++ "') is not configured for any actions."),
        [EvDocGet user_id])
  /\ no_route [EvDocGet user_id].
Proof.
  intros Hdoc He Hn Hh.
  assert (actions = []) as Hm by (apply menu_empty_iff; auto).
  repeat split; [exact Hm | | intros q r a [H | []]; discriminate].
  rewrite tool_loaded, (present_nonempty Hdoc).
  fold role. fold actions. rewrite Hm. reflexivity.
Qed.

End LoadedCaller.

(** Witness of C1: Bob, an employee, and a router that answers
    [get_applicant_count]. *)
Lemma C1_witness :
  (role_of Fixtures.bob = VStr "employee" \/ role_of Fixtures.bob = VStr "new")
  /\ run_tool (Fixtures.always (Fixtures.reply "get_applicant_count" [("scope", VStr "all")]))
       "how many applicants are there?" "u1" (Some Fixtures.db)
     = (Ok msg_cannot_perform,
        [EvDocGet "u1";
         EvRoute "how many applicants are there?" (VStr "employee")
           (available_actions_for (VStr "employee"))])
  /\ no_query
       [EvDocGet "u1";
        EvRoute "how many applicants are there?" (VStr "employee")
          (available_actions_for (VStr "employee"))].
Proof.
  split; [left; reflexivity|].
  exact (C1_non_hr_caller_is_rejected
           (Fixtures.always (Fixtures.reply "get_applicant_count" [("scope", VStr "all")]))
           "how many applicants are there?" "u1" Fixtures.db Fixtures.bob
           eq_refl eq_refl
           [("action_name", VStr "get_applicant_count");
            ("parameters", VMap [("scope", VStr "all")])]
           "get_applicant_count"
           (or_introl eq_refl) eq_refl eq_refl (or_intror eq_refl)).
Defined.

(** Counterexample to C3 as stated: for the same caller, a rejected action
    and a failed classification give two different texts. *)
Lemma C3_counterexample :
  fst (run_tool (Fixtures.always (Fixtures.reply "get_applicant_count" []))
         "how many applicants are there?" "u1" (Some Fixtures.db))
    = Ok msg_cannot_perform
  /\ fst (run_tool (Fixtures.always Throws)
            "how many applicants are there?" "u1" (Some Fixtures.db))
    = Ok msg_rephrase
  /\ fst (run_tool (Fixtures.always (Replies (VStr "no idea")))
            "how many applicants are there?" "u1" (Some Fixtures.db))
    = Ok msg_rephrase
  /\ msg_cannot_perform <> msg_rephrase.
Proof.
  repeat split; try (vm_compute; reflexivity). discriminate.
Qed.

Lemma C3_witness :
  available_actions_for (role_of Fixtures.bob) <> []
  /\ (Fixtures.always Throws "what is my salary?" (role_of Fixtures.bob)
        (available_actions_for (role_of Fixtures.bob)) = Throws ->
      fst (run_tool (Fixtures.always Throws) "what is my salary?" "u1"
             (Some Fixtures.db)) = Ok msg_rephrase).
Proof.
  split; [discriminate|].
  exact (proj1 (proj2 (proj2
           (C3_denial_and_failure_texts (Fixtures.always Throws)
              "what is my salary?" "u1" Fixtures.db Fixtures.bob
              eq_refl eq_refl ltac:(discriminate))))).
Defined.

(** Counterexample to C4 as stated: a JSON object without [action_name]
    does not produce the rephrase text. *)
Lemma C4_counterexample :
  dict_get [("parameters", VMap [("field", VStr "salary")])] "action_name" = None
  /\ fst (run_tool
            (Fixtures.always (Replies (VMap [("parameters", VMap [("field", VStr "salary")])])))
            "what is my salary?" "u1" (Some Fixtures.db))
     = Ok msg_cannot_perform
  /\ fst (run_tool
            (Fixtures.always (Replies (VMap [("parameters", VMap [("field", VStr "salary")])])))
            "what is my salary?" "u1" (Some Fixtures.db))
     <> Ok msg_rephrase.
Proof.
  repeat split; try (vm_compute; reflexivity). vm_compute. discriminate.
Qed.

Lemma C4_witness :
  available_actions_for (role_of Fixtures.hana) <> []
  /\ dict_get [("parameters", VMap [])] "action_name" = None
  /\ run_tool (Fixtures.always (Replies (VMap [("parameters", VMap [])])))
       "hello" "u3" (Some Fixtures.db)
     = (Ok msg_cannot_perform,
        [EvDocGet "u3";
         EvRoute "hello" (VStr "hr") (available_actions_for (VStr "hr"))]).
Proof.
  split; [discriminate|]. split; [reflexivity|].
  exact (C4_missing_action_name
           (Fixtures.always (Replies (VMap [("parameters", VMap [])])))
           "hello" "u3" Fixtures.db Fixtures.hana eq_refl eq_refl
           [("parameters", VMap [])] ltac:(discriminate) eq_refl eq_refl).
Defined.

(** Counterexample to C8 as stated: two roles outside the configured ones
    receive two different texts. *)
Lemma C8_counterexample :
  role_of Fixtures.omar = VStr "admin"
  /\ role_of Fixtures.lina = VStr "guest"
  /\ fst (run_tool (Fixtures.always Throws) "hello" "u4" (Some Fixtures.db))
     = Ok "I'm sorry, your user role ('admin') is not configured for any actions."
  /\ fst (run_tool (Fixtures.always Throws) "hello" "u5" (Some Fixtures.db))
     = Ok "I'm sorry, your user role ('guest') is not configured for any actions."
  /\ fst (run_tool (Fixtures.always Throws) "hello" "u4" (Some Fixtures.db))
     <> fst (run_tool (Fixtures.always Throws) "hello" "u5" (Some Fixtures.db)).
Proof.
  repeat split; try (vm_compute; reflexivity). vm_compute. discriminate.
Qed.

Lemma C8_witness :
  Fixtures.omar <> []
  /\ role_of Fixtures.omar <> VStr "employee"
  /\ role_of Fixtures.omar <> VStr "new"
  /\ role_of Fixtures.omar <> VStr "hr"
  /\ available_actions_for (role_of Fixtures.omar) = []
  /\ run_tool (Fixtures.always Throws) "hello" "u4" (Some Fixtures.db)
     = (Ok "I'm sorry, your user role ('admin') is not configured for any actions.",
        [EvDocGet "u4"])
  /\ no_route [EvDocGet "u4"].
Proof.
  do 4 (split; [discriminate|]).
  exact (C8_role_not_configured (Fixtures.always Throws) "hello" "u4"
           Fixtures.db Fixtures.omar eq_refl eq_refl
           ltac:(discriminate) ltac:(discriminate) ltac:(discriminate)
           ltac:(discriminate)).
Defined.

(** *** C5 *)

(** C5 (amended). If the record store raises while the caller's record is
    loaded, the exception is caught by [_get_user_document]; the tool returns
    normally with the text it also returns when the caller's record is
    absent, and the request ends there: the load is the only call made. *)
Theorem C5_store_failure_on_load (llm : router) (query user_id : string) (db : Db) :
  fails db (OpDocGet user_id) = true ->
  run_tool llm query user_id (Some db) = (Ok msg_no_profile, [EvDocGet user_id])
  /\ (forall db',
         fails db' (OpDocGet user_id) = false ->
         doc_lookup (users db') user_id = None ->
         run_tool llm query user_id (Some db')
         = run_tool llm query user_id (Some db)).
Proof.
  intros Hfail.
  assert (run_tool llm query user_id (Some db)
          = (Ok msg_no_profile, [EvDocGet user_id])) as Hrun.
  { unfold run_tool, get_user_specific_data_tool, _get_user_document, doc_get.
    unfold bind at 1. unfold try_except at 1. unfold bind at 1. unfold emit at 1.
    rewrite Hfail. reflexivity. }
  split; [exact Hrun|].
  intros db' Hup Habsent. rewrite Hrun.
  unfold run_tool, get_user_specific_data_tool, _get_user_document, doc_get.
  unfold bind at 1. unfold try_except at 1. unfold bind at 1. unfold emit at 1.
  rewrite Hup. unfold ret at 1. rewrite Habsent. reflexivity.
Qed.

Lemma C5_witness :
  fails Fixtures.db_down (OpDocGet "u1") = true
  /\ run_tool (Fixtures.always Throws) "what is my salary?" "u1" (Some Fixtures.db_down)
     = (Ok msg_no_profile, [EvDocGet "u1"]).
Proof.
  split; [reflexivity|].
  exact (proj1 (C5_store_failure_on_load (Fixtures.always Throws)
                  "what is my salary?" "u1" Fixtures.db_down eq_refl)).
Defined.

(** Counterexample to C5 as stated: a store failure and an absent caller
    record give the same response. *)
Lemma C5_counterexample :
  fails Fixtures.db_down (OpDocGet "u1") = true
  /\ fails Fixtures.db (OpDocGet "u9") = false
  /\ doc_lookup (users Fixtures.db) "u9" = None
  /\ fst (run_tool (Fixtures.always Throws) "what is my salary?" "u1"
            (Some Fixtures.db_down))
     = fst (run_tool (Fixtures.always Throws) "what is my salary?" "u9"
              (Some Fixtures.db)).
Proof. repeat split. Qed.


(* ====================================================================== *)
(** ** The document matcher *)
(* ====================================================================== *)

Lemma truthy_text {s : string} : s <> EmptyString -> truthy (VStr s) = true.
Proof.
  intros H. simpl. destruct (String.eqb_spec s EmptyString); [contradiction | reflexivity].
Qed.

Lemma find_robust_key_dict (m : dict) (requested : string) :
  find_robust_key (VMap m) (VStr requested)
  = Ok (first_key (clean requested) (map fst m)).
Proof. reflexivity. Qed.

(** On a dict, a walrus chain yields the first matching key when that key is
    not empty and its flag is truthy. *)
Lemma flagged_key_dict (user_doc m : dict) (map_key requested : string) :
  dict_get user_doc map_key = Some (VMap m) ->
  flagged_key user_doc map_key (VStr requested)
  = Ok match first_key (clean requested) (map fst m) with
       | Some key =>
           if negb (String.eqb key EmptyString) && truthy (dict_get_default m key VNone)
           then Some key else None
       | None => None
       end.
Proof.
  intros Hm. unfold flagged_key. rewrite Hm.
  destruct m as [|entry m'] eqn:E; [reflexivity|]. rewrite <- E.
  replace (truthy (VMap m)) with true by (subst m; reflexivity).
  rewrite find_robust_key_dict. cbn [rbind].
  destruct (first_key _ _) as [key|]; [|reflexivity].
  destruct (String.eqb key EmptyString); [reflexivity|].
  cbn [get get_default rbind negb andb].
  destruct (truthy _); reflexivity.
Qed.

Lemma flagged_key_absent (user_doc : dict) (map_key : string) (document_name : value) :
  dict_get user_doc map_key = None ->
  flagged_key user_doc map_key document_name = Ok None.
Proof. intros H. unfold flagged_key. now rewrite H. Qed.

(** Only a dict can yield a flagged key. *)
Lemma flagged_key_some (user_doc : dict) (map_key : string) (document_name : value)
    (key : string) :
  flagged_key user_doc map_key document_name = Ok (Some key) ->
  exists m,
    dict_get user_doc map_key = Some (VMap m)
    /\ find_robust_key (VMap m) document_name = Ok (Some key)
    /\ truthy (dict_get_default m key VNone) = true.
Proof.
  unfold flagged_key.
  destruct (dict_get user_doc map_key) as [data_map|]; [|discriminate].
  destruct (truthy data_map); [|discriminate].
  destruct (find_robust_key data_map document_name) as [[k|]|e] eqn:Hf;
    cbn [rbind]; try discriminate.
  destruct (String.eqb k EmptyString); [discriminate|].
  destruct data_map as [| | | | |m]; cbn [get get_default rbind]; try discriminate.
  destruct (truthy (dict_get_default m k VNone)) eqn:Ht; [|discriminate].
  intros [= <-]. exists m. auto.
Qed.

(** The resubmission chain is evaluated first, and a flagged key there is
    final. *)
Lemma check_document_resubmit_first (user_doc : dict) (requested key : string) :
  requested <> EmptyString ->
  flagged_key user_doc "resubmissionRequested" (VStr requested) = Ok (Some key) ->
  _check_document_status user_doc (VStr requested)
  = Ok (msg_resubmit (matcher_name user_doc) key).
Proof.
  intros Hreq Hflag. unfold _check_document_status.
  rewrite (truthy_text Hreq), Hflag. reflexivity.
Qed.

(** Without a flagged resubmission key the outcome is that of the
    submitted-documents chain. *)
Lemma check_document_fall_through (user_doc : dict) (requested : string) :
  requested <> EmptyString ->
  flagged_key user_doc "resubmissionRequested" (VStr requested) = Ok None ->
  _check_document_status user_doc (VStr requested)
  = let? up := flagged_key user_doc "uploadedDocuments" (VStr requested) in
    match up with
    | Some up_key => Ok (msg_submitted (matcher_name user_doc) up_key)
    | None => Ok (msg_no_document (matcher_name user_doc) (VStr requested))
    end.
Proof.
  intros Hreq Hflag. unfold _check_document_status.
  rewrite (truthy_text Hreq), Hflag. reflexivity.
Qed.

(** *** C2 *)

(** C2. [check_document] compares the requested name and each stored key
    after lower-casing them and deleting their spaces, and a key matches when
    the normalized request is a substring of the normalized key, the first
    such key in iteration order being taken.  The resubmission map is
    consulted before the submitted-documents map: a matched key flagged
    there decides the answer whatever the submitted-documents map holds.  In
    particular a record with [resubmissionRequested = {"ID Card": true}] and
    [uploadedDocuments = {"ID Card": true}] answers the request ["id"] with
    the resubmission-required message, never the submitted-and-approved
    one. *)
Theorem C2_substring_match_and_resubmission_priority :
  (forall s, clean s = strip_spaces (lower s))
  /\ (forall (m : dict) (requested key : string),
        find_robust_key (VMap m) (VStr requested) = Ok (Some key)
        <-> first_such
              (fun stored => is_substring (normalized requested) (normalized stored))
              (map fst m) key)
  /\ (forall (user_doc resub : dict) (requested key : string),
        requested <> EmptyString ->
        dict_get user_doc "resubmissionRequested" = Some (VMap resub) ->
        find_robust_key (VMap resub) (VStr requested) = Ok (Some key) ->
        key <> EmptyString ->
        truthy (dict_get_default resub key VNone) = true ->
        _check_document_status user_doc (VStr requested)
        = Ok (msg_resubmit (matcher_name user_doc) key))
  /\ (forall user_doc : dict,
        dict_get user_doc "resubmissionRequested" = Some (VMap [("ID Card", VBool true)]) ->
        dict_get user_doc "uploadedDocuments" = Some (VMap [("ID Card", VBool true)]) ->
        _check_document_status user_doc (VStr "id")
        = Ok ("Action required for " ++ str (matcher_name user_doc)
                ++ ": They need to resubmit their 'ID Card'.")
        /\ forall up_key,
            _check_document_status user_doc (VStr "id")
            <> Ok (msg_submitted (matcher_name user_doc) up_key)).
Proof.
  split; [exact clean_normalized|].
  split.
  { intros m requested key. rewrite find_robust_key_dict.
    rewrite <- first_key_first_such, clean_normalized.
    split; [now intros [= ->] | now intros ->]. }
  assert (forall (user_doc resub : dict) (requested key : string),
             requested <> EmptyString ->
             dict_get user_doc "resubmissionRequested" = Some (VMap resub) ->
             find_robust_key (VMap resub) (VStr requested) = Ok (Some key) ->
             key <> EmptyString ->
             truthy (dict_get_default resub key VNone) = true ->
             _check_document_status user_doc (VStr requested)
             = Ok (msg_resubmit (matcher_name user_doc) key)) as Hprio.
  { intros user_doc resub requested key Hreq Hmap Hfind Hkey Hflag.
    apply check_document_resubmit_first; [exact Hreq|].
    rewrite (flagged_key_dict _ _ _ _ Hmap).
    rewrite find_robust_key_dict in Hfind. injection Hfind as ->.
    rewrite Hflag.
    destruct (String.eqb_spec key EmptyString); [contradiction | reflexivity]. }
  split; [exact Hprio|].
  intros user_doc Hresub Hup.
  assert (_check_document_status user_doc (VStr "id")
          = Ok (msg_resubmit (matcher_name user_doc) "ID Card")) as Hrun.
  { apply (Hprio user_doc [("ID Card", VBool true)]);
      [discriminate | exact Hresub | reflexivity | discriminate | reflexivity]. }
  split; [exact Hrun|].
  intros up_key. rewrite Hrun. unfold msg_resubmit, msg_submitted. discriminate.
Qed.

Lemma C2_witness :
  _check_document_status Fixtures.id_card_maps (VStr "id")
  = Ok "Action required for the user: They need to resubmit their 'ID Card'.".
Proof.
  exact (proj1 (proj2 (proj2 (proj2 C2_substring_match_and_resubmission_priority))
                  Fixtures.id_card_maps eq_refl eq_refl)).
Defined.

(** *** C9 *)

(** C9. A resubmission match whose flag is false does not end the check:
    the submitted-documents map is still consulted, and a matched key
    flagged true there yields the submitted-and-approved message.  The
    resubmission message is returned only when the resubmission map holds a
    matched key whose flag is true. *)
Theorem C9_false_resubmission_flag_falls_through :
  (forall (user_doc resub uploaded : dict) (requested resub_key up_key : string),
      requested <> EmptyString ->
      dict_get user_doc "resubmissionRequested" = Some (VMap resub) ->
      find_robust_key (VMap resub) (VStr requested) = Ok (Some resub_key) ->
      truthy (dict_get_default resub resub_key VNone) = false ->
      dict_get user_doc "uploadedDocuments" = Some (VMap uploaded) ->
      find_robust_key (VMap uploaded) (VStr requested) = Ok (Some up_key) ->
      up_key <> EmptyString ->
      truthy (dict_get_default uploaded up_key VNone) = true ->
      _check_document_status user_doc (VStr requested)
      = Ok ("Yes, the '" ++ up_key ++ "' for " ++ str (matcher_name user_doc)
              ++ " has been successfully submitted and approved."))
  /\ (forall (user_doc : dict) (document_name : value) (key : string),
      _check_document_status user_doc document_name
      = Ok (msg_resubmit (matcher_name user_doc) key) ->
      exists (resub : dict) (resub_key : string),
        dict_get user_doc "resubmissionRequested" = Some (VMap resub)
        /\ find_robust_key (VMap resub) document_name = Ok (Some resub_key)
        /\ truthy (dict_get_default resub resub_key VNone) = true).
Proof.
  split.
  - intros user_doc resub uploaded requested resub_key up_key
      Hreq Hresub Hrfind Hrflag Hup Hufind Hukey Huflag.
    rewrite check_document_fall_through; [|exact Hreq|].
    + rewrite (flagged_key_dict _ _ _ _ Hup).
      rewrite find_robust_key_dict in Hufind. injection Hufind as ->.
      rewrite Huflag.
      destruct (String.eqb_spec up_key EmptyString); [contradiction | reflexivity].
    + rewrite (flagged_key_dict _ _ _ _ Hresub).
      rewrite find_robust_key_dict in Hrfind. injection Hrfind as ->.
      rewrite Hrflag, andb_false_r. reflexivity.
  - intros user_doc document_name key. unfold _check_document_status.
    destruct (negb (truthy document_name)); [discriminate|].
    destruct (flagged_key user_doc "resubmissionRequested" document_name)
      as [[resub_key|]|e] eqn:Hflag; cbn [rbind].
    + intros _. destruct (flagged_key_some _ _ _ _ Hflag) as (m & H1 & H2 & H3).
      exists m, resub_key. auto.
    + destruct (flagged_key user_doc "uploadedDocuments" document_name)
        as [[up_key|]|e]; cbn [rbind];
        unfold msg_resubmit, msg_submitted, msg_no_document; discriminate.
    + discriminate.
Qed.

Lemma C9_witness :
  _check_document_status Fixtures.robert (VStr "ID")
  = Ok "Yes, the 'National ID Card' for Robert has been successfully submitted and approved.".
Proof.
  exact (proj1 C9_false_resubmission_flag_falls_through
           Fixtures.robert
           [("National ID Card", VBool false)]
           [("National ID Card", VBool true); ("Bank Details", VBool false)]
           "ID" "National ID Card" "National ID Card"
           ltac:(discriminate) eq_refl eq_refl eq_refl eq_refl eq_refl
           ltac:(discriminate) eq_refl).
Defined.


(* ====================================================================== *)
(** ** The field formatter *)
(* ====================================================================== *)

Section FirstMatch.

Context {A : Type} (f : A -> bool) (P : A -> Prop).
Hypothesis f_decides : forall x, f x = true <-> P x.

Lemma find_first_such (l : list A) (x : A) :
  find f l = Some x <-> first_such P l x.
Proof.
  unfold first_such. induction l as [|y l IH]; simpl.
  - split; [discriminate | intros (e & t & H & _)]. destruct e; discriminate.
  - destruct (f y) eqn:Hy.
    + split.
      * intros [= ->]. exists [], l. repeat split; auto. now apply f_decides.
      * intros (e & t & H & Hx & Hall). destruct e as [|z e]; simpl in H.
        -- now inversion H.
        -- inversion H; subst z. inversion Hall as [|? ? Hn _]; subst.
           exfalso. apply Hn. now apply f_decides.
    + rewrite IH. split.
      * intros (e & t & -> & Hx & Hall). exists (y :: e), t. repeat split; auto.
        constructor; auto. intros Hp. apply f_decides in Hp. congruence.
      * intros (e & t & H & Hx & Hall). destruct e as [|z e]; simpl in H.
        -- inversion H; subst y. apply f_decides in Hx. congruence.
        -- inversion H; subst. inversion Hall; subst. exists e, t. auto.
Qed.

Lemma find_none_iff (l : list A) :
  find f l = None <-> Forall (fun x => ~ P x) l.
Proof.
  induction l as [|y l IH]; simpl.
  - split; auto.
  - destruct (f y) eqn:Hy.
    + split; [discriminate|]. intros H; inversion H as [|? ? Hn _]; subst.
      exfalso. apply Hn. now apply f_decides.
    + rewrite IH. split.
      * intros H. constructor; auto. intros Hp. apply f_decides in Hp. congruence.
      * intros H. now inversion H.
Qed.

End FirstMatch.

Lemma direct_match_first_such (user_doc : dict) (field : string) (item : string * value) :
  direct_match user_doc (lower field) = Some item
  <-> first_such (same_field field) user_doc item.
Proof.
  unfold direct_match. apply find_first_such.
  intros [k v]. unfold same_field. simpl. apply String.eqb_eq.
Qed.

Lemma direct_match_none (user_doc : dict) (field : string) :
  direct_match user_doc (lower field) = None
  <-> Forall (fun item => ~ same_field field item) user_doc.
Proof.
  unfold direct_match. apply find_none_iff.
  intros [k v]. unfold same_field. simpl. apply String.eqb_eq.
Qed.

(** After the [all] test, the formatter is the direct match, then the
    salary branch, then the not-found text. *)
Lemma personal_data_specific (user_doc : dict) (field : string) :
  field <> EmptyString ->
  lower field <> "all" ->
  _get_personal_data user_doc (VStr field)
  = match direct_match user_doc (lower field) with
    | Some (doc_key, doc_value) =>
        Ok ("The value for '" ++ doc_key ++ "' for "
              ++ str (formatter_name user_doc) ++ " is: " ++ str doc_value)
    | None =>
        if String.eqb (lower field) "salary"
        then salary_report user_doc (formatter_name user_doc)
        else Ok ("I'm sorry, I couldn't find information about '" ++ field
                   ++ "' in " ++ str (formatter_name user_doc) ++ "'s records.")
    end.
Proof.
  intros Hfield Hall. unfold _get_personal_data.
  rewrite (truthy_text Hfield). cbn [negb lower_of rbind].
  destruct (String.eqb_spec (lower field) "all"); [contradiction | reflexivity].
Qed.

(** *** C6 *)

(** C6 (amended). For every record and every non-empty field name that is
    not "all" in any letter case, the first record key equal to the field
    name up to letter case is returned with its value; the salary handling
    (base salary plus bonus as total compensation, or the not-available
    report when the record has no base salary) runs only when no record key
    matches in that way, and any other unmatched name is reported as not
    found. *)
Theorem C6_direct_match_before_salary (user_doc : dict) (field : string) :
  field <> EmptyString ->
  lower field <> "all" ->
  let name := formatter_name user_doc in
  (forall doc_key doc_value,
      first_such (same_field field) user_doc (doc_key, doc_value) ->
      _get_personal_data user_doc (VStr field)
      = Ok ("The value for '" ++ doc_key ++ "' for " ++ str name
              ++ " is: " ++ str doc_value))
  /\ (Forall (fun item => ~ same_field field item) user_doc ->
      lower field = "salary" ->
      _get_personal_data user_doc (VStr field) = salary_report user_doc name
      /\ (dict_get user_doc "baseSalary" = None ->
          salary_report user_doc name
          = Ok ("Salary information is not available for " ++ str name ++ "."))
      /\ (forall base who,
          dict_get user_doc "baseSalary" = Some base ->
          name = VStr who ->
          salary_report user_doc name
          = let? total := add base (dict_get_default user_doc "bonus" (VInt 0)) in
            let? amount := format_2f total in
            Ok (capitalize who ++ "'s total compensation is $" ++ amount ++ ".")))
  /\ (Forall (fun item => ~ same_field field item) user_doc ->
      lower field <> "salary" ->
      _get_personal_data user_doc (VStr field)
      = Ok ("I'm sorry, I couldn't find information about '" ++ field
              ++ "' in " ++ str name ++ "'s records.")).
Proof.
  intros Hfield Hall name. subst name.
  rewrite (personal_data_specific _ _ Hfield Hall).
  split; [|split].
  - intros doc_key doc_value Hfirst.
    apply direct_match_first_such in Hfirst. now rewrite Hfirst.
  - intros Hnone Hsalary. apply direct_match_none in Hnone.
    rewrite Hnone, Hsalary. split; [reflexivity|]. split.
    + intros Hbase. unfold salary_report, dict_mem. now rewrite Hbase.
    + intros base who Hbase Hname. unfold salary_report, dict_mem.
      rewrite Hname. unfold dict_get_default at 1. rewrite Hbase. reflexivity.
  - intros Hnone Hother. apply direct_match_none in Hnone. rewrite Hnone.
    destruct (String.eqb_spec (lower field) "salary"); [contradiction | reflexivity].
Qed.

(** Witness of C6: a record that stores a field named [Salary] beside
    [baseSalary]. *)
Lemma C6_witness :
  "salary" <> EmptyString
  /\ lower "salary" <> "all"
  /\ _get_personal_data
       [("name", VStr "Mona"); ("Salary", VInt 900); ("baseSalary", VInt 1000)]
       (VStr "salary")
     = Ok "The value for 'Salary' for Mona is: 900".
Proof.
  split; [discriminate|]. split; [discriminate|].
  apply (proj1 (C6_direct_match_before_salary
                  [("name", VStr "Mona"); ("Salary", VInt 900); ("baseSalary", VInt 1000)]
                  "salary" ltac:(discriminate) ltac:(discriminate))
               "Salary" (VInt 900)).
  exists [("name", VStr "Mona")], [("baseSalary", VInt 1000)].
  split; [reflexivity|]. split; [reflexivity|].
  constructor; [discriminate | constructor].
Defined.

(** Counterexample to C6 as stated: the field name ["ALL"] is not empty and
    is not ["all"], the record has the key ["ALL"], and yet the summary is
    returned instead of the value stored under that key. *)
Lemma C6_counterexample :
  "ALL" <> EmptyString
  /\ "ALL" <> "all"
  /\ first_such (same_field "ALL") [("ALL", VStr "every record")]
       ("ALL", VStr "every record")
  /\ _get_personal_data [("ALL", VStr "every record")] (VStr "ALL")
     = Ok "Here is a summary for The user:"
  /\ _get_personal_data [("ALL", VStr "every record")] (VStr "ALL")
     <> Ok "The value for 'ALL' for The user is: every record".
Proof.
  split; [discriminate|]. split; [discriminate|]. split.
  - exists [], []. repeat split; constructor.
  - split; [vm_compute; reflexivity | vm_compute; discriminate].
Qed.


(* ====================================================================== *)
(** ** Lookup by identifier *)
(* ====================================================================== *)

Lemma value_eqb_text (x : value) (s : string) :
  value_eqb x (VStr s) = true <-> x = VStr s.
Proof.
  destruct x; simpl; try (split; [discriminate | intros [=]]).
  rewrite String.eqb_eq. split; [now intros -> | now intros [= ->]].
Qed.

Lemma field_is_text (field s : string) (d : dict) :
  field_is field (VStr s) d = true <-> dict_get d field = Some (VStr s).
Proof.
  unfold field_is. destruct (dict_get d field) as [x|].
  - rewrite value_eqb_text. split; [now intros -> | now intros [= ->]].
  - split; discriminate.
Qed.

Lemma field_is_nonempty (field : string) (v : value) (d : dict) :
  field_is field v d = true -> d <> [].
Proof. destruct d; [discriminate | discriminate]. Qed.

(** [limit(1)] keeps the first document that passes the filter. *)
Lemma take_one_filter (f : dict -> bool) (l : list dict) :
  take (Some 1%nat) (filter f l)
  = match find f l with Some d => [d] | None => [] end.
Proof.
  induction l as [|d l IH]; [reflexivity|].
  simpl. destruct (f d); [reflexivity | exact IH].
Qed.

Lemma stream_one (db : Db) (field : string) (v : value) (tr : trace) :
  stream db field v (Some 1%nat) tr
  = if fails db (OpQuery field v)
    then (Raise StoreError, (tr ++ [EvQuery field v (Some 1%nat)])%list)
    else (Ok match find (field_is field v) (map snd (users db)) with
             | Some d => [d]
             | None => []
             end,
          (tr ++ [EvQuery field v (Some 1%nat)])%list).
Proof.
  unfold stream, bind, emit, raise, ret.
  destruct (fails db (OpQuery field v)); [reflexivity|].
  now rewrite take_one_filter.
Qed.

(** The lookup for a textual identifier, query by query. *)
Lemma by_identifier_text (db : Db) (identifier : string) (tr : trace) :
  identifier <> EmptyString ->
  fails db (OpQuery "email" (VStr identifier)) = false ->
  fails db (OpQuery "name" (VStr (title identifier))) = false ->
  let docs := map snd (users db) in
  let by_email := EvQuery "email" (VStr identifier) (Some 1%nat) in
  let by_name := EvQuery "name" (VStr (title identifier)) (Some 1%nat) in
  _get_user_by_identifier (Some db) (VStr identifier) tr
  = match find (field_is "email" (VStr identifier)) docs with
    | Some d => (Ok (Some d), (tr ++ [by_email])%list)
    | None =>
        (Ok (find (field_is "name" (VStr (title identifier))) docs),
         ((tr ++ [by_email]) ++ [by_name])%list)
    end.
Proof.
  intros Hid Hemail Hname docs by_email by_name.
  unfold _get_user_by_identifier. rewrite (truthy_text Hid). cbn [negb].
  unfold bind at 1. rewrite stream_one, Hemail. fold docs.
  destruct (find (field_is "email" (VStr identifier)) docs) as [d|]; [reflexivity|].
  unfold bind at 1. unfold lift, title_of.
  unfold bind. rewrite stream_one, Hname. fold docs.
  destruct (find (field_is "name" (VStr (title identifier))) docs); reflexivity.
Qed.

(** A record returned by the lookup is not empty, and the identifier that
    found it is truthy. *)
Lemma by_identifier_found (db_client : option Db) (identifier : value)
    (d : dict) (tr tr' : trace) :
  _get_user_by_identifier db_client identifier tr = (Ok (Some d), tr') ->
  truthy identifier = true /\ d <> [].
Proof.
  unfold _get_user_by_identifier.
  destruct (truthy identifier); cbn [negb]; [|discriminate].
  destruct db_client as [db|]; [|discriminate].
  unfold bind at 1. rewrite stream_one.
  destruct (fails db (OpQuery "email" identifier)); [discriminate|].
  destruct (find (field_is "email" identifier) (map snd (users db))) as [x|] eqn:Hx.
  - intros [= -> _]. split; [reflexivity|].
    apply find_some in Hx. destruct Hx as [_ Hx]. now apply field_is_nonempty in Hx.
  - unfold bind at 1. unfold lift.
    destruct (title_of identifier) as [titled|e]; [|discriminate].
    unfold bind. rewrite stream_one.
    destruct (fails db (OpQuery "name" (VStr titled))); [discriminate|].
    destruct (find (field_is "name" (VStr titled)) (map snd (users db))) as [y|] eqn:Hy;
      [|discriminate].
    intros [= -> _]. split; [reflexivity|].
    apply find_some in Hy. destruct Hy as [_ Hy]. now apply field_is_nonempty in Hy.
Qed.

(** *** C7 *)

(** C7. [fetch_by_identifier] first asks for a record whose email equals the
    identifier exactly (case-sensitive); only when no record has that email
    does it ask for a record whose display name equals the title-cased
    identifier exactly.  The first record in stream order is returned, and
    nothing is returned when neither query matches. *)
Theorem C7_email_first_then_title_cased_name (db : Db) (identifier : string) :
  identifier <> EmptyString ->
  fails db (OpQuery "email" (VStr identifier)) = false ->
  fails db (OpQuery "name" (VStr (title identifier))) = false ->
  let docs := map snd (users db) in
  let has_email d := dict_get d "email" = Some (VStr identifier) in
  let has_name d := dict_get d "name" = Some (VStr (title identifier)) in
  let by_email := EvQuery "email" (VStr identifier) (Some 1%nat) in
  let by_name := EvQuery "name" (VStr (title identifier)) (Some 1%nat) in
  (forall d,
      first_such has_email docs d ->
      _get_user_by_identifier (Some db) (VStr identifier) []
      = (Ok (Some d), [by_email]))
  /\ (Forall (fun d => ~ has_email d) docs ->
      (forall d,
          first_such has_name docs d ->
          _get_user_by_identifier (Some db) (VStr identifier) []
          = (Ok (Some d), [by_email; by_name]))
      /\ (Forall (fun d => ~ has_name d) docs ->
          _get_user_by_identifier (Some db) (VStr identifier) []
          = (Ok None, [by_email; by_name]))).
Proof.
  intros Hid Hemail Hname docs has_email has_name by_email by_name.
  rewrite (by_identifier_text _ _ [] Hid Hemail Hname). fold docs.
  split.
  - intros d Hfirst.
    apply (find_first_such _ _ (field_is_text "email" identifier)) in Hfirst.
    now rewrite Hfirst.
  - intros Hnone.
    apply (find_none_iff _ _ (field_is_text "email" identifier)) in Hnone.
    rewrite Hnone. split.
    + intros d Hfirst.
      apply (find_first_such _ _ (field_is_text "name" (title identifier))) in Hfirst.
      now rewrite Hfirst.
    + intros Hnone'.
      apply (find_none_iff _ _ (field_is_text "name" (title identifier))) in Hnone'.
      now rewrite Hnone'.
Qed.

(** Witness of C7: Bob is stored before Robert, whose address is
    [bob@co.com]; the identifier [bob@co.com] finds Robert by email. *)
Lemma C7_witness :
  "bob@co.com" <> EmptyString
  /\ fails Fixtures.db (OpQuery "email" (VStr "bob@co.com")) = false
  /\ fails Fixtures.db (OpQuery "name" (VStr (title "bob@co.com"))) = false
  /\ dict_get Fixtures.bob "name" = Some (VStr "Bob")
  /\ _get_user_by_identifier (Some Fixtures.db) (VStr "bob@co.com") []
     = (Ok (Some Fixtures.robert), [EvQuery "email" (VStr "bob@co.com") (Some 1%nat)]).
Proof.
  split; [discriminate|]. do 3 (split; [reflexivity|]).
  apply (proj1 (C7_email_first_then_title_cased_name Fixtures.db "bob@co.com"
                  ltac:(discriminate) eq_refl eq_refl)).
  exists [Fixtures.bob], [Fixtures.hana; Fixtures.omar; Fixtures.lina].
  split; [reflexivity|]. split; [reflexivity|].
  constructor; [discriminate | constructor].
Defined.


(* ====================================================================== *)
(** ** Requests about another person *)
(* ====================================================================== *)

(** The summary branch is what the formatter does for the field ["all"]. *)
Lemma personal_data_all (user_doc : dict) :
  _get_personal_data user_doc (VStr "all")
  = all_summary user_doc (formatter_name user_doc).
Proof. reflexivity. Qed.

Lemma append_assoc (a b c : string) : (a ++ b) ++ c = a ++ (b ++ c).
Proof. induction a as [|x a IH]; simpl; [reflexivity | now rewrite IH]. Qed.

(** A summary that is produced starts with its header line. *)
Lemma all_summary_header (user_doc : dict) (name : value) (text : string) :
  all_summary user_doc name = Ok text ->
  exists rest, text = "Here is a summary for " ++ str name ++ ":" ++ rest.
Proof.
  unfold all_summary.
  destruct (summary_lines user_doc ordered_keys) as [fields|]; [|discriminate].
  destruct (flag_line user_doc "uploadedDocuments" _) as [submitted|]; [|discriminate].
  destruct (flag_line user_doc "resubmissionRequested" _) as [resubmit|]; [|discriminate].
  cbn [rbind]. intros [= <-].
  destruct (fields ++ submitted ++ resubmit)%list as [|line more].
  - exists EmptyString. reflexivity.
  - exists (nl ++ join nl (line :: more)).
    cbn [join]. now rewrite !append_assoc.
Qed.

(** With [request_details] omitted, a resolved target is summarised. *)
Lemma about_anyone_default (db_client : option Db) (parameters target : dict)
    (target_id : value) (tr tr' : trace) :
  dict_get parameters "request_details" = None ->
  dict_get parameters "target_identifier" = Some target_id ->
  _get_user_by_identifier db_client target_id tr = (Ok (Some target), tr') ->
  about_anyone db_client (VMap parameters) tr
  = (all_summary target (formatter_name target), tr').
Proof.
  intros Hdetails Htarget Hfound.
  destruct (by_identifier_found _ _ _ _ _ Hfound) as [Htruthy Hdoc].
  unfold about_anyone, bind, lift. cbn [get get_default].
  unfold dict_get_default. rewrite Htarget, Hdetails, Htruthy. cbn [negb].
  rewrite Hfound, (present_nonempty Hdoc).
  reflexivity.
Qed.

Lemma dispatch_about_anyone (db_client : option Db) (user_doc response : dict)
    (parameters : value) (tr : trace) :
  dict_get response "action_name" = Some (VStr "get_information_about_anyone") ->
  dict_get response "parameters" = Some parameters ->
  dispatch db_client user_doc (VStr "hr") (VMap response) tr
  = about_anyone db_client parameters tr.
Proof.
  intros Haction Hparams. unfold dispatch, bind, lift. cbn [get get_default].
  unfold dict_get_default. rewrite Haction, Hparams. reflexivity.
Qed.

(* ====================================================================== *)
(** ** Further properties: the calls a request makes *)
(* ====================================================================== *)

Lemma appends_ret {A} (a : A) : appends_queries 0 (ret a).
Proof. intros tr. exists []. simpl. now rewrite app_nil_r. Qed.

Lemma appends_raise {A} (e : exn) : appends_queries 0 (@raise A e).
Proof. intros tr. exists []. simpl. now rewrite app_nil_r. Qed.

Lemma appends_lift {A} (r : res A) : appends_queries 0 (lift r).
Proof. intros tr. exists []. simpl. now rewrite app_nil_r. Qed.

Lemma appends_weaken {A} (n n' : nat) (m : M A) :
  (n <= n')%nat -> appends_queries n m -> appends_queries n' m.
Proof.
  intros Hle Hm tr. destruct (Hm tr) as (added & H1 & H2 & H3).
  exists added. repeat split; auto. lia.
Qed.

Lemma appends_bind {A B} (n1 n2 : nat) (m : M A) (k : A -> M B) :
  appends_queries n1 m ->
  (forall a, appends_queries n2 (k a)) ->
  appends_queries (n1 + n2) (bind m k).
Proof.
  intros Hm Hk tr. unfold bind.
  destruct (Hm tr) as (added & H1 & H2 & H3).
  destruct (m tr) as [[a|e] tr1]; simpl in H1; subst tr1.
  - destruct (Hk a (tr ++ added)%list) as (more & K1 & K2 & K3).
    exists (added ++ more)%list. rewrite K1, app_assoc, length_app.
    repeat split; [lia | now apply Forall_app].
  - exists added. repeat split; auto. lia.
Qed.

Lemma appends_try_except {A} (n : nat) (m : M A) (a : A) :
  appends_queries n m -> appends_queries n (try_except m (fun _ => ret a)).
Proof.
  intros Hm tr. unfold try_except, ret.
  destruct (Hm tr) as (added & H1 & H2 & H3).
  destruct (m tr) as [[x|e] tr1]; simpl in *; eauto.
Qed.

Lemma appends_stream (db : Db) (field : string) (v : value) (limit : option nat) :
  appends_queries 1 (stream db field v limit).
Proof.
  intros tr. exists [EvQuery field v limit].
  unfold stream, bind, emit, raise, ret.
  destruct (fails db (OpQuery field v)); simpl;
    (repeat split; [lia | repeat constructor; now exists field, v, limit]).
Qed.

Lemma appends_count (db_client : option Db) :
  appends_queries 1 (_get_new_applicant_count db_client).
Proof.
  unfold _get_new_applicant_count. destruct db_client as [db|].
  - apply (appends_bind 1 0); [apply appends_stream|].
    intros docs. destruct (_ =? 0)%nat; [apply appends_ret|].
    destruct (_ =? 1)%nat; apply appends_ret.
  - apply (appends_weaken 0); [lia | apply appends_ret].
Qed.

Lemma appends_by_identifier (db_client : option Db) (identifier : value) :
  appends_queries 2 (_get_user_by_identifier db_client identifier).
Proof.
  unfold _get_user_by_identifier.
  destruct (negb (truthy identifier)).
  { apply (appends_weaken 0); [lia | apply appends_ret]. }
  destruct db_client as [db|].
  2: { apply (appends_weaken 0); [lia | apply appends_raise]. }
  apply (appends_bind 1 1); [apply appends_stream|].
  intros by_email. destruct by_email as [|doc rest].
  - apply (appends_bind 0 1); [apply appends_lift|].
    intros titled.
    apply (appends_bind 1 0); [apply appends_stream|].
    intros by_name. destruct by_name; apply appends_ret.
  - apply (appends_weaken 0); [lia | apply appends_ret].
Qed.

Lemma appends_about_anyone (db_client : option Db) (parameters : value) :
  appends_queries 2 (about_anyone db_client parameters).
Proof.
  unfold about_anyone.
  apply (appends_bind 0 2); [apply appends_lift|].
  intros target_id.
  apply (appends_bind 0 2); [apply appends_lift|].
  intros req_details.
  destruct (negb (truthy target_id)).
  { apply (appends_weaken 0); [lia | apply appends_ret]. }
  apply (appends_bind 2 0); [apply appends_by_identifier|].
  intros target_doc. destruct (present target_doc); [|apply appends_ret].
  apply (appends_bind 0 0); [apply appends_lift|].
  intros details_lower. destruct (existsb _ _); apply appends_lift.
Qed.

Lemma appends_dispatch (db_client : option Db) (user_doc : dict) (role response : value) :
  appends_queries 2 (dispatch db_client user_doc role response).
Proof.
  unfold dispatch.
  apply (appends_bind 0 2); [apply appends_lift|].
  intros action_name.
  apply (appends_bind 0 2); [apply appends_lift|].
  intros parameters.
  destruct (eq_str action_name "get_my_personal_info").
  { apply (appends_weaken 0); [lia|].
    apply (appends_bind 0 0); [apply appends_lift|].
    intros field. apply appends_lift. }
  destruct (eq_str action_name "check_my_document_status").
  { apply (appends_weaken 0); [lia|].
    apply (appends_bind 0 0); [apply appends_lift|].
    intros document_name. apply appends_lift. }
  destruct (eq_str action_name "get_applicant_count" && eq_str role "hr").
  { apply (appends_weaken 1); [lia | apply appends_count]. }
  destruct (eq_str action_name "get_information_about_anyone" && eq_str role "hr").
  { apply appends_about_anyone. }
  apply (appends_weaken 0); [lia | apply appends_ret].
Qed.

(** For a role other than hr the dispatch makes no call at all. *)
Lemma appends_dispatch_non_hr (db_client : option Db) (user_doc : dict)
    (role response : value) :
  role <> VStr "hr" ->
  appends_queries 0 (dispatch db_client user_doc role response).
Proof.
  intros Hrole. apply eq_str_false in Hrole.
  unfold dispatch.
  apply (appends_bind 0 0); [apply appends_lift|].
  intros action_name.
  apply (appends_bind 0 0); [apply appends_lift|].
  intros parameters.
  destruct (eq_str action_name "get_my_personal_info").
  { apply (appends_bind 0 0); [apply appends_lift|].
    intros field. apply appends_lift. }
  destruct (eq_str action_name "check_my_document_status").
  { apply (appends_bind 0 0); [apply appends_lift|].
    intros document_name. apply appends_lift. }
  rewrite Hrole, !andb_false_r. apply appends_ret.
Qed.

Lemma try_except_trace {A} (m : M A) (a : A) (tr : trace) :
  snd (try_except m (fun _ => ret a) tr) = snd (m tr).
Proof. unfold try_except, ret. destruct (m tr) as [[x|e] tr']; reflexivity. Qed.

Lemma try_except_answer (m : M string) (tr : trace) :
  try_except m (fun _ => ret msg_rephrase) tr
  = (answer_of (fst (m tr)), snd (m tr)).
Proof. unfold try_except, ret. destruct (m tr) as [[x|e] tr']; reflexivity. Qed.

(** The load of the caller record, whatever the store does. *)
Lemma load_trace (db : Db) (user_id : string) (tr : trace) :
  _get_user_document (Some db) user_id tr
  = (Ok (if fails db (OpDocGet user_id) then None
         else doc_lookup (users db) user_id),
     (tr ++ [EvDocGet user_id])%list).
Proof.
  unfold _get_user_document, try_except, doc_get, bind, emit, raise, ret.
  destruct (fails db (OpDocGet user_id)); reflexivity.
Qed.

(** The requests that end before the [try] block. *)
Lemma tool_ends_early (llm : router) (query user_id : string) (db : Db) :
  (fails db (OpDocGet user_id) = true
   \/ present (doc_lookup (users db) user_id) = None
   \/ exists user_doc,
       doc_lookup (users db) user_id = Some user_doc
       /\ available_actions_for (role_of user_doc) = []) ->
  snd (run_tool llm query user_id (Some db)) = [EvDocGet user_id].
Proof.
  intros Hcase.
  unfold run_tool, get_user_specific_data_tool. unfold bind at 1.
  rewrite load_trace.
  destruct (fails db (OpDocGet user_id)) eqn:Hf; [reflexivity|].
  destruct Hcase as [Hc | [Hc | (user_doc & Hdoc & Hmenu)]];
    [discriminate | now rewrite Hc |].
  rewrite Hdoc. destruct (present (Some user_doc)) as [doc|] eqn:Hp; [|reflexivity].
  assert (doc = user_doc) as -> by (destruct user_doc; [discriminate | now inversion Hp]).
  fold (role_of user_doc). now rewrite Hmenu.
Qed.

(** *** X1 *)

(** X1. Whatever the router, the query, the caller id and the store are, the
    tool ends with a text: no exception raised by the store, by the router or
    by the handlers leaves [get_user_specific_data_tool]. *)
Theorem X1_tool_always_answers
    (llm : router) (query user_id : string) (db_client : option Db) :
  exists text, fst (run_tool llm query user_id db_client) = Ok text.
Proof.
  unfold run_tool.
  destruct (tool_total llm query user_id db_client []) as (text & tr' & H).
  exists text. now rewrite H.
Qed.

(** *** X2 *)

(** X2. The calls of one request, in order: nothing at all without a client;
    otherwise the load of the caller record, then at most one classification
    call, made only for a caller with a non-empty menu and given exactly the
    caller's role and the menu of that role, then at most two record
    queries. *)
Theorem X2_calls_of_a_request
    (llm : router) (query user_id : string) (db_client : option Db) :
  let tr := snd (run_tool llm query user_id db_client) in
  (db_client = None /\ tr = [])
  \/ (db_client <> None /\ tr = [EvDocGet user_id])
  \/ exists db user_doc queries,
      db_client = Some db
      /\ doc_lookup (users db) user_id = Some user_doc
      /\ available_actions_for (role_of user_doc) <> []
      /\ tr = EvDocGet user_id
              :: EvRoute query (role_of user_doc)
                   (available_actions_for (role_of user_doc))
              :: queries
      /\ (List.length queries <= 2)%nat
      /\ Forall is_query queries.
Proof.
  intros tr. subst tr. destruct db_client as [db|]; [|left; split; reflexivity].
  right.
  destruct (fails db (OpDocGet user_id)) eqn:Hf.
  { left. split; [discriminate | apply tool_ends_early; auto]. }
  destruct (doc_lookup (users db) user_id) as [user_doc|] eqn:Hdoc.
  2: { left. split; [discriminate|]. apply tool_ends_early. right. left.
       now rewrite Hdoc. }
  destruct (available_actions_for (role_of user_doc)) as [|a acts] eqn:Hmenu.
  { left. split; [discriminate|]. apply tool_ends_early. right. right.
    exists user_doc. auto. }
  right. exists db, user_doc.
  assert (available_actions_for (role_of user_doc) <> []) as Hm
    by (rewrite Hmenu; discriminate).
  destruct (llm query (role_of user_doc) (available_actions_for (role_of user_doc)))
    as [|response] eqn:Hanswer.
  - exists []. rewrite (tool_router_throws llm query user_id db user_doc Hf Hdoc Hm Hanswer).
    repeat split; auto.
  - rewrite (tool_answered llm query user_id db user_doc Hf Hdoc response Hm Hanswer).
    rewrite try_except_trace.
    destruct (appends_dispatch (Some db) user_doc (role_of user_doc) response
                [EvDocGet user_id;
                 EvRoute query (role_of user_doc)
                   (available_actions_for (role_of user_doc))])
      as (added & H1 & H2 & H3).
    exists added. rewrite H1. repeat split; auto.
Qed.

(** *** X3 *)

(** X3. A request of a caller whose role is not hr sends no record query,
    whatever the router answers: the only record it reads is the caller's
    own. *)
Theorem X3_non_hr_request_sends_no_query
    (llm : router) (query user_id : string) (db : Db) (user_doc : dict) :
  doc_lookup (users db) user_id = Some user_doc ->
  role_of user_doc <> VStr "hr" ->
  no_query (snd (run_tool llm query user_id (Some db))).
Proof.
  intros Hdoc Hrole.
  assert (no_query [EvDocGet user_id]) as Hload
    by (intros f v l [H | []]; discriminate).
  destruct (fails db (OpDocGet user_id)) eqn:Hf.
  { rewrite tool_ends_early; auto. }
  destruct (available_actions_for (role_of user_doc)) as [|a acts] eqn:Hmenu.
  { rewrite tool_ends_early; auto. right. right. exists user_doc. auto. }
  assert (available_actions_for (role_of user_doc) <> []) as Hm
    by (rewrite Hmenu; discriminate).
  assert (forall route, no_query [EvDocGet user_id;
                                  EvRoute query (role_of user_doc) route]) as Hrouted
    by (intros route f v l [H | [H | []]]; discriminate).
  destruct (llm query (role_of user_doc) (available_actions_for (role_of user_doc)))
    as [|response] eqn:Hanswer.
  - rewrite (tool_router_throws llm query user_id db user_doc Hf Hdoc Hm Hanswer).
    apply Hrouted.
  - rewrite (tool_answered llm query user_id db user_doc Hf Hdoc response Hm Hanswer).
    rewrite try_except_trace.
    destruct (appends_dispatch_non_hr (Some db) user_doc _ response Hrole
                [EvDocGet user_id;
                 EvRoute query (role_of user_doc)
                   (available_actions_for (role_of user_doc))])
      as (added & H1 & H2 & _).
    rewrite H1. destruct added; [|simpl in H2; lia].
    rewrite app_nil_r. apply Hrouted.
Qed.

Lemma X3_witness :
  doc_lookup (users Fixtures.db) "u2" = Some Fixtures.robert
  /\ role_of Fixtures.robert <> VStr "hr"
  /\ no_query
       (snd (run_tool
               (Fixtures.always
                  (Fixtures.reply "get_information_about_anyone"
                     [("target_identifier", VStr "hana@co.com")]))
               "what does hana earn?" "u2" (Some Fixtures.db))).
Proof.
  split; [reflexivity|]. split; [discriminate|].
  exact (X3_non_hr_request_sends_no_query
           (Fixtures.always
              (Fixtures.reply "get_information_about_anyone"
                 [("target_identifier", VStr "hana@co.com")]))
           "what does hana earn?" "u2" Fixtures.db Fixtures.robert
           eq_refl ltac:(discriminate)).
Defined.

(* ====================================================================== *)
(** ** Further properties: the menu and the dispatch table *)
(* ====================================================================== *)

Lemma offered_cases (role : value) :
  (role = VStr "employee" \/ role = VStr "new")
    /\ offered role = ["get_my_personal_info"; "check_my_document_status"]
  \/ role = VStr "hr"
    /\ offered role = ["get_my_personal_info"; "check_my_document_status";
                       "get_information_about_anyone"; "get_applicant_count"]
  \/ (role <> VStr "employee" /\ role <> VStr "new" /\ role <> VStr "hr")
    /\ offered role = [].
Proof.
  unfold offered, available_actions_for.
  destruct (eq_str role "employee") eqn:E1.
  { apply eq_str_iff in E1. left. split; [now left | reflexivity]. }
  destruct (eq_str role "new") eqn:E2.
  { apply eq_str_iff in E2. left. split; [now right | reflexivity]. }
  destruct (eq_str role "hr") eqn:E3.
  { apply eq_str_iff in E3. right. left. split; [assumption | reflexivity]. }
  right. right. split; [|reflexivity].
  repeat split; intros H; apply eq_str_iff in H; congruence.
Qed.

Lemma offered_nil (role : value) :
  offered role = [] <-> available_actions_for role = [].
Proof.
  unfold offered. destruct (available_actions_for role); simpl; split;
    (reflexivity || discriminate).
Qed.

(** *** X4 *)

(** X4. The menu built for a role is empty exactly when the role is none of
    employee, new and hr; every non-empty menu offers the two self actions;
    the two hr-only actions are offered exactly to hr; and no menu offers
    anything outside the four known actions. *)
Theorem X4_menu_of_a_role (role : value) :
  (available_actions_for role = []
   <-> role <> VStr "employee" /\ role <> VStr "new" /\ role <> VStr "hr")
  /\ (available_actions_for role <> [] ->
      In "get_my_personal_info" (offered role)
      /\ In "check_my_document_status" (offered role))
  /\ (In "get_information_about_anyone" (offered role) <-> role = VStr "hr")
  /\ (In "get_applicant_count" (offered role) <-> role = VStr "hr")
  /\ (forall name,
         In name (offered role) ->
         In name ["get_my_personal_info"; "check_my_document_status";
                  "get_information_about_anyone"; "get_applicant_count"]).
Proof.
  split; [apply menu_empty_iff|].
  rewrite <- offered_nil.
  destruct (offered_cases role) as [[Hr ->] | [[Hr ->] | [(He & Hn & Hh) ->]]].
  - assert (role <> VStr "hr") as Hh by (destruct Hr as [-> | ->]; discriminate).
    split; [intros _; simpl; auto|].
    split; [split; [intros [H | [H | []]]; discriminate | intros H; contradiction]|].
    split; [split; [intros [H | [H | []]]; discriminate | intros H; contradiction]|].
    intros name [<- | [<- | []]]; simpl; auto.
  - split; [intros _; simpl; auto|].
    split; [split; [intros _; assumption | intros _; simpl; auto]|].
    split; [split; [intros _; assumption | intros _; simpl; auto 6]|].
    intros name H. exact H.
  - split; [intros H; now elim H|].
    split; [split; [intros [] | intros H; contradiction]|].
    split; [split; [intros [] | intros H; contradiction]|].
    intros name [].
Qed.

(** An action name that the menu of the role does not offer reaches no
    handler. *)
Lemma dispatch_outside_menu (db_client : option Db) (user_doc : dict)
    (role : value) (response : dict) (tr : trace) :
  available_actions_for role <> [] ->
  (forall name,
      dict_get response "action_name" = Some (VStr name) ->
      ~ In name (offered role)) ->
  dispatch db_client user_doc role (VMap response) tr = (Ok msg_cannot_perform, tr).
Proof.
  intros Hmenu Hout.
  assert (In "get_my_personal_info" (offered role)
          /\ In "check_my_document_status" (offered role)
          /\ (role = VStr "hr" ->
              In "get_applicant_count" (offered role)
              /\ In "get_information_about_anyone" (offered role)))
    as (Hinfo & Hdocs & Hhr_only).
  { rewrite <- offered_nil in Hmenu.
    destruct (offered_cases role) as [[Hr Ho] | [[Hr Ho] | [_ Ho]]];
      [| |contradiction]; rewrite Ho; simpl.
    - split; [auto|]. split; [auto|].
      intros Hhr. subst role. destruct Hr; discriminate.
    - split; [auto|]. split; [auto|]. intros _. split; auto 6. }
  assert (forall name,
             In name (offered role) ->
             eq_str (dict_get_default response "action_name" VNone) name = false)
    as Hno.
  { intros name Hin. destruct (eq_str _ name) eqn:E; [|reflexivity].
    apply eq_str_iff in E. unfold dict_get_default in E.
    destruct (dict_get response "action_name") as [v|] eqn:Hv; [|discriminate].
    subst v. now elim (Hout name). }
  unfold dispatch, bind, lift. cbn [get get_default].
  rewrite (Hno _ Hinfo), (Hno _ Hdocs).
  destruct (eq_str role "hr") eqn:Hhr.
  - apply eq_str_iff in Hhr.
    destruct (Hhr_only Hhr) as [Hcount Hany].
    rewrite (Hno _ Hcount), (Hno _ Hany). reflexivity.
  - rewrite !andb_false_r. reflexivity.
Qed.

Lemma dict_get_default_some (d : dict) (k : string) (default v : value) :
  dict_get d k = Some v -> dict_get_default d k default = v.
Proof. intros H. unfold dict_get_default. now rewrite H. Qed.

Lemma dispatch_self_info (db_client : option Db) (user_doc : dict) (role : value)
    (response parameters : dict) (tr : trace) :
  dict_get response "action_name" = Some (VStr "get_my_personal_info") ->
  dict_get_default response "parameters" (VMap []) = VMap parameters ->
  dispatch db_client user_doc role (VMap response) tr
  = (_get_personal_data user_doc (dict_get_default parameters "field" VNone), tr).
Proof.
  intros Haction Hparams.
  apply (dict_get_default_some _ _ VNone) in Haction.
  unfold dispatch, bind, lift. cbn [get get_default].
  rewrite Hparams, !Haction. reflexivity.
Qed.

Lemma dispatch_self_document (db_client : option Db) (user_doc : dict) (role : value)
    (response parameters : dict) (tr : trace) :
  dict_get response "action_name" = Some (VStr "check_my_document_status") ->
  dict_get_default response "parameters" (VMap []) = VMap parameters ->
  dispatch db_client user_doc role (VMap response) tr
  = (_check_document_status user_doc
       (dict_get_default parameters "document_name" VNone), tr).
Proof.
  intros Haction Hparams.
  apply (dict_get_default_some _ _ VNone) in Haction.
  unfold dispatch, bind, lift. cbn [get get_default].
  rewrite Hparams, !Haction. reflexivity.
Qed.

(** Parameters that are not a JSON object have no [get]. *)
Lemma dispatch_bad_parameters (db_client : option Db) (user_doc : dict)
    (role : value) (response : dict) (action : string) (parameters : value)
    (tr : trace) :
  dict_get response "action_name" = Some (VStr action) ->
  action = "get_my_personal_info" \/ action = "check_my_document_status"
  \/ (action = "get_information_about_anyone" /\ role = VStr "hr") ->
  dict_get response "parameters" = Some parameters ->
  (forall m, parameters <> VMap m) ->
  dispatch db_client user_doc role (VMap response) tr = (Raise AttributeError, tr).
Proof.
  intros Haction Hwhich Hparams Hshape.
  unfold dispatch, about_anyone, bind, lift. cbn [get get_default].
  unfold dict_get_default. rewrite Haction, Hparams.
  assert (get parameters "field" = Raise AttributeError
          /\ get parameters "document_name" = Raise AttributeError
          /\ get parameters "target_identifier" = Raise AttributeError)
    as (Hf & Hd & Ht).
  { destruct parameters; repeat split; try reflexivity; now elim (Hshape m). }
  destruct Hwhich as [-> | [-> | [-> ->]]]; cbn [eq_str String.eqb Ascii.eqb Bool.eqb andb].
  - now rewrite Hf.
  - now rewrite Hd.
  - now rewrite Ht.
Qed.

Lemma dispatch_count (db_client : option Db) (user_doc response : dict) (tr : trace) :
  dict_get response "action_name" = Some (VStr "get_applicant_count") ->
  dispatch db_client user_doc (VStr "hr") (VMap response) tr
  = _get_new_applicant_count db_client tr.
Proof.
  intros Haction.
  apply (dict_get_default_some _ _ VNone) in Haction.
  unfold dispatch, bind, lift. cbn [get get_default].
  rewrite !Haction. reflexivity.
Qed.

Lemma count_run (db : Db) (tr : trace) :
  _get_new_applicant_count (Some db) tr
  = (if fails db (OpQuery "role" (VStr "new")) then Raise StoreError
     else Ok (match new_applicants db with
              | 0%nat => "There are currently no new applicants."
              | 1%nat => "There is currently 1 new applicant."
              | n => "There are currently " ++ of_nat n ++ " new applicants."
              end),
     (tr ++ [EvQuery "role" (VStr "new") None])%list).
Proof.
  unfold _get_new_applicant_count, stream, bind, emit, raise, ret, new_applicants.
  destruct (fails db (OpQuery "role" (VStr "new"))); [reflexivity|].
  cbn [take]. destruct (List.length _) as [|[|n]]; reflexivity.
Qed.

Section CallerActions.

(** A request whose caller record is loaded from a store that answers, and
    whose router answers with a JSON object. *)
Variables (llm : router) (query user_id : string) (db : Db) (user_doc : dict).
Variable response : dict.
Hypothesis store_answers : fails db (OpDocGet user_id) = false.
Hypothesis caller_found : doc_lookup (users db) user_id = Some user_doc.
Hypothesis menu_offered : available_actions_for (role_of user_doc) <> [].
Hypothesis router_answers :
  llm query (role_of user_doc) (available_actions_for (role_of user_doc))
  = Replies (VMap response).

Let routed : trace :=
  [EvDocGet user_id;
   EvRoute query (role_of user_doc) (available_actions_for (role_of user_doc))].

Lemma tool_dispatches :
  run_tool llm query user_id (Some db)
  = (answer_of (fst (dispatch (Some db) user_doc (role_of user_doc)
                       (VMap response) routed)),
     snd (dispatch (Some db) user_doc (role_of user_doc) (VMap response) routed)).
Proof.
  rewrite (tool_answered llm query user_id db user_doc store_answers caller_found
             (VMap response) menu_offered router_answers).
  apply try_except_answer.
Qed.

(** *** X5 *)

(** X5. The dispatcher re-validates the router's choice: when the reply names
    an action that the menu built for the caller's role does not offer (or
    names none, or names something that is not text), the tool returns the
    cannot-perform text and makes no further call. *)
Theorem X5_action_outside_menu_is_refused :
  (forall name,
      dict_get response "action_name" = Some (VStr name) ->
      ~ In name (offered (role_of user_doc))) ->
  run_tool llm query user_id (Some db) = (Ok msg_cannot_perform, routed).
Proof.
  intros Hout. rewrite tool_dispatches.
  now rewrite dispatch_outside_menu.
Qed.

(** *** X6 *)

(** X6. The two self actions answer from the caller's own record and make no
    further call: [get_my_personal_info] returns what the formatter gives for
    the parameter [field], [check_my_document_status] what the matcher gives
    for the parameter [document_name]; an omitted [parameters] object counts
    as an empty one, and an exception of the handler becomes the rephrase
    text. *)
Theorem X6_self_actions_use_own_record (parameters : dict) :
  dict_get_default response "parameters" (VMap []) = VMap parameters ->
  (dict_get response "action_name" = Some (VStr "get_my_personal_info") ->
   run_tool llm query user_id (Some db)
   = (answer_of (_get_personal_data user_doc
                   (dict_get_default parameters "field" VNone)),
      routed))
  /\ (dict_get response "action_name" = Some (VStr "check_my_document_status") ->
      run_tool llm query user_id (Some db)
      = (answer_of (_check_document_status user_doc
                      (dict_get_default parameters "document_name" VNone)),
         routed)).
Proof.
  intros Hparams. split; intros Haction; rewrite tool_dispatches.
  - now erewrite dispatch_self_info by eassumption.
  - now erewrite dispatch_self_document by eassumption.
Qed.

(** *** X7 *)

(** X7. A self action whose parameter is missing, null or empty is answered
    with the handler's request for clarification, whatever the caller's
    record holds. *)
Theorem X7_missing_parameter_is_asked_for (parameters : dict) :
  dict_get_default response "parameters" (VMap []) = VMap parameters ->
  (dict_get response "action_name" = Some (VStr "get_my_personal_info") ->
   truthy (dict_get_default parameters "field" VNone) = false ->
   run_tool llm query user_id (Some db)
   = (Ok "Please specify what personal information you'd like to know.", routed))
  /\ (dict_get response "action_name" = Some (VStr "check_my_document_status") ->
      truthy (dict_get_default parameters "document_name" VNone) = false ->
      run_tool llm query user_id (Some db)
      = (Ok "Please specify which document you'd like to check.", routed)).
Proof.
  intros Hparams. split; intros Haction Hfalsy; rewrite tool_dispatches.
  - erewrite dispatch_self_info by eassumption.
    unfold _get_personal_data. now rewrite Hfalsy.
  - erewrite dispatch_self_document by eassumption.
    unfold _check_document_status. now rewrite Hfalsy.
Qed.

(** *** X8 *)

(** X8. When [parameters] is present but is not a JSON object (null, a text,
    a list, a number), every action that reads a parameter ends in the
    rephrase text without any further call. *)
Theorem X8_parameters_must_be_an_object (action : string) (parameters : value) :
  dict_get response "action_name" = Some (VStr action) ->
  action = "get_my_personal_info" \/ action = "check_my_document_status"
  \/ (action = "get_information_about_anyone" /\ role_of user_doc = VStr "hr") ->
  dict_get response "parameters" = Some parameters ->
  (forall m, parameters <> VMap m) ->
  run_tool llm query user_id (Some db) = (Ok msg_rephrase, routed).
Proof.
  intros Haction Hwhich Hparams Hshape. rewrite tool_dispatches.
  now erewrite dispatch_bad_parameters by eassumption.
Qed.

(** *** X9 *)

(** X9. For an hr caller, [get_applicant_count] sends one unlimited query
    for the records whose role is ["new"], whatever the parameters are, and
    words the number of records found: none, exactly one (singular), or the
    number in decimal (plural).  If that query fails the tool answers with
    the rephrase text. *)
Theorem X9_applicant_count :
  role_of user_doc = VStr "hr" ->
  dict_get response "action_name" = Some (VStr "get_applicant_count") ->
  let counted := (routed ++ [EvQuery "role" (VStr "new") None])%list in
  (fails db (OpQuery "role" (VStr "new")) = true ->
   run_tool llm query user_id (Some db) = (Ok msg_rephrase, counted))
  /\ (fails db (OpQuery "role" (VStr "new")) = false ->
      (new_applicants db = 0%nat ->
       run_tool llm query user_id (Some db)
       = (Ok "There are currently no new applicants.", counted))
      /\ (new_applicants db = 1%nat ->
          run_tool llm query user_id (Some db)
          = (Ok "There is currently 1 new applicant.", counted))
      /\ ((2 <= new_applicants db)%nat ->
          run_tool llm query user_id (Some db)
          = (Ok ("There are currently " ++ of_nat (new_applicants db)
                   ++ " new applicants."), counted))).
Proof.
  intros Hrole Haction counted. subst counted.
  rewrite tool_dispatches, Hrole.
  rewrite dispatch_count by assumption. rewrite count_run.
  split; [intros ->; reflexivity|].
  intros ->. cbn [fst snd answer_of].
  split; [intros ->; reflexivity|].
  split; [intros ->; reflexivity|].
  intros Hmany. destruct (new_applicants db) as [|[|n]]; [lia | lia | reflexivity].
Qed.

End CallerActions.

(** Witness of X5: an employee and a router that invents an action. *)
Lemma X5_witness :
  available_actions_for (role_of Fixtures.bob) <> []
  /\ ~ In "delete_all_records" (offered (role_of Fixtures.bob))
  /\ run_tool (Fixtures.always (Fixtures.reply "delete_all_records" []))
       "wipe the database" "u1" (Some Fixtures.db)
     = (Ok msg_cannot_perform,
        [EvDocGet "u1";
         EvRoute "wipe the database" (VStr "employee")
           (available_actions_for (VStr "employee"))]).
Proof.
  split; [discriminate|].
  split; [intros [H | [H | []]]; discriminate|].
  apply (X5_action_outside_menu_is_refused
           (Fixtures.always (Fixtures.reply "delete_all_records" []))
           "wipe the database" "u1" Fixtures.db Fixtures.bob
           [("action_name", VStr "delete_all_records"); ("parameters", VMap [])]
           eq_refl eq_refl ltac:(discriminate) eq_refl).
  intros name [= <-] [H | [H | []]]; discriminate.
Defined.

(** Witness of X6: an employee asks for a field of the own record. *)
Lemma X6_witness :
  run_tool (Fixtures.always (Fixtures.reply "get_my_personal_info"
                               [("field", VStr "position")]))
    "what is my position?" "u1" (Some Fixtures.db)
  = (Ok "The value for 'position' for Bob is: Engineer",
     [EvDocGet "u1";
      EvRoute "what is my position?" (VStr "employee")
        (available_actions_for (VStr "employee"))]).
Proof.
  exact (proj1 (X6_self_actions_use_own_record
                  (Fixtures.always (Fixtures.reply "get_my_personal_info"
                                      [("field", VStr "position")]))
                  "what is my position?" "u1" Fixtures.db Fixtures.bob
                  [("action_name", VStr "get_my_personal_info");
                   ("parameters", VMap [("field", VStr "position")])]
                  eq_refl eq_refl ltac:(discriminate) eq_refl
                  [("field", VStr "position")] eq_refl)
               eq_refl).
Defined.

(** Witness of X7: the router names the action and gives no parameters. *)
Lemma X7_witness :
  dict_get [("action_name", VStr "check_my_document_status")] "parameters" = None
  /\ run_tool
       (Fixtures.always
          (Replies (VMap [("action_name", VStr "check_my_document_status")])))
       "did I submit it?" "u2" (Some Fixtures.db)
     = (Ok "Please specify which document you'd like to check.",
        [EvDocGet "u2";
         EvRoute "did I submit it?" (VStr "new")
           (available_actions_for (VStr "new"))]).
Proof.
  split; [reflexivity|].
  exact (proj2 (X7_missing_parameter_is_asked_for
                  (Fixtures.always
                     (Replies (VMap [("action_name", VStr "check_my_document_status")])))
                  "did I submit it?" "u2" Fixtures.db Fixtures.robert
                  [("action_name", VStr "check_my_document_status")]
                  eq_refl eq_refl ltac:(discriminate) eq_refl
                  [] eq_refl)
               eq_refl eq_refl).
Defined.

(** Witness of X8: the router answers with [parameters: null]. *)
Lemma X8_witness :
  dict_get [("action_name", VStr "get_my_personal_info"); ("parameters", VNone)]
    "parameters" = Some VNone
  /\ run_tool
       (Fixtures.always
          (Replies (VMap [("action_name", VStr "get_my_personal_info");
                          ("parameters", VNone)])))
       "what is my salary?" "u3" (Some Fixtures.db)
     = (Ok msg_rephrase,
        [EvDocGet "u3";
         EvRoute "what is my salary?" (VStr "hr") (available_actions_for (VStr "hr"))]).
Proof.
  split; [reflexivity|].
  exact (X8_parameters_must_be_an_object
           (Fixtures.always
              (Replies (VMap [("action_name", VStr "get_my_personal_info");
                              ("parameters", VNone)])))
           "what is my salary?" "u3" Fixtures.db Fixtures.hana
           [("action_name", VStr "get_my_personal_info"); ("parameters", VNone)]
           eq_refl eq_refl ltac:(discriminate) eq_refl
           "get_my_personal_info" VNone eq_refl (or_introl eq_refl) eq_refl
           ltac:(discriminate)).
Defined.

(** Witness of X9: the sample collection holds one record with role new. *)
Lemma X9_witness :
  role_of Fixtures.hana = VStr "hr"
  /\ fails Fixtures.db (OpQuery "role" (VStr "new")) = false
  /\ new_applicants Fixtures.db = 1%nat
  /\ run_tool (Fixtures.always (Fixtures.reply "get_applicant_count" []))
       "how many applicants?" "u3" (Some Fixtures.db)
     = (Ok "There is currently 1 new applicant.",
        [EvDocGet "u3";
         EvRoute "how many applicants?" (VStr "hr") (available_actions_for (VStr "hr"));
         EvQuery "role" (VStr "new") None]).
Proof.
  do 3 (split; [reflexivity|]).
  exact (proj1 (proj2 (proj2
           (X9_applicant_count
              (Fixtures.always (Fixtures.reply "get_applicant_count" []))
              "how many applicants?" "u3" Fixtures.db Fixtures.hana
              [("action_name", VStr "get_applicant_count"); ("parameters", VMap [])]
              eq_refl eq_refl ltac:(discriminate) eq_refl eq_refl eq_refl)
           eq_refl)) eq_refl).
Defined.

(* ====================================================================== *)
(** ** Further properties: requests about another person *)
(* ====================================================================== *)

Lemma dispatch_anyone (db_client : option Db) (user_doc response : dict)
    (parameters : value) (tr : trace) :
  dict_get response "action_name" = Some (VStr "get_information_about_anyone") ->
  dict_get_default response "parameters" (VMap []) = parameters ->
  dispatch db_client user_doc (VStr "hr") (VMap response) tr
  = about_anyone db_client parameters tr.
Proof.
  intros Haction Hparams.
  apply (dict_get_default_some _ _ VNone) in Haction.
  unfold dispatch, bind, lift. cbn [get get_default].
  rewrite Hparams, !Haction. reflexivity.
Qed.

Lemma about_anyone_no_target (db_client : option Db) (parameters : dict) (tr : trace) :
  truthy (dict_get_default parameters "target_identifier" VNone) = false ->
  about_anyone db_client (VMap parameters) tr = (Ok msg_no_target, tr).
Proof.
  intros Hfalsy. unfold about_anyone, bind, lift. cbn [get get_default].
  now rewrite Hfalsy.
Qed.

(** What the branch does once the lookup has returned. *)
Lemma about_anyone_after_lookup (db_client : option Db) (parameters : dict)
    (target_id : value) (found : res (option dict)) (tr tr' : trace) :
  dict_get_default parameters "target_identifier" VNone = target_id ->
  truthy target_id = true ->
  _get_user_by_identifier db_client target_id tr = (found, tr') ->
  about_anyone db_client (VMap parameters) tr
  = (match found with
     | Raise e => Raise e
     | Ok target_doc =>
         match present target_doc with
         | None => Ok (msg_target_not_found target_id)
         | Some target =>
             let req_details :=
               dict_get_default parameters "request_details" (VStr "all") in
             let? details_lower := lower_of req_details in
             if existsb (fun keyword => contains keyword details_lower) doc_keywords
             then _check_document_status target req_details
             else _get_personal_data target req_details
         end
     end, tr').
Proof.
  intros Htarget Htruthy Hlookup.
  unfold about_anyone, bind, lift. cbn [get get_default].
  rewrite Htarget, Htruthy. cbn [negb]. rewrite Hlookup.
  destruct found as [[target|]|e]; try reflexivity.
  destruct (present (Some target)); [|reflexivity].
  cbn zeta.
  destruct (lower_of (dict_get_default parameters "request_details" (VStr "all")));
    cbn [rbind]; [|reflexivity].
  destruct (existsb _ _); reflexivity.
Qed.

Lemma keyword_found (details : string) :
  existsb (fun keyword => contains keyword (lower details)) doc_keywords = true
  <-> exists keyword, In keyword doc_keywords /\ is_substring keyword (lower details).
Proof.
  rewrite existsb_exists. split; intros (k & Hin & Hk); exists k; split; auto;
    now apply contains_iff.
Qed.

Section HrRequest.

(** An hr caller whose router answers [get_information_about_anyone]. *)
Variables (llm : router) (query user_id : string) (db : Db) (user_doc : dict).
Variables (response parameters : dict).
Hypothesis store_answers : fails db (OpDocGet user_id) = false.
Hypothesis caller_found : doc_lookup (users db) user_id = Some user_doc.
Hypothesis caller_is_hr : role_of user_doc = VStr "hr".
Hypothesis router_answers :
  llm query (VStr "hr") (available_actions_for (VStr "hr")) = Replies (VMap response).
Hypothesis action_chosen :
  dict_get response "action_name" = Some (VStr "get_information_about_anyone").
Hypothesis parameters_given :
  dict_get_default response "parameters" (VMap []) = VMap parameters.

Let routed : trace :=
  [EvDocGet user_id; EvRoute query (VStr "hr") (available_actions_for (VStr "hr"))].

Lemma tool_asks_about_anyone :
  run_tool llm query user_id (Some db)
  = (answer_of (fst (about_anyone (Some db) (VMap parameters) routed)),
     snd (about_anyone (Some db) (VMap parameters) routed)).
Proof.
  assert (available_actions_for (role_of user_doc) <> []) as Hmenu
    by (rewrite caller_is_hr; discriminate).
  rewrite (tool_answered llm query user_id db user_doc store_answers caller_found
             (VMap response) Hmenu); [|now rewrite caller_is_hr].
  rewrite try_except_answer, caller_is_hr.
  now rewrite (dispatch_anyone (Some db) user_doc response (VMap parameters)).
Qed.

(** *** X10 *)

(** X10. When the target of [get_information_about_anyone] is missing, null
    or empty, the tool asks for the person and sends no query.  When the
    target is a text that is no record's email and whose title-cased form is
    no record's name, the tool reports that no matching user was found,
    quoting the identifier as it was given, after the email query and the
    name query.  When the store fails on either query the tool answers with
    the rephrase text. *)
Theorem X10_target_missing_or_unknown :
  (truthy (dict_get_default parameters "target_identifier" VNone) = false ->
   run_tool llm query user_id (Some db) = (Ok msg_no_target, routed))
  /\ (forall identifier,
      dict_get parameters "target_identifier" = Some (VStr identifier) ->
      identifier <> EmptyString ->
      let by_email := EvQuery "email" (VStr identifier) (Some 1%nat) in
      let by_name := EvQuery "name" (VStr (title identifier)) (Some 1%nat) in
      (fails db (OpQuery "email" (VStr identifier)) = true ->
       run_tool llm query user_id (Some db)
       = (Ok msg_rephrase, (routed ++ [by_email])%list))
      /\ (fails db (OpQuery "email" (VStr identifier)) = false ->
          Forall (fun d => dict_get d "email" <> Some (VStr identifier))
            (map snd (users db)) ->
          (fails db (OpQuery "name" (VStr (title identifier))) = true ->
           run_tool llm query user_id (Some db)
           = (Ok msg_rephrase, (routed ++ [by_email; by_name])%list))
          /\ (fails db (OpQuery "name" (VStr (title identifier))) = false ->
              Forall (fun d => dict_get d "name" <> Some (VStr (title identifier)))
                (map snd (users db)) ->
              run_tool llm query user_id (Some db)
              = (Ok ("I could not find a user matching '" ++ identifier ++ "'."),
                 (routed ++ [by_email; by_name])%list)))).
Proof.
  split.
  - intros Hfalsy. rewrite tool_asks_about_anyone.
    now rewrite about_anyone_no_target.
  - intros identifier Htarget Hid by_email by_name.
    apply (dict_get_default_some _ _ VNone) in Htarget.
    pose proof (truthy_text Hid) as Htruthy.
    rewrite tool_asks_about_anyone.
    split.
    + intros Hfail.
      assert (_get_user_by_identifier (Some db) (VStr identifier) routed
              = (Raise StoreError, (routed ++ [by_email])%list)) as Hlookup.
      { unfold _get_user_by_identifier. rewrite Htruthy. cbn [negb].
        unfold bind at 1. rewrite stream_one, Hfail. reflexivity. }
      now rewrite (about_anyone_after_lookup _ _ _ _ _ _ Htarget Htruthy Hlookup).
    + intros Hemail Hno_email.
      apply (find_none_iff _ _ (field_is_text "email" identifier)) in Hno_email.
      split.
      * intros Hfail.
        assert (_get_user_by_identifier (Some db) (VStr identifier) routed
                = (Raise StoreError, (routed ++ [by_email; by_name])%list))
          as Hlookup.
        { unfold _get_user_by_identifier. rewrite Htruthy. cbn [negb].
          unfold bind at 1. rewrite stream_one, Hemail, Hno_email.
          unfold bind at 1. unfold lift, title_of. unfold bind.
          rewrite stream_one, Hfail. subst by_email by_name.
          now rewrite <- app_assoc. }
        now rewrite (about_anyone_after_lookup _ _ _ _ _ _ Htarget Htruthy Hlookup).
      * intros Hname Hno_name.
        apply (find_none_iff _ _ (field_is_text "name" (title identifier)))
          in Hno_name.
        assert (_get_user_by_identifier (Some db) (VStr identifier) routed
                = (Ok None, (routed ++ [by_email; by_name])%list)) as Hlookup.
        { rewrite (by_identifier_text _ _ _ Hid Hemail Hname).
          rewrite Hno_email, Hno_name. subst by_email by_name.
          now rewrite <- app_assoc. }
        now rewrite (about_anyone_after_lookup _ _ _ _ _ _ Htarget Htruthy Hlookup).
Qed.

(** *** X11 *)

(** X11. Once the target is resolved, a textual [request_details] chooses
    the handler by substring: if one of the words document, certificate, id,
    bank, submission, status, upload occurs anywhere in its lower-cased form
    (inside another word too), the matcher answers for the target record with
    the whole [request_details] as document name; otherwise the formatter
    answers with [request_details] as field name. *)
Theorem X11_details_choose_the_handler
    (target_id : value) (target : dict) (details : string) (tr' : trace) :
  dict_get parameters "target_identifier" = Some target_id ->
  dict_get parameters "request_details" = Some (VStr details) ->
  _get_user_by_identifier (Some db) target_id routed = (Ok (Some target), tr') ->
  ((exists keyword,
       In keyword doc_keywords /\ is_substring keyword (lower details)) ->
   run_tool llm query user_id (Some db)
   = (answer_of (_check_document_status target (VStr details)), tr'))
  /\ ((forall keyword,
          In keyword doc_keywords -> ~ is_substring keyword (lower details)) ->
      run_tool llm query user_id (Some db)
      = (answer_of (_get_personal_data target (VStr details)), tr')).
Proof.
  intros Htarget Hdetails Hfound.
  destruct (by_identifier_found _ _ _ _ _ Hfound) as [Htruthy Hdoc].
  apply (dict_get_default_some _ _ VNone) in Htarget.
  apply (dict_get_default_some _ _ (VStr "all")) in Hdetails.
  assert (run_tool llm query user_id (Some db)
          = (answer_of
               (if existsb (fun keyword => contains keyword (lower details))
                     doc_keywords
                then _check_document_status target (VStr details)
                else _get_personal_data target (VStr details)), tr')) as Hrun.
  { rewrite tool_asks_about_anyone.
    rewrite (about_anyone_after_lookup _ _ _ _ _ _ Htarget Htruthy Hfound).
    rewrite (present_nonempty Hdoc), Hdetails. reflexivity. }
  rewrite Hrun. split.
  - intros Hkw. apply keyword_found in Hkw. now rewrite Hkw.
  - intros Hnone.
    destruct (existsb _ doc_keywords) eqn:E; [|reflexivity].
    apply keyword_found in E. destruct E as (k & Hin & Hk). now elim (Hnone k).
Qed.

End HrRequest.

(** Witness of X10: nobody in the sample collection is called Zed. *)
Lemma X10_witness :
  "zed" <> EmptyString
  /\ fails Fixtures.db (OpQuery "email" (VStr "zed")) = false
  /\ fails Fixtures.db (OpQuery "name" (VStr (title "zed"))) = false
  /\ run_tool
       (Fixtures.always
          (Fixtures.reply "get_information_about_anyone"
             [("target_identifier", VStr "zed"); ("request_details", VStr "salary")]))
       "what does zed earn?" "u3" (Some Fixtures.db)
     = (Ok "I could not find a user matching 'zed'.",
        [EvDocGet "u3";
         EvRoute "what does zed earn?" (VStr "hr") (available_actions_for (VStr "hr"));
         EvQuery "email" (VStr "zed") (Some 1%nat);
         EvQuery "name" (VStr "Zed") (Some 1%nat)]).
Proof.
  split; [discriminate|]. split; [reflexivity|]. split; [reflexivity|].
  exact (proj2 (proj2 (proj2
           (X10_target_missing_or_unknown
              (Fixtures.always
                 (Fixtures.reply "get_information_about_anyone"
                    [("target_identifier", VStr "zed");
                     ("request_details", VStr "salary")]))
              "what does zed earn?" "u3" Fixtures.db Fixtures.hana
              [("action_name", VStr "get_information_about_anyone");
               ("parameters",
                VMap [("target_identifier", VStr "zed");
                      ("request_details", VStr "salary")])]
              [("target_identifier", VStr "zed"); ("request_details", VStr "salary")]
              eq_refl eq_refl eq_refl eq_refl eq_refl eq_refl)
           "zed" eq_refl ltac:(discriminate))
           eq_refl ltac:(repeat constructor; discriminate))
           eq_refl ltac:(repeat constructor; discriminate)).
Defined.

(** Witness of X11: "paid leave" contains "id", so the request goes to the
    matcher. *)
Lemma X11_witness :
  is_substring "id" (lower "paid leave")
  /\ run_tool
       (Fixtures.always
          (Fixtures.reply "get_information_about_anyone"
             [("target_identifier", VStr "robert");
              ("request_details", VStr "paid leave")]))
       "how much paid leave does robert have?" "u3" (Some Fixtures.db)
     = (Ok "There is no information regarding the document 'paid leave' for Robert.",
        [EvDocGet "u3";
         EvRoute "how much paid leave does robert have?" (VStr "hr")
           (available_actions_for (VStr "hr"));
         EvQuery "email" (VStr "robert") (Some 1%nat);
         EvQuery "name" (VStr "Robert") (Some 1%nat)]).
Proof.
  split; [exists "pa", " leave"; reflexivity|].
  apply (proj1 (X11_details_choose_the_handler
                  (Fixtures.always
                     (Fixtures.reply "get_information_about_anyone"
                        [("target_identifier", VStr "robert");
                         ("request_details", VStr "paid leave")]))
                  "how much paid leave does robert have?" "u3"
                  Fixtures.db Fixtures.hana
                  [("action_name", VStr "get_information_about_anyone");
                   ("parameters",
                    VMap [("target_identifier", VStr "robert");
                          ("request_details", VStr "paid leave")])]
                  [("target_identifier", VStr "robert");
                   ("request_details", VStr "paid leave")]
                  eq_refl eq_refl eq_refl eq_refl eq_refl eq_refl
                  (VStr "robert") Fixtures.robert "paid leave"
                  [EvDocGet "u3";
                   EvRoute "how much paid leave does robert have?" (VStr "hr")
                     (available_actions_for (VStr "hr"));
                   EvQuery "email" (VStr "robert") (Some 1%nat);
                   EvQuery "name" (VStr "Robert") (Some 1%nat)]
                  eq_refl eq_refl eq_refl)).
  exists "id". split; [simpl; auto | exists "pa", " leave"; reflexivity].
Defined.

(* ====================================================================== *)
(** ** Further properties: the lookup by identifier *)
(* ====================================================================== *)

Lemma value_eqb_eq : forall a b : value, value_eqb a b = true -> a = b.
Proof.
  fix IH 1. intros a b. destruct a as [| x | x | x | x | x], b as [| y | y | y | y | y];
    simpl; try discriminate; try reflexivity.
  - intros H. apply Bool.eqb_prop in H. now subst.
  - intros H. apply Z.eqb_eq in H. now subst.
  - intros H. apply String.eqb_eq in H. now subst.
  - intros H. f_equal. revert y H.
    induction x as [|u x IHx]; intros [|w y]; try discriminate; [reflexivity|].
    intros H. apply andb_true_iff in H. destruct H as [H1 H2].
    f_equal; [now apply IH | now apply IHx].
  - intros H. f_equal. revert y H.
    induction x as [|[k u] x IHx]; intros [|[k' w] y]; try discriminate; [reflexivity|].
    intros H. apply andb_true_iff in H. destruct H as [H1 H2].
    apply andb_true_iff in H1. destruct H1 as [Hk Hu].
    apply String.eqb_eq in Hk. subst k'.
    f_equal; [f_equal; now apply IH | now apply IHx].
Qed.

Lemma field_is_eq (field : string) (v : value) (d : dict) :
  field_is field v d = true -> dict_get d field = Some v.
Proof.
  unfold field_is. destruct (dict_get d field) as [x|]; [|discriminate].
  intros H. apply value_eqb_eq in H. now subst.
Qed.

(** *** X12 *)

(** X12. Whatever the identifier is, a record returned by
    [_get_user_by_identifier] is a record of the collection, and it is there
    for one of two reasons only: its email is the identifier, or the
    identifier is a text and the record's name is that text title-cased. *)
Theorem X12_lookup_is_sound
    (db_client : option Db) (identifier : value) (found : dict) (tr tr' : trace) :
  _get_user_by_identifier db_client identifier tr = (Ok (Some found), tr') ->
  exists db,
    db_client = Some db
    /\ In found (map snd (users db))
    /\ (dict_get found "email" = Some identifier
        \/ exists text,
            identifier = VStr text
            /\ dict_get found "name" = Some (VStr (title text))).
Proof.
  unfold _get_user_by_identifier.
  destruct (truthy identifier); cbn [negb]; [|discriminate].
  destruct db_client as [db|]; [|discriminate].
  intros H. exists db. split; [reflexivity|]. revert H.
  unfold bind at 1. rewrite stream_one.
  destruct (fails db (OpQuery "email" identifier)); [discriminate|].
  destruct (find (field_is "email" identifier) (map snd (users db))) as [x|] eqn:Hx.
  - intros [= -> _]. apply find_some in Hx. destruct Hx as [Hin Hx].
    split; [exact Hin|]. left. now apply field_is_eq.
  - unfold bind at 1. unfold lift.
    destruct identifier as [| | | text | |]; cbn [title_of]; try discriminate.
    unfold bind. rewrite stream_one.
    destruct (fails db (OpQuery "name" (VStr (title text)))); [discriminate|].
    destruct (find (field_is "name" (VStr (title text))) (map snd (users db)))
      as [y|] eqn:Hy; [|discriminate].
    intros [= -> _]. apply find_some in Hy. destruct Hy as [Hin Hy].
    split; [exact Hin|]. right. exists text. split; [reflexivity|].
    now apply field_is_eq.
Qed.

Lemma X12_witness :
  _get_user_by_identifier (Some Fixtures.db) (VStr "hana") []
  = (Ok (Some Fixtures.hana),
     [EvQuery "email" (VStr "hana") (Some 1%nat);
      EvQuery "name" (VStr "Hana") (Some 1%nat)])
  /\ exists db,
      Some Fixtures.db = Some db
      /\ In Fixtures.hana (map snd (users db))
      /\ (dict_get Fixtures.hana "email" = Some (VStr "hana")
          \/ exists text,
              VStr "hana" = VStr text
              /\ dict_get Fixtures.hana "name" = Some (VStr (title text))).
Proof.
  split; [reflexivity|].
  exact (X12_lookup_is_sound (Some Fixtures.db) (VStr "hana") Fixtures.hana []
           [EvQuery "email" (VStr "hana") (Some 1%nat);
            EvQuery "name" (VStr "Hana") (Some 1%nat)] eq_refl).
Defined.

(* ====================================================================== *)
(** ** Further properties: the summary of the formatter *)
(* ====================================================================== *)

Lemma summary_lines_ext (d1 d2 : dict) (keys : list string) :
  (forall key, In key keys -> dict_get d1 key = dict_get d2 key) ->
  summary_lines d1 keys = summary_lines d2 keys.
Proof.
  induction keys as [|key keys IH]; intros Hsame; [reflexivity|].
  cbn [summary_lines]. unfold summary_line.
  rewrite (Hsame key) by (now left).
  rewrite IH by (intros k Hk; apply Hsame; now right).
  reflexivity.
Qed.

Lemma flag_line_ext (d1 d2 : dict) (map_key label : string) :
  dict_get d1 map_key = dict_get d2 map_key ->
  flag_line d1 map_key label = flag_line d2 map_key label.
Proof. intros H. unfold flag_line. now rewrite H. Qed.

Lemma all_summary_ext (d1 d2 : dict) :
  (forall key, In key summary_keys -> dict_get d1 key = dict_get d2 key) ->
  all_summary d1 (formatter_name d1) = all_summary d2 (formatter_name d2).
Proof.
  intros Hsame. unfold all_summary, formatter_name, dict_get_default.
  rewrite (Hsame "name") by (unfold summary_keys; simpl; auto).
  rewrite (summary_lines_ext d1 d2 ordered_keys)
    by (intros k Hk; apply Hsame; unfold summary_keys; apply in_or_app; now left).
  rewrite (flag_line_ext d1 d2 "uploadedDocuments")
    by (apply Hsame; unfold summary_keys; apply in_or_app; right; simpl; auto).
  rewrite (flag_line_ext d1 d2 "resubmissionRequested")
    by (apply Hsame; unfold summary_keys; apply in_or_app; right; simpl; auto).
  reflexivity.
Qed.

(** Any spelling of "all" selects the summary. *)
Lemma personal_data_summary (user_doc : dict) (field : string) :
  field <> EmptyString ->
  lower field = "all" ->
  _get_personal_data user_doc (VStr field)
  = all_summary user_doc (formatter_name user_doc).
Proof.
  intros Hfield Hall. unfold _get_personal_data.
  rewrite (truthy_text Hfield). cbn [negb lower_of rbind]. now rewrite Hall.
Qed.

(** *** X13 *)

(** X13. The summary returned for the field "all" (in any letter case) reads
    only the nine canonical fields and the two document maps: two records
    that agree on those eleven keys get the same summary, so no other field
    of a record (a join date, an address, ...) can ever appear in it. *)
Theorem X13_summary_reads_only_listed_fields (d1 d2 : dict) (field : string) :
  field <> EmptyString ->
  lower field = "all" ->
  (forall key,
      In key ["name"; "email"; "role"; "position"; "department"; "baseSalary";
              "bonus"; "annualLeaveDays"; "sickLeaveDays";
              "uploadedDocuments"; "resubmissionRequested"] ->
      dict_get d1 key = dict_get d2 key) ->
  _get_personal_data d1 (VStr field) = _get_personal_data d2 (VStr field).
Proof.
  intros Hfield Hall Hsame.
  rewrite !personal_data_summary by assumption.
  apply all_summary_ext. exact Hsame.
Qed.

Lemma X13_witness :
  (forall key,
      In key ["name"; "email"; "role"; "position"; "department"; "baseSalary";
              "bonus"; "annualLeaveDays"; "sickLeaveDays";
              "uploadedDocuments"; "resubmissionRequested"] ->
      dict_get (("joinDate", VStr "2021-03-01") :: Fixtures.bob) key
      = dict_get Fixtures.bob key)
  /\ _get_personal_data (("joinDate", VStr "2021-03-01") :: Fixtures.bob) (VStr "All")
     = _get_personal_data Fixtures.bob (VStr "All").
Proof.
  assert (forall key,
      In key ["name"; "email"; "role"; "position"; "department"; "baseSalary";
              "bonus"; "annualLeaveDays"; "sickLeaveDays";
              "uploadedDocuments"; "resubmissionRequested"] ->
      dict_get (("joinDate", VStr "2021-03-01") :: Fixtures.bob) key
      = dict_get Fixtures.bob key) as Hsame.
  { intros key Hin. simpl in Hin.
    repeat (destruct Hin as [<- | Hin]; [reflexivity|]). contradiction. }
  split; [exact Hsame|].
  exact (X13_summary_reads_only_listed_fields
           (("joinDate", VStr "2021-03-01") :: Fixtures.bob) Fixtures.bob "All"
           ltac:(discriminate) eq_refl Hsame).
Defined.

Lemma dict_get_in (d : dict) (k : string) (v : value) :
  NoDup (map fst d) -> In (k, v) d -> dict_get d k = Some v.
Proof.
  induction d as [|[k' v'] d IH]; intros Hnd Hin; [contradiction|].
  simpl in Hnd. inversion Hnd as [|? ? Hnotin Hnd']; subst.
  simpl. destruct Hin as [[= -> ->] | Hin].
  - now rewrite String.eqb_refl.
  - destruct (String.eqb_spec k' k) as [->|_]; [|now apply IH].
    exfalso. apply Hnotin. change k with (fst (k, v)). now apply in_map.
Qed.

Lemma dict_get_some_in (d : dict) (k : string) (v : value) :
  dict_get d k = Some v -> In (k, v) d.
Proof.
  induction d as [|[k' v'] d IH]; [discriminate|].
  simpl. destruct (String.eqb_spec k' k) as [->|_].
  - intros [= ->]. now left.
  - intros H. right. now apply IH.
Qed.

(** With distinct keys, a lookup does not depend on the order of the items. *)
Lemma dict_get_permutation (d1 d2 : dict) (k : string) :
  NoDup (map fst d1) -> Permutation d1 d2 -> dict_get d1 k = dict_get d2 k.
Proof.
  intros Hnd Hperm.
  assert (NoDup (map fst d2)) as Hnd2
    by (eapply Permutation_NoDup; [apply Permutation_map; exact Hperm | exact Hnd]).
  destruct (dict_get d1 k) as [v|] eqn:H1.
  - symmetry. apply dict_get_in; [exact Hnd2|].
    eapply Permutation_in; [exact Hperm | now apply dict_get_some_in].
  - destruct (dict_get d2 k) as [w|] eqn:H2; [|reflexivity].
    apply dict_get_some_in in H2.
    apply (Permutation_in _ (Permutation_sym Hperm)) in H2.
    apply (dict_get_in _ _ _ Hnd) in H2. congruence.
Qed.

(** *** X14 *)

(** X14. The summary does not depend on the order in which the record stores
    its fields: two records with distinct keys that hold the same items in a
    different order get the same summary, line for line. *)
Theorem X14_summary_ignores_field_order (d1 d2 : dict) (field : string) :
  NoDup (map fst d1) ->
  Permutation d1 d2 ->
  field <> EmptyString ->
  lower field = "all" ->
  _get_personal_data d1 (VStr field) = _get_personal_data d2 (VStr field).
Proof.
  intros Hnd Hperm Hfield Hall.
  rewrite !personal_data_summary by assumption.
  apply all_summary_ext. intros key _. now apply dict_get_permutation.
Qed.

Lemma X14_witness :
  NoDup (map fst [("name", VStr "Mona"); ("bonus", VInt 50); ("email", VStr "mona@co.com")])
  /\ Permutation
       [("name", VStr "Mona"); ("bonus", VInt 50); ("email", VStr "mona@co.com")]
       [("bonus", VInt 50); ("email", VStr "mona@co.com"); ("name", VStr "Mona")]
  /\ _get_personal_data
       [("name", VStr "Mona"); ("bonus", VInt 50); ("email", VStr "mona@co.com")]
       (VStr "all")
     = _get_personal_data
         [("bonus", VInt 50); ("email", VStr "mona@co.com"); ("name", VStr "Mona")]
         (VStr "all").
Proof.
  assert (NoDup (map fst [("name", VStr "Mona"); ("bonus", VInt 50);
                          ("email", VStr "mona@co.com")])) as Hnd.
  { simpl. repeat constructor; simpl; intuition discriminate. }
  assert (Permutation
       [("name", VStr "Mona"); ("bonus", VInt 50); ("email", VStr "mona@co.com")]
       [("bonus", VInt 50); ("email", VStr "mona@co.com"); ("name", VStr "Mona")])
    as Hperm.
  { apply (Permutation_cons_append [("bonus", VInt 50); ("email", VStr "mona@co.com")]
             ("name", VStr "Mona")). }
  split; [exact Hnd|]. split; [exact Hperm|].
  exact (X14_summary_ignores_field_order _ _ "all" Hnd Hperm
           ltac:(discriminate) eq_refl).
Defined.

(* ====================================================================== *)
(** ** Further properties: well-typed records *)
(* ====================================================================== *)

Lemma first_key_in (t : string) (keys : list string) (k : string) :
  first_key t keys = Some k -> In k keys.
Proof.
  induction keys as [|x keys IH]; [discriminate|].
  simpl. destruct (contains t (clean x)).
  - intros [= ->]. now left.
  - intros H. right. now apply IH.
Qed.

(** On a record whose document map is a dict, falsy or absent, a walrus
    chain never raises, and a key it yields is a key of the map whose flag is
    truthy. *)
Lemma flagged_key_ok (user_doc : dict) (map_key requested : string) :
  doc_map_ok user_doc map_key ->
  flagged_key user_doc map_key (VStr requested) = Ok None
  \/ exists m key,
      dict_get user_doc map_key = Some (VMap m)
      /\ In key (map fst m)
      /\ truthy (dict_get_default m key VNone) = true
      /\ flagged_key user_doc map_key (VStr requested) = Ok (Some key).
Proof.
  intros Hok.
  destruct (dict_get user_doc map_key) as [v|] eqn:Hv.
  2: { left. now apply flagged_key_absent. }
  destruct (Hok v Hv) as [Hfalsy | [m ->]].
  { left. unfold flagged_key. now rewrite Hv, Hfalsy. }
  rewrite (flagged_key_dict _ _ _ _ Hv).
  destruct (first_key (clean requested) (map fst m)) as [key|] eqn:Hkey; [|now left].
  destruct (negb (String.eqb key EmptyString)); cbn [andb]; [|now left].
  destruct (truthy (dict_get_default m key VNone)) eqn:Hflag; [|now left].
  right. exists m, key. repeat split; auto. now apply first_key_in in Hkey.
Qed.

(** *** X15 *)

(** X15. On a record whose two document maps are dicts (or falsy, or
    absent), [_check_document_status] never raises for a textual document
    name, and its answer is one of three: the resubmission message for a key
    of the resubmission map whose flag is truthy, the submitted message for a
    key of the submitted-documents map whose flag is truthy, or the
    no-information message quoting the name as requested.  The key in the
    message is always a stored key in its stored spelling. *)
Theorem X15_matcher_on_well_typed_record (user_doc : dict) (requested : string) :
  doc_map_ok user_doc "resubmissionRequested" ->
  doc_map_ok user_doc "uploadedDocuments" ->
  requested <> EmptyString ->
  let name := matcher_name user_doc in
  let answer := _check_document_status user_doc (VStr requested) in
  (exists m key,
      dict_get user_doc "resubmissionRequested" = Some (VMap m)
      /\ In key (map fst m)
      /\ truthy (dict_get_default m key VNone) = true
      /\ answer = Ok (msg_resubmit name key))
  \/ (exists m key,
      dict_get user_doc "uploadedDocuments" = Some (VMap m)
      /\ In key (map fst m)
      /\ truthy (dict_get_default m key VNone) = true
      /\ answer = Ok (msg_submitted name key))
  \/ answer = Ok (msg_no_document name (VStr requested)).
Proof.
  intros Hresub Hup Hreq name answer. subst name answer.
  destruct (flagged_key_ok user_doc "resubmissionRequested" requested Hresub)
    as [Hnone | (m & key & Hm & Hin & Hflag & Hsome)].
  - rewrite (check_document_fall_through _ _ Hreq Hnone).
    destruct (flagged_key_ok user_doc "uploadedDocuments" requested Hup)
      as [Hnone' | (m & key & Hm & Hin & Hflag & Hsome)].
    + right. right. now rewrite Hnone'.
    + right. left. exists m, key. rewrite Hsome. auto.
  - left. exists m, key.
    rewrite (check_document_resubmit_first _ _ _ Hreq Hsome). auto.
Qed.

Lemma X15_witness :
  doc_map_ok Fixtures.robert "resubmissionRequested"
  /\ doc_map_ok Fixtures.robert "uploadedDocuments"
  /\ "bank" <> EmptyString
  /\ ((exists m key,
         dict_get Fixtures.robert "resubmissionRequested" = Some (VMap m)
         /\ In key (map fst m)
         /\ truthy (dict_get_default m key VNone) = true
         /\ _check_document_status Fixtures.robert (VStr "bank")
            = Ok (msg_resubmit (matcher_name Fixtures.robert) key))
      \/ (exists m key,
         dict_get Fixtures.robert "uploadedDocuments" = Some (VMap m)
         /\ In key (map fst m)
         /\ truthy (dict_get_default m key VNone) = true
         /\ _check_document_status Fixtures.robert (VStr "bank")
            = Ok (msg_submitted (matcher_name Fixtures.robert) key))
      \/ _check_document_status Fixtures.robert (VStr "bank")
         = Ok (msg_no_document (matcher_name Fixtures.robert) (VStr "bank"))).
Proof.
  assert (doc_map_ok Fixtures.robert "resubmissionRequested") as H1
    by (intros v [= <-]; right; eexists; reflexivity).
  assert (doc_map_ok Fixtures.robert "uploadedDocuments") as H2
    by (intros v [= <-]; right; eexists; reflexivity).
  split; [exact H1|]. split; [exact H2|]. split; [discriminate|].
  exact (X15_matcher_on_well_typed_record Fixtures.robert "bank" H1 H2
           ltac:(discriminate)).
Defined.

(** Below [2 ^ 1000] the conversion to a double does not overflow. *)
Lemma to_double_some (a : Z) :
  (0 <= a < 2 ^ 1000)%Z -> exists f, to_double a = Some f.
Proof.
  intros [Hlo Hhi]. unfold to_double.
  destruct (a =? 0)%Z eqn:Hzero; [cbn; eauto|].
  apply Z.eqb_neq in Hzero. assert (0 < a)%Z as Hpos by lia.
  destruct (Z.log2 a + 1 <=? 53)%Z eqn:Hbits; [eauto|].
  apply Z.leb_gt in Hbits.
  assert (Z.log2 a < 1000)%Z as Hlog by (apply Z.log2_lt_pow2; lia).
  destruct (Z.log2_spec a Hpos) as [_ Hup].
  set (k := (Z.log2 a + 1 - 53)%Z) in *.
  assert (0 < k)%Z as Hk by (subst k; lia).
  assert (2 ^ Z.succ (Z.log2 a) = 2 ^ 53 * 2 ^ k)%Z as Hsplit
    by (rewrite <- Z.pow_add_r by lia; f_equal; subst k; lia).
  assert (0 < 2 ^ k)%Z as Hpk by (apply Z.pow_pos_nonneg; lia).
  assert (Z.shiftr a k < 2 ^ 53)%Z as Hq.
  { rewrite Z.shiftr_div_pow2 by lia.
    apply Z.div_lt_upper_bound; [exact Hpk|]. rewrite Z.mul_comm. lia. }
  set (q := Z.shiftr a k) in *.
  set (q' := if ((Z.shiftl 1 (k - 1) <? Z.land a (Z.ones k))%Z
                 || ((Z.land a (Z.ones k) =? Z.shiftl 1 (k - 1))%Z && Z.odd q))%bool
             then (q + 1)%Z else q).
  assert (q' <= 2 ^ 53)%Z as Hq'
    by (subst q'; destruct (_ || _)%bool; lia).
  assert (Z.shiftl q' k < Z.shiftl 1 1024)%Z as Hf.
  { rewrite !Z.shiftl_mul_pow2 by lia.
    assert (2 ^ 53 * 2 ^ k <= 2 ^ 1000)%Z as Hbound.
    { rewrite <- Hsplit. apply Z.pow_le_mono_r; lia. }
    assert (2 ^ 1000 < 2 ^ 1024)%Z as Hbig by (apply Z.pow_lt_mono_r; lia).
    assert (q' * 2 ^ k <= 2 ^ 53 * 2 ^ k)%Z
      by (apply Z.mul_le_mono_nonneg_r; lia).
    lia. }
  apply Z.ltb_lt in Hf. rewrite Hf. eauto.
Qed.

Lemma format_2f_ok (v : value) (z : Z) :
  as_int v = Some z -> (Z.abs z < 2 ^ 1000)%Z -> exists text, format_2f v = Ok text.
Proof.
  intros Hint Hsize.
  assert (exists text, format_int_2f z = Ok text) as Hfmt.
  { unfold format_int_2f.
    destruct (to_double_some (Z.abs z)) as [f ->]; [lia | eauto]. }
  destruct v; try discriminate; simpl in Hint; injection Hint as <-; exact Hfmt.
Qed.

Lemma amount_below (user_doc : dict) (key : string) (v : value) :
  amount_ok user_doc key ->
  dict_get user_doc key = Some v ->
  exists text, format_2f v = Ok text.
Proof.
  intros Hok Hv. destruct (Hok v Hv) as (z & Hz & Hsize).
  apply (format_2f_ok _ _ Hz).
  assert (2 ^ 999 < 2 ^ 1000)%Z by (apply Z.pow_lt_mono_r; lia). lia.
Qed.

Lemma summary_lines_ok (user_doc : dict) (keys : list string) :
  amount_ok user_doc "baseSalary" ->
  amount_ok user_doc "bonus" ->
  exists lines, summary_lines user_doc keys = Ok lines.
Proof.
  intros Hbase Hbonus. induction keys as [|key keys [rest IH]]; [cbn; eauto|].
  cbn [summary_lines]. rewrite IH.
  assert (exists l, summary_line user_doc key = Ok l) as [l ->].
  { unfold summary_line.
    destruct (dict_get user_doc key) as [v|] eqn:Hv; [|eauto].
    destruct (String.eqb_spec key "baseSalary") as [->|_].
    { destruct (amount_below _ _ _ Hbase Hv) as [text ->]. cbn. eauto. }
    destruct (String.eqb_spec key "bonus") as [->|_]; [|eauto].
    destruct (amount_below _ _ _ Hbonus Hv) as [text ->]. cbn. eauto. }
  cbn. eauto.
Qed.

Lemma flag_line_ok (user_doc : dict) (map_key label : string) :
  doc_map_ok user_doc map_key ->
  exists lines, flag_line user_doc map_key label = Ok lines.
Proof.
  intros Hok. unfold flag_line.
  destruct (dict_get user_doc map_key) as [v|] eqn:Hv; [|eauto].
  destruct (Hok v Hv) as [-> | [m ->]]; [eauto|].
  destruct (truthy (VMap m)); [|eauto]. cbn [items rbind].
  destruct (String.eqb _ EmptyString); eauto.
Qed.

Lemma salary_report_ok (user_doc : dict) :
  name_ok user_doc ->
  amount_ok user_doc "baseSalary" ->
  amount_ok user_doc "bonus" ->
  exists text, salary_report user_doc (formatter_name user_doc) = Ok text.
Proof.
  intros Hname Hbase Hbonus. unfold salary_report, dict_mem.
  destruct (dict_get user_doc "baseSalary") as [base|] eqn:Hb; [|eauto].
  assert (exists who, formatter_name user_doc = VStr who) as [who ->].
  { unfold formatter_name, dict_get_default.
    destruct (dict_get user_doc "name") as [v|] eqn:Hv; [|eauto].
    destruct (Hname v Hv) as [s ->]. eauto. }
  destruct (Hbase base Hb) as (x & Hx & Hxs).
  assert (exists y, as_int (dict_get_default user_doc "bonus" (VInt 0)) = Some y
                    /\ (Z.abs y < 2 ^ 999)%Z) as (y & Hy & Hys).
  { unfold dict_get_default.
    destruct (dict_get user_doc "bonus") as [v|] eqn:Hv; [exact (Hbonus v Hv)|].
    exists 0%Z. split; [reflexivity|]. apply Z.pow_pos_nonneg; lia. }
  unfold dict_get_default at 1. rewrite Hb.
  cbn [capitalize_of rbind]. unfold add. rewrite Hx, Hy. cbn [rbind].
  destruct (format_2f_ok (VInt (x + y)) (x + y)%Z eq_refl) as [text ->];
    [|cbn; eauto].
  assert (2 ^ 1000 = 2 * 2 ^ 999)%Z as -> by (change 1000%Z with (Z.succ 999); apply Z.pow_succ_r; lia).
  lia.
Qed.

(** *** X16 *)

(** X16. On a record whose name is a text (or absent), whose base salary and
    bonus are integers below [2 ^ 999] in magnitude (or absent) and whose two
    document maps are dicts (or falsy, or absent), [_get_personal_data]
    returns a text for every field name that is a text, null or empty: the
    prompt, the summary, a stored value, the total compensation or the
    not-found report, and never an exception. *)
Theorem X16_formatter_on_well_typed_record (user_doc : dict) (field : value) :
  name_ok user_doc ->
  amount_ok user_doc "baseSalary" ->
  amount_ok user_doc "bonus" ->
  doc_map_ok user_doc "uploadedDocuments" ->
  doc_map_ok user_doc "resubmissionRequested" ->
  truthy field = false \/ (exists s, field = VStr s) ->
  exists text, _get_personal_data user_doc field = Ok text.
Proof.
  intros Hname Hbase Hbonus Hup Hresub Hfield.
  unfold _get_personal_data.
  destruct (truthy field) eqn:Htruthy; cbn [negb]; [|eauto].
  destruct Hfield as [Hfalsy | [s ->]]; [discriminate|].
  cbn [lower_of rbind].
  destruct (String.eqb (lower s) "all").
  - unfold all_summary.
    destruct (summary_lines_ok user_doc ordered_keys Hbase Hbonus) as [fields ->].
    destruct (flag_line_ok user_doc "uploadedDocuments"
                "- Documents Submitted: " Hup) as [submitted ->].
    destruct (flag_line_ok user_doc "resubmissionRequested"
                "- Resubmission Required For: " Hresub) as [resubmit ->].
    cbn [rbind]. eauto.
  - destruct (direct_match user_doc (lower s)) as [[doc_key doc_value]|]; [eauto|].
    destruct (String.eqb (lower s) "salary"); [|eauto].
    now apply salary_report_ok.
Qed.

Lemma X16_witness :
  name_ok Fixtures.bob
  /\ amount_ok Fixtures.bob "baseSalary"
  /\ amount_ok Fixtures.bob "bonus"
  /\ doc_map_ok Fixtures.bob "uploadedDocuments"
  /\ doc_map_ok Fixtures.bob "resubmissionRequested"
  /\ exists text, _get_personal_data Fixtures.bob (VStr "salary") = Ok text.
Proof.
  assert (2 ^ 13 <= 2 ^ 999)%Z as Hpow by (apply Z.pow_le_mono_r; lia).
  assert (name_ok Fixtures.bob) as H1 by (intros v [= <-]; eexists; reflexivity).
  assert (amount_ok Fixtures.bob "baseSalary") as H2
    by (intros v [= <-]; exists 5000%Z; split; [reflexivity | simpl; lia]).
  assert (amount_ok Fixtures.bob "bonus") as H3
    by (intros v [= <-]; exists 250%Z; split; [reflexivity | simpl; lia]).
  assert (doc_map_ok Fixtures.bob "uploadedDocuments") as H4 by (intros v [=]).
  assert (doc_map_ok Fixtures.bob "resubmissionRequested") as H5 by (intros v [=]).
  repeat (split; [assumption|]).
  exact (X16_formatter_on_well_typed_record Fixtures.bob (VStr "salary")
           H1 H2 H3 H4 H5 (or_intror (ex_intro _ "salary" eq_refl))).
Defined.

(* ====================================================================== *)
(** ** Further properties: edge cases *)
(* ====================================================================== *)

(** *** X17 *)

(** X17. Without a client the tool returns the cannot-connect text and makes
    no call at all.  A caller record that exists but holds no field is
    treated like a missing profile: the tool returns the no-profile text
    after the load, without building a menu or calling the router. *)
Theorem X17_no_client_or_empty_record (llm : router) (query user_id : string) :
  run_tool llm query user_id None = (Ok msg_no_database, [])
  /\ forall db,
      fails db (OpDocGet user_id) = false ->
      doc_lookup (users db) user_id = Some [] ->
      run_tool llm query user_id (Some db) = (Ok msg_no_profile, [EvDocGet user_id]).
Proof.
  split; [reflexivity|].
  intros db Hup Hempty.
  unfold run_tool, get_user_specific_data_tool. unfold bind at 1.
  rewrite load_trace, Hup, Hempty. reflexivity.
Qed.

Lemma contains_empty (s : string) : contains EmptyString s = true.
Proof. destruct s; reflexivity. Qed.

(** *** X18 *)

(** X18. A document name made of spaces only is not empty, so it is not
    answered with the prompt; its normal form is empty and is a substring of
    every key, so it matches the first key of the map: when the first key of
    the resubmission map is flagged, that document is reported as needing
    resubmission. *)
Theorem X18_blank_request_matches_first_key
    (user_doc rest : dict) (requested key : string) (flag : value) :
  requested <> EmptyString ->
  normalized requested = EmptyString ->
  dict_get user_doc "resubmissionRequested" = Some (VMap ((key, flag) :: rest)) ->
  key <> EmptyString ->
  truthy flag = true ->
  _check_document_status user_doc (VStr requested)
  = Ok ("Action required for " ++ str (matcher_name user_doc)
          ++ ": They need to resubmit their '" ++ key ++ "'.").
Proof.
  intros Hreq Hblank Hmap Hkey Hflag.
  apply check_document_resubmit_first; [exact Hreq|].
  rewrite (flagged_key_dict _ _ _ _ Hmap).
  rewrite clean_normalized, Hblank. cbn [map fst first_key].
  rewrite contains_empty.
  unfold dict_get_default. cbn [dict_get]. rewrite String.eqb_refl, Hflag.
  destruct (String.eqb_spec key EmptyString); [contradiction | reflexivity].
Qed.

Lemma X18_witness :
  "  " <> EmptyString
  /\ normalized "  " = EmptyString
  /\ _check_document_status Fixtures.id_card_maps (VStr "  ")
     = Ok "Action required for the user: They need to resubmit their 'ID Card'.".
Proof.
  split; [discriminate|]. split; [reflexivity|].
  exact (X18_blank_request_matches_first_key Fixtures.id_card_maps [] "  "
           "ID Card" (VBool true)
           ltac:(discriminate) eq_refl eq_refl ltac:(discriminate) eq_refl).
Defined.

(* ====================================================================== *)
(** ** Further properties: the line splitter of the ingestion script *)
(* ====================================================================== *)

Module IngestionChecks.
Import Ingestion.

Example split_lines :
  split PyStr.nl ("a" ++ PyStr.nl ++ PyStr.nl ++ "b" ++ PyStr.nl)
  = Ok ["a"; EmptyString; "b"; EmptyString].
Proof. reflexivity. Qed.

Example split_multi : split "ab" "xabab" = Ok ["x"; EmptyString; EmptyString].
Proof. reflexivity. Qed.

Example split_overlap : split "aa" "aaa" = Ok [EmptyString; "a"].
Proof. reflexivity. Qed.

Example strip_both : strip ("  a b " ++ PyStr.nl) = "a b".
Proof. reflexivity. Qed.

Example splitter_small :
  process_simpler_splitter
    ["first line" ++ PyStr.nl ++ " x " ++ PyStr.nl ++ "second"; "page"] [] 11 PyStr.nl
  = Ok [{| page_content := "first line"; metadata := [] |};
        {| page_content := "second page"; metadata := [] |};
        {| page_content := EmptyString; metadata := [] |}].
Proof. vm_compute. reflexivity. Qed.

End IngestionChecks.

Module IngestionFacts.
Import Ingestion.

Lemma chunk_loop_raw (chunk_size : Z) (tag : string) (lines : list string) (cur : string) :
  chunk_loop chunk_size tag lines cur
  = map chunk_of (raw_chunks chunk_size tag lines cur).
Proof.
  revert cur. induction lines as [|line rest IH]; intros cur.
  - cbn [chunk_loop raw_chunks map].
    destruct (Z.leb_spec 0 (Z.of_nat (String.length cur))); [reflexivity | lia].
  - cbn [chunk_loop raw_chunks].
    destruct (chunk_size <=? _)%Z; cbn [map]; now rewrite IH.
Qed.

Lemma splitter_runs (texts : list string) (metadatas : list dict)
    (chunk_size : Z) (tag : string) :
  tag <> EmptyString ->
  process_simpler_splitter texts metadatas chunk_size tag
  = Ok (map chunk_of (raw_chunks chunk_size tag (lines_of texts tag) EmptyString)).
Proof.
  intros Htag. unfold process_simpler_splitter, split, lines_of.
  destruct tag; [contradiction|]. cbn [rbind]. now rewrite chunk_loop_raw.
Qed.

(** The loop always ends by appending what is left, even when nothing is. *)
Lemma raw_chunks_last (chunk_size : Z) (tag : string) (lines : list string) (cur : string) :
  exists init last,
    raw_chunks chunk_size tag lines cur = (init ++ [last])%list
    /\ (List.length init <= List.length lines)%nat
    /\ (lines = [] -> init = [] /\ last = cur).
Proof.
  revert cur. induction lines as [|line rest IH]; intros cur.
  - exists [], cur. cbn. auto.
  - cbn [raw_chunks]. destruct (chunk_size <=? _)%Z.
    + destruct (IH EmptyString) as (init & last & -> & Hlen & _).
      exists ((cur ++ (line ++ tag)) :: init), last.
      repeat split; [simpl; lia | discriminate | discriminate].
    + destruct (IH (cur ++ (line ++ tag))) as (init & last & -> & Hlen & _).
      exists init, last. repeat split; [simpl; lia | discriminate | discriminate].
Qed.

End IngestionFacts.

(** *** X19 *)

(** X19. [process_simpler_splitter] raises [ValueError] for an empty
    separator.  For any other separator it returns at least one chunk: the
    chunks closed inside the loop, at most one per kept line, followed by a
    last chunk that is always appended; when no line is kept (empty input, or
    only pieces of at most one character once stripped) the result is that
    single last chunk, with empty content.  Every chunk carries empty
    metadata and the [metadatas] argument is never read. *)
Theorem X19_splitter_always_ends_with_a_chunk
    (texts : list string) (metadatas : list dict) (chunk_size : Z) (tag : string) :
  (tag = EmptyString ->
   Ingestion.process_simpler_splitter texts metadatas chunk_size tag = Raise ValueError)
  /\ (tag <> EmptyString ->
      exists closed last,
        Ingestion.process_simpler_splitter texts metadatas chunk_size tag
        = Ok (closed ++ [last])%list
        /\ (List.length closed <= List.length (Ingestion.lines_of texts tag))%nat
        /\ (Ingestion.lines_of texts tag = [] ->
            closed = [] /\ Ingestion.page_content last = EmptyString)
        /\ Forall (fun chunk => Ingestion.metadata chunk = []) (closed ++ [last])%list
        /\ Ingestion.process_simpler_splitter texts metadatas chunk_size tag
           = Ingestion.process_simpler_splitter texts [] chunk_size tag).
Proof.
  split; [intros ->; reflexivity|].
  intros Htag.
  destruct (IngestionFacts.raw_chunks_last chunk_size tag
              (Ingestion.lines_of texts tag) EmptyString)
    as (init & last & Hraw & Hlen & Hnone).
  exists (map Ingestion.chunk_of init), (Ingestion.chunk_of last).
  assert (Ingestion.process_simpler_splitter texts metadatas chunk_size tag
          = Ok (map Ingestion.chunk_of init ++ [Ingestion.chunk_of last])%list)
    as Hrun.
  { rewrite IngestionFacts.splitter_runs by exact Htag.
    rewrite Hraw, map_app. reflexivity. }
  split; [exact Hrun|]. split; [now rewrite length_map|]. split.
  - intros Hlines. destruct (Hnone Hlines) as [-> ->]. split; reflexivity.
  - split; [|reflexivity].
    apply Forall_app. split.
    + apply Forall_forall. intros chunk Hin. apply in_map_iff in Hin.
      destruct Hin as (raw & <- & _). reflexivity.
    + constructor; [reflexivity | constructor].
Qed.

Module IngestionFacts2.
Import Ingestion.

Lemma append_length (a b : string) :
  String.length (a ++ b) = (String.length a + String.length b)%nat.
Proof. induction a as [|c a IH]; simpl; [reflexivity | now rewrite IH]. Qed.

(** A kept line is a stripped piece of at least two characters. *)
Lemma kept_lines_long (pieces : list string) :
  Forall (fun line => (2 <= String.length line)%nat) (kept pieces).
Proof.
  apply Forall_forall. intros line Hin. unfold kept in Hin.
  apply in_map_iff in Hin. destruct Hin as (doc & <- & Hdoc).
  apply filter_In in Hdoc. destruct Hdoc as [_ Hlen].
  apply Nat.ltb_lt in Hlen. lia.
Qed.

Lemma raw_chunks_one_per_line (chunk_size : Z) (tag : string) (lines : list string) :
  tag <> EmptyString ->
  (chunk_size <= 3)%Z ->
  Forall (fun line => (2 <= String.length line)%nat) lines ->
  raw_chunks chunk_size tag lines EmptyString
  = (map (fun line => (line ++ tag)%string) lines ++ [EmptyString])%list.
Proof.
  intros Htag Hsize Hlong. induction Hlong as [|line rest Hline _ IH]; [reflexivity|].
  cbn [raw_chunks map]. change (EmptyString ++ (line ++ tag)) with (line ++ tag).
  assert (1 <= String.length tag)%nat by (destruct tag; [contradiction | simpl; lia]).
  destruct (Z.leb_spec chunk_size (Z.of_nat (String.length (line ++ tag)))) as [_|Hlt].
  - now rewrite IH.
  - rewrite append_length in Hlt. lia.
Qed.

Lemma raw_chunks_cover (chunk_size : Z) (tag : string) (lines : list string) (cur : string) :
  cur = EmptyString \/ (Z.of_nat (String.length cur) < chunk_size)%Z ->
  exists closed last,
    raw_chunks chunk_size tag lines cur = (closed ++ [last])%list
    /\ glue (closed ++ [last]) = cur ++ glue (map (fun line => line ++ tag) lines)
    /\ Forall (fun raw => (chunk_size <= Z.of_nat (String.length raw))%Z) closed
    /\ (last = EmptyString \/ (Z.of_nat (String.length last) < chunk_size)%Z).
Proof.
  revert cur. induction lines as [|line rest IH]; intros cur Hcur.
  - exists [], cur. cbn. auto.
  - cbn [raw_chunks map].
    destruct (Z.leb_spec chunk_size (Z.of_nat (String.length (cur ++ (line ++ tag)))))
      as [Hge | Hlt].
    + destruct (IH EmptyString (or_introl eq_refl))
        as (closed & last & -> & Hglue & Hall & Hlast).
      exists ((cur ++ (line ++ tag)) :: closed), last.
      split; [reflexivity|]. split; [|split; [constructor; assumption | exact Hlast]].
      change (glue (((cur ++ (line ++ tag))%string :: closed) ++ [last])%list)
        with ((cur ++ (line ++ tag)) ++ glue (closed ++ [last])%list).
      rewrite Hglue. cbn [glue fold_right append]. now rewrite append_assoc.
    + destruct (IH (cur ++ (line ++ tag)) (or_intror Hlt))
        as (closed & last & -> & Hglue & Hall & Hlast).
      exists closed, last.
      split; [reflexivity|]. split; [|split; assumption].
      rewrite Hglue. cbn [glue fold_right]. now rewrite append_assoc.
Qed.

Lemma rstrip_idempotent (s : string) : rstrip (rstrip s) = rstrip s.
Proof.
  induction s as [|c s IH]; [reflexivity|].
  cbn [rstrip]. destruct (rstrip s) as [|d r] eqn:Hr.
  - destruct (is_space c) eqn:Hc; [reflexivity|]. cbn [rstrip]. now rewrite Hc.
  - cbn [rstrip]. cbn [rstrip] in IH.
    destruct (rstrip r) as [|e r'] eqn:Hr'.
    + destruct (is_space d) eqn:Hd; [discriminate|].
      injection IH as ->. reflexivity.
    + now rewrite IH.
Qed.

Lemma lstrip_head (s : string) :
  lstrip s = EmptyString
  \/ exists c r, lstrip s = String c r /\ is_space c = false.
Proof.
  induction s as [|c s IH]; [now left|].
  cbn [lstrip]. destruct (is_space c) eqn:Hc; [exact IH|].
  right. exists c, s. auto.
Qed.

Lemma strip_idempotent (s : string) : strip (strip s) = strip s.
Proof.
  unfold strip.
  destruct (lstrip_head s) as [-> | (c & r & -> & Hc)]; [reflexivity|].
  assert (exists r', rstrip (String c r) = String c r') as [r' Hr'].
  { cbn [rstrip]. destruct (rstrip r); [rewrite Hc|]; eauto. }
  replace (lstrip (rstrip (String c r))) with (rstrip (String c r))
    by (rewrite Hr'; cbn [lstrip]; now rewrite Hc).
  apply rstrip_idempotent.
Qed.

End IngestionFacts2.

(** *** X20 *)

(** X20. With a threshold of at most 3, every kept line closes a chunk of
    its own (a kept line has at least two characters and the separator at
    least one), and the last chunk, appended after the loop, is empty: the
    chunks are the kept lines, each followed by the separator and stripped,
    then one empty chunk. *)
Theorem X20_small_threshold_gives_one_chunk_per_line
    (texts : list string) (metadatas : list dict) (chunk_size : Z) (tag : string) :
  tag <> EmptyString ->
  (chunk_size <= 3)%Z ->
  Ingestion.process_simpler_splitter texts metadatas chunk_size tag
  = Ok (map (fun line => {| Ingestion.page_content :=
                              Ingestion.strip (line ++ tag)%string;
                            Ingestion.metadata := [] |})
          (Ingestion.lines_of texts tag)
        ++ [{| Ingestion.page_content := EmptyString; Ingestion.metadata := [] |}])%list.
Proof.
  intros Htag Hsize.
  rewrite IngestionFacts.splitter_runs by exact Htag.
  rewrite IngestionFacts2.raw_chunks_one_per_line;
    [| exact Htag | exact Hsize | apply IngestionFacts2.kept_lines_long].
  rewrite map_app, map_map. reflexivity.
Qed.

Lemma X20_witness :
  " " <> EmptyString
  /\ (-5 <= 3)%Z
  /\ Ingestion.process_simpler_splitter ["ab"; "cd"] [] (-5) " "
     = Ok [{| Ingestion.page_content := "ab"; Ingestion.metadata := [] |};
           {| Ingestion.page_content := "cd"; Ingestion.metadata := [] |};
           {| Ingestion.page_content := EmptyString; Ingestion.metadata := [] |}].
Proof.
  split; [discriminate|]. split; [lia|].
  exact (X20_small_threshold_gives_one_chunk_per_line ["ab"; "cd"] [] (-5) " "
           ltac:(discriminate) ltac:(lia)).
Defined.

(** *** X21 *)

(** X21. The chunks are the stripped forms of consecutive runs of kept
    lines, each line followed by the separator: put end to end, the runs are
    exactly the kept lines with their separators, in order, so no kept line
    is lost, repeated or reordered.  Every run but the last had reached the
    threshold when it was closed; the last run is empty or below the
    threshold. *)
Theorem X21_chunks_cover_the_kept_lines
    (texts : list string) (metadatas : list dict) (chunk_size : Z) (tag : string) :
  tag <> EmptyString ->
  exists closed last,
    Ingestion.process_simpler_splitter texts metadatas chunk_size tag
    = Ok (map (fun run => {| Ingestion.page_content := Ingestion.strip run;
                             Ingestion.metadata := [] |})
            (closed ++ [last]))
    /\ Ingestion.glue (closed ++ [last])
       = Ingestion.glue (map (fun line => line ++ tag) (Ingestion.lines_of texts tag))
    /\ Forall (fun run => (chunk_size <= Z.of_nat (String.length run))%Z) closed
    /\ (last = EmptyString \/ (Z.of_nat (String.length last) < chunk_size)%Z).
Proof.
  intros Htag.
  destruct (IngestionFacts2.raw_chunks_cover chunk_size tag
              (Ingestion.lines_of texts tag) EmptyString (or_introl eq_refl))
    as (closed & last & Hraw & Hglue & Hall & Hlast).
  exists closed, last.
  rewrite IngestionFacts.splitter_runs by exact Htag.
  rewrite Hraw. repeat split; assumption.
Qed.

Lemma X21_witness :
  PyStr.nl <> EmptyString
  /\ exists closed last,
      Ingestion.process_simpler_splitter
        ["first line" ++ PyStr.nl ++ " x " ++ PyStr.nl ++ "second"; "page"]
        [] 11 PyStr.nl
      = Ok (map (fun run => {| Ingestion.page_content := Ingestion.strip run;
                               Ingestion.metadata := [] |})
              (closed ++ [last]))
      /\ Ingestion.glue (closed ++ [last])
         = Ingestion.glue
             (map (fun line => line ++ PyStr.nl)
                (Ingestion.lines_of
                   ["first line" ++ PyStr.nl ++ " x " ++ PyStr.nl ++ "second"; "page"]
                   PyStr.nl))
      /\ Forall (fun run => (11 <= Z.of_nat (String.length run))%Z) closed
      /\ (last = EmptyString \/ (Z.of_nat (String.length last) < 11)%Z).
Proof.
  split; [discriminate|].
  exact (X21_chunks_cover_the_kept_lines
           ["first line" ++ PyStr.nl ++ " x " ++ PyStr.nl ++ "second"; "page"]
           [] 11 PyStr.nl ltac:(discriminate)).
Defined.

(** *** X22 *)

(** X22. No chunk starts or ends with whitespace: stripping the content of
    a returned chunk again changes nothing. *)
Theorem X22_chunks_are_stripped
    (texts : list string) (metadatas : list dict) (chunk_size : Z) (tag : string)
    (chunks : list Ingestion.Document) :
  Ingestion.process_simpler_splitter texts metadatas chunk_size tag = Ok chunks ->
  Forall (fun chunk =>
            Ingestion.strip (Ingestion.page_content chunk)
            = Ingestion.page_content chunk) chunks.
Proof.
  intros Hrun.
  destruct (String.eqb_spec tag EmptyString) as [-> | Htag]; [discriminate|].
  rewrite IngestionFacts.splitter_runs in Hrun by exact Htag.
  injection Hrun as <-.
  apply Forall_forall. intros chunk Hin. apply in_map_iff in Hin.
  destruct Hin as (raw & <- & _). apply IngestionFacts2.strip_idempotent.
Qed.

Lemma X22_witness :
  Ingestion.process_simpler_splitter ["  padded text  "; "x"] [] 5 PyStr.nl
  = Ok [{| Ingestion.page_content := "padded text   x"; Ingestion.metadata := [] |};
        {| Ingestion.page_content := EmptyString; Ingestion.metadata := [] |}]
  /\ Forall (fun chunk =>
               Ingestion.strip (Ingestion.page_content chunk)
               = Ingestion.page_content chunk)
       [{| Ingestion.page_content := "padded text   x"; Ingestion.metadata := [] |};
        {| Ingestion.page_content := EmptyString; Ingestion.metadata := [] |}].
Proof.
  split; [vm_compute; reflexivity|].
  exact (X22_chunks_are_stripped ["  padded text  "; "x"] [] 5 PyStr.nl _ eq_refl).
Defined.

(* ====================================================================== *)
(** ** Further properties: the callers *)
(* ====================================================================== *)

(** The guardrail registered by [AgentController] and the one defined in
    [FireBaseTool] give the same refusal, and neither depends on the query. *)
Lemma guardrails_agree (query query' : string) :
  AgentController.handle_sensitive_or_broad_data_request query
  = handle_sensitive_or_broad_data_request query'.
Proof. reflexivity. Qed.

(** *** X23 *)

(** X23. After [startup_event], the two database dependencies either both
    return the clients that the startup created, or both refuse with 503:
    whichever call of the startup fails (even the last one, after the
    synchronous client was already stored), both attributes are reset to
    [None].  Before any startup the attributes do not exist and both
    dependencies refuse with 503 as well. *)
Theorem X23_startup_and_database_dependencies
    (SyncClient AsyncClient : Type) (outcome : Web.startup SyncClient AsyncClient)
    (state : Web.app_state SyncClient AsyncClient) :
  let started := Web.startup_event outcome state in
  (forall sync_client async_client,
      outcome = Web.ClientsCreated sync_client async_client ->
      Web.get_sync_db_client started = Web.Returns sync_client
      /\ Web.get_async_db_client started = Web.Returns async_client)
  /\ ((forall sync_client async_client,
          outcome <> Web.ClientsCreated sync_client async_client) ->
      Web.get_sync_db_client started
      = Web.HTTPException 503 "Synchronous DB service is not available."
      /\ Web.get_async_db_client started
         = Web.HTTPException 503 "Asynchronous DB service is not available.")
  /\ (Web.db_client_sync state = Web.Unset ->
      Web.get_sync_db_client state
      = Web.HTTPException 503 "Synchronous DB service is not available.")
  /\ (Web.db_client_async state = Web.Unset ->
      Web.get_async_db_client state
      = Web.HTTPException 503 "Asynchronous DB service is not available.").
Proof.
  intros started. subst started.
  split; [|split; [|split]].
  - intros sync_client async_client ->. split; reflexivity.
  - intros Hfailed.
    destruct outcome; try (split; reflexivity).
    now elim (Hfailed sync_client async_client).
  - intros Hunset. unfold Web.get_sync_db_client. now rewrite Hunset.
  - intros Hunset. unfold Web.get_async_db_client. now rewrite Hunset.
Qed.

(** *** X24 *)

(** X24. [get_current_user_uid] returns the [uid] claim exactly when the
    credentials are present, the token verifies and the decoded token has a
    [uid]; in every other case (no credentials, a verification error, a
    decoded token without [uid]) it raises [HTTPException] with status 401,
    never another status. *)
Theorem X24_authentication_fails_with_401
    (verify_id_token : Web.verifier) (cred : option string) :
  (forall uid,
      Web.get_current_user_uid verify_id_token cred = Web.Returns uid
      <-> exists credentials decoded_token,
          cred = Some credentials
          /\ verify_id_token credentials = inr decoded_token
          /\ dict_get decoded_token "uid" = Some uid)
  /\ (forall status_code detail,
         Web.get_current_user_uid verify_id_token cred
         = Web.HTTPException status_code detail ->
         status_code = 401%Z).
Proof.
  unfold Web.get_current_user_uid. split.
  - intros uid. split.
    + destruct cred as [credentials|]; [|discriminate].
      destruct (verify_id_token credentials) as [e|decoded_token] eqn:Hv;
        [discriminate|].
      destruct (dict_get decoded_token "uid") as [u|] eqn:Hu; [|discriminate].
      intros [= ->]. exists credentials, decoded_token. auto.
    + intros (credentials & decoded_token & -> & Hv & Hu). now rewrite Hv, Hu.
  - intros status_code detail.
    destruct cred as [credentials|]; [|now intros [= <- _]].
    destruct (verify_id_token credentials) as [e|decoded_token];
      [now intros [= <- _]|].
    destruct (dict_get decoded_token "uid"); [discriminate | now intros [= <- _]].
Qed.

(* ====================================================================== *)
(** ** Requests about another person: the default of [request_details] *)
(* ====================================================================== *)

(** On a record whose amounts and document maps are well typed the summary
    is produced. *)
Lemma all_summary_ok (user_doc : dict) (name : value) :
  amount_ok user_doc "baseSalary" ->
  amount_ok user_doc "bonus" ->
  doc_map_ok user_doc "uploadedDocuments" ->
  doc_map_ok user_doc "resubmissionRequested" ->
  exists text, all_summary user_doc name = Ok text.
Proof.
  intros Hbase Hbonus Hup Hresub. unfold all_summary.
  destruct (summary_lines_ok user_doc ordered_keys Hbase Hbonus) as [fields ->].
  destruct (flag_line_ok user_doc "uploadedDocuments"
              "- Documents Submitted: " Hup) as [submitted ->].
  destruct (flag_line_ok user_doc "resubmissionRequested"
              "- Resubmission Required For: " Hresub) as [resubmit ->].
  cbn [rbind]. eauto.
Qed.

(** *** C10 *)

(** C10 (amended). For an hr caller, when the router answers
    [get_information_about_anyone] with parameters that omit
    [request_details], the dispatcher uses the value ["all"]; ["all"]
    contains no document keyword, so once the target is resolved the tool
    answers with what the formatter does for ["all"] on the target record,
    and with neither a clarification prompt nor a document-status answer:
    when the formatter returns, its text, the canonical summary that starts
    with the header line, is the answer; when the formatter raises on the
    target record, the answer is the rephrase text.  The formatter returns
    for every target whose base salary and bonus are absent or integers below
    [2 ^ 999] in magnitude and whose document maps are absent, falsy or
    dicts. *)
Theorem C10_request_details_defaults_to_all
    (llm : router) (query user_id : string) (db : Db)
    (user_doc response parameters target : dict) (target_id : value) (tr' : trace) :
  fails db (OpDocGet user_id) = false ->
  doc_lookup (users db) user_id = Some user_doc ->
  role_of user_doc = VStr "hr" ->
  llm query (VStr "hr") (available_actions_for (VStr "hr")) = Replies (VMap response) ->
  dict_get response "action_name" = Some (VStr "get_information_about_anyone") ->
  dict_get response "parameters" = Some (VMap parameters) ->
  dict_get parameters "request_details" = None ->
  dict_get parameters "target_identifier" = Some target_id ->
  _get_user_by_identifier (Some db) target_id
    [EvDocGet user_id; EvRoute query (VStr "hr") (available_actions_for (VStr "hr"))]
    = (Ok (Some target), tr') ->
  get_default (VMap parameters) "request_details" (VStr "all") = Ok (VStr "all")
  /\ existsb (fun keyword => contains keyword (lower "all")) doc_keywords = false
  /\ (forall text,
         _get_personal_data target (VStr "all") = Ok text ->
         run_tool llm query user_id (Some db) = (Ok text, tr')
         /\ exists rest,
             text = "Here is a summary for " ++ str (formatter_name target) ++ ":" ++ rest)
  /\ (forall e,
         _get_personal_data target (VStr "all") = Raise e ->
         run_tool llm query user_id (Some db) = (Ok msg_rephrase, tr'))
  /\ run_tool llm query user_id (Some db)
     = (answer_of (_get_personal_data target (VStr "all")), tr')
  /\ (amount_ok target "baseSalary" ->
      amount_ok target "bonus" ->
      doc_map_ok target "uploadedDocuments" ->
      doc_map_ok target "resubmissionRequested" ->
      exists text,
        _get_personal_data target (VStr "all") = Ok text
        /\ run_tool llm query user_id (Some db) = (Ok text, tr')).
Proof.
  intros Hstore Hcaller Hrole Hanswer Haction Hparams Hdetails Htarget Hfound.
  assert (run_tool llm query user_id (Some db)
          = (answer_of (_get_personal_data target (VStr "all")), tr')) as Hrun.
  { assert (available_actions_for (role_of user_doc) <> []) as Hmenu
      by (rewrite Hrole; discriminate).
    rewrite (tool_answered llm query user_id db user_doc Hstore Hcaller
               (VMap response) Hmenu); [|now rewrite Hrole].
    rewrite Hrole, try_except_answer.
    rewrite (dispatch_about_anyone _ _ _ _ _ Haction Hparams).
    rewrite (about_anyone_default _ _ _ _ _ _ Hdetails Htarget Hfound).
    reflexivity. }
  split; [cbn [get_default]; unfold dict_get_default; now rewrite Hdetails|].
  split; [reflexivity|].
  split; [|split; [|split]].
  - intros text Htext. split.
    + now rewrite Hrun, Htext.
    + rewrite personal_data_all in Htext. exact (all_summary_header _ _ _ Htext).
  - intros e He. now rewrite Hrun, He.
  - exact Hrun.
  - intros Hbase Hbonus Hup Hresub.
    destruct (all_summary_ok target (formatter_name target) Hbase Hbonus Hup Hresub)
      as [text Htext].
    rewrite <- personal_data_all in Htext.
    exists text. split; [exact Htext|]. now rewrite Hrun, Htext.
Qed.

(** Witness of C10: Hana (hr) asks about [bob@co.com] without saying what
    she needs, and receives Robert's summary. *)
Lemma C10_witness :
  role_of Fixtures.hana = VStr "hr"
  /\ dict_get [("target_identifier", VStr "bob@co.com")] "request_details" = None
  /\ run_tool
       (Fixtures.always
          (Fixtures.reply "get_information_about_anyone"
             [("target_identifier", VStr "bob@co.com")]))
       "tell me about bob@co.com" "u3" (Some Fixtures.db)
     = (Ok (join nl ["Here is a summary for Robert:"; "- Name: Robert";
                     "- Email: bob@co.com"; "- Role: new";
                     "- Documents Submitted: National ID Card"]),
        [EvDocGet "u3";
         EvRoute "tell me about bob@co.com" (VStr "hr")
           (available_actions_for (VStr "hr"));
         EvQuery "email" (VStr "bob@co.com") (Some 1%nat)]).
Proof.
  split; [reflexivity|]. split; [reflexivity|].
  exact (proj1 (proj1 (proj2 (proj2
           (C10_request_details_defaults_to_all
              (Fixtures.always
                 (Fixtures.reply "get_information_about_anyone"
                    [("target_identifier", VStr "bob@co.com")]))
              "tell me about bob@co.com" "u3" Fixtures.db Fixtures.hana
              [("action_name", VStr "get_information_about_anyone");
               ("parameters", VMap [("target_identifier", VStr "bob@co.com")])]
              [("target_identifier", VStr "bob@co.com")]
              Fixtures.robert (VStr "bob@co.com")
              [EvDocGet "u3";
               EvRoute "tell me about bob@co.com" (VStr "hr")
                 (available_actions_for (VStr "hr"));
               EvQuery "email" (VStr "bob@co.com") (Some 1%nat)]
              eq_refl eq_refl eq_refl eq_refl eq_refl eq_refl eq_refl eq_refl
              eq_refl)))
           _ eq_refl)).
Defined.

(** Counterexample to C10 as stated: Sara's base salary is stored as the
    text ["5000"].  Hana (hr) asks about her without saying what she needs;
    the target is resolved by email, the formatter raises [ValueError] on the
    salary line of the summary, and the tool answers with the rephrase text,
    not with a summary. *)
Lemma C10_counterexample :
  role_of Fixtures.hana = VStr "hr"
  /\ dict_get [("target_identifier", VStr "sara@co.com")] "request_details" = None
  /\ _get_user_by_identifier (Some Fixtures.db_text_salary) (VStr "sara@co.com")
       [EvDocGet "u3";
        EvRoute "tell me about sara@co.com" (VStr "hr")
          (available_actions_for (VStr "hr"))]
     = (Ok (Some Fixtures.sara),
        [EvDocGet "u3";
         EvRoute "tell me about sara@co.com" (VStr "hr")
           (available_actions_for (VStr "hr"));
         EvQuery "email" (VStr "sara@co.com") (Some 1%nat)])
  /\ _get_personal_data Fixtures.sara (VStr "all") = Raise ValueError
  /\ run_tool
       (Fixtures.always
          (Fixtures.reply "get_information_about_anyone"
             [("target_identifier", VStr "sara@co.com")]))
       "tell me about sara@co.com" "u3" (Some Fixtures.db_text_salary)
     = (Ok msg_rephrase,
        [EvDocGet "u3";
         EvRoute "tell me about sara@co.com" (VStr "hr")
           (available_actions_for (VStr "hr"));
         EvQuery "email" (VStr "sara@co.com") (Some 1%nat)])
  /\ forall rest,
      fst (run_tool
             (Fixtures.always
                (Fixtures.reply "get_information_about_anyone"
                   [("target_identifier", VStr "sara@co.com")]))
             "tell me about sara@co.com" "u3" (Some Fixtures.db_text_salary))
      <> Ok ("Here is a summary for Sara:" ++ rest).
Proof.
  split; [reflexivity|]. split; [reflexivity|].
  split; [vm_compute; reflexivity|]. split; [vm_compute; reflexivity|].
  assert (run_tool
            (Fixtures.always
               (Fixtures.reply "get_information_about_anyone"
                  [("target_identifier", VStr "sara@co.com")]))
            "tell me about sara@co.com" "u3" (Some Fixtures.db_text_salary)
          = (Ok msg_rephrase,
             [EvDocGet "u3";
              EvRoute "tell me about sara@co.com" (VStr "hr")
                (available_actions_for (VStr "hr"));
              EvQuery "email" (VStr "sara@co.com") (Some 1%nat)])) as Hrun
    by (vm_compute; reflexivity).
  split; [exact Hrun|].
  intros rest. rewrite Hrun. cbn [fst]. unfold msg_rephrase. discriminate.
Qed.
